(** * Partner backend: access control and workflow of submissions and partnerships

    A shallow embedding of the Express route handlers of [routes.js], the
    middleware of [auth.js] and the schema of [database.js].

    - A table is the list of its rows, in insertion order; a [CHECK] or
      [UNIQUE] of the schema makes the insert that breaks it throw,
      which the server answers with 500; so it answers whatever else
      a handler throws, and of such an answer only the code is the
      handler's ([Fail InternalError] with a text that stands for the
      body). No [REFERENCES] is enforced:
      [PRAGMA foreign_keys] is a setting of the connection, and the
      wrapper's [_save] replaces the connection (see [Database]).
    - A prepared statement's [.get()] is [find], [.all()] is [filter]
      followed by the [ORDER BY] sort, [.run()] returns the new store
      with the two counters the wrapper reads after saving.
    - A handler takes the decoded token ([req.user]), the path and body
      parameters and the store; it returns the response and, when it
      writes, the new store and the mails it hands to the mailer.
    - [CURRENT_TIMESTAMP] is the [now] argument of a writing handler.
    - An identifier is the integer the path parameter denotes. A body
      or query field read as a string is [None] when it is missing; the
      rating of a body is [None] or the rational the number denotes.
    - A string is the UTF-8 encoding of the JavaScript string; [length]
      counts UTF-16 code units, white space is that of [trim], and
      [toLowerCase] is modelled on the ASCII range.
    - The counts of the approval rate become binary64 numbers, with the
      operations of the standard library's IEEE 754 specification. *)

From Stdlib Require Import ZArith List String Ascii Bool Lia.
From Stdlib Require Import QArith Qround.
From Stdlib Require Import Sorting.Sorted Sorting.Permutation.
From Stdlib Require Import Floats.SpecFloat.
Import ListNotations.

Local Open Scope string_scope.
Local Open Scope list_scope.
Local Open Scope Z_scope.

(** ** HTTP responses *)

Inductive Response (A : Type) : Type :=
| Json (code : Z) (body : A)
| Fail (code : Z) (error : string).

Arguments Json {A} code body.
Arguments Fail {A} code error.

Definition status_code {A : Type} (r : Response A) : Z :=
  match r with
  | Json c _ => c
  | Fail c _ => c
  end.

Definition OK : Z := 200.
Definition Created : Z := 201.
Definition BadRequest : Z := 400.
Definition Forbidden : Z := 403.
Definition NotFound : Z := 404.
Definition Conflict : Z := 409.
Definition InternalError : Z := 500.

(** ** database.js: the schema *)

Module Users.
Record row : Type :=
  { id : Z; email : string; password : string; name : string;
    role : string; specialty : option string }.

(** [CHECK(role IN ('founder', 'board'))] *)
Definition check_role (r : string) : bool :=
  ((r =? "founder") || (r =? "board"))%string.
End Users.

Module Submissions.
Record row : Type :=
  { id : Z; user_id : Z; company_name : string; one_liner : string;
    industry : string; status : string; rating : option Q;
    submitted_at : Z }.

(** [CHECK(status IN ('new', 'under_review', 'more_info', 'approved', 'passed'))] *)
Definition check_status (s : string) : bool :=
  ((s =? "new") || (s =? "under_review") || (s =? "more_info")
   || (s =? "approved") || (s =? "passed"))%string.

Definition set_status (st : string) (s : row) : row :=
  {| id := id s; user_id := user_id s; company_name := company_name s;
     one_liner := one_liner s; industry := industry s; status := st;
     rating := rating s; submitted_at := submitted_at s |}.

Definition set_rating (r : option Q) (s : row) : row :=
  {| id := id s; user_id := user_id s; company_name := company_name s;
     one_liner := one_liner s; industry := industry s; status := status s;
     rating := r; submitted_at := submitted_at s |}.
End Submissions.

Module BoardNotes.
Record row : Type :=
  { id : Z; submission_id : Z; user_id : Z; text : string;
    founder_visible : Z; created_at : Z }.
End BoardNotes.

Module Partnerships.
Record row : Type :=
  { id : Z; submission_id : Z; user_id : Z; status : string;
    created_at : Z; responded_at : option Z }.

(** [CHECK(status IN ('pending', 'accepted', 'declined'))] *)
Definition check_status (s : string) : bool :=
  ((s =? "pending") || (s =? "accepted") || (s =? "declined"))%string.

(** [status IN ('pending', 'accepted')] *)
Definition active (p : row) : bool :=
  ((status p =? "pending") || (status p =? "accepted"))%string.

Definition respond (st : string) (now : Z) (p : row) : row :=
  {| id := id p; submission_id := submission_id p; user_id := user_id p;
     status := st; created_at := created_at p; responded_at := Some now |}.
End Partnerships.

(** ** auth.js *)

Module Auth.

(** The payload [createToken] signs and [requireAuth] puts in [req.user]. *)
Record ReqUser : Type := { id : Z; role : string }.

(** [createToken(user)]: the token stands for its verified payload. *)
Definition createToken (user : Users.row) : ReqUser :=
  {| id := Users.id user; role := Users.role user |}.

(** [requireRole(role)]: [None] is [next()], [Some msg] the 403 it sends. *)
Definition requireRole (required : string) (user : ReqUser) : option string :=
  if (role user =? "admin")%string then None
  else if negb (role user =? required)%string
       then Some ("Access restricted to " ++ required ++ " members")%string
       else None.

End Auth.

(** ** The store *)

Module Database.

(** The tables the handlers below read and write, with the
    [sqlite_sequence] counters of the two [AUTOINCREMENT] keys they
    insert into. *)
Record Db : Type :=
  { users : list Users.row;
    submissions : list Submissions.row;
    board_notes : list BoardNotes.row;
    partnerships : list Partnerships.row;
    users_seq : Z;
    partnerships_seq : Z }.

Definition with_users (db : Db) (us : list Users.row) (seq : Z) : Db :=
  {| users := us; submissions := submissions db;
     board_notes := board_notes db; partnerships := partnerships db;
     users_seq := seq; partnerships_seq := partnerships_seq db |}.

Definition with_submissions (db : Db) (ss : list Submissions.row) : Db :=
  {| users := users db; submissions := ss;
     board_notes := board_notes db; partnerships := partnerships db;
     users_seq := users_seq db; partnerships_seq := partnerships_seq db |}.

Definition with_partnerships (db : Db) (ps : list Partnerships.row) (seq : Z) : Db :=
  {| users := users db; submissions := submissions db;
     board_notes := board_notes db; partnerships := ps;
     users_seq := users_seq db; partnerships_seq := seq |}.

(** *** Sorting for [ORDER BY] *)

Section OrderBy.
Context {A : Type} (key : A -> Z).

Fixpoint insert_asc (x : A) (l : list A) : list A :=
  match l with
  | [] => [x]
  | y :: l' => if key x <=? key y then x :: y :: l' else y :: insert_asc x l'
  end.

(** [ORDER BY key ASC], rows of equal key in table order. *)
Definition order_by_asc (l : list A) : list A :=
  fold_right insert_asc [] l.

Fixpoint insert_desc (x : A) (l : list A) : list A :=
  match l with
  | [] => [x]
  | y :: l' => if key y <=? key x then x :: y :: l' else y :: insert_desc x l'
  end.

(** [ORDER BY key DESC], rows of equal key in table order. *)
Definition order_by_desc (l : list A) : list A :=
  fold_right insert_desc [] l.

(** Neighbours of a list in ascending key order. *)
Definition ascending (x y : A) : Prop := key x <= key y.
End OrderBy.

(** *** Lookups by key *)

(** [SELECT ... FROM users WHERE id = ?] *)
Definition user_by_id (db : Db) (uid : Z) : option Users.row :=
  find (fun u => Users.id u =? uid) (users db).

(** [SELECT id FROM users WHERE email = ?] *)
Definition user_by_email (db : Db) (e : string) : option Users.row :=
  find (fun u => (Users.email u =? e)%string) (users db).

(** [SELECT ... FROM submissions WHERE id = ?] *)
Definition submission_by_id (db : Db) (sid : Z) : option Submissions.row :=
  find (fun s => Submissions.id s =? sid) (submissions db).

(** [SELECT s.*, u.name as founder_name FROM submissions s
     JOIN users u ON s.user_id = u.id WHERE s.id = ?] *)
Definition submission_with_founder (db : Db) (sid : Z)
  : option (Submissions.row * string) :=
  find (fun su => Submissions.id (fst su) =? sid)
       (flat_map (fun s =>
                    match user_by_id db (Submissions.user_id s) with
                    | Some u => [(s, Users.name u)]
                    | None => []
                    end) (submissions db)).

(** *** What [run] hands back

    [run] of the wrapper steps the statement, then calls [save()], then
    reads [getRowsModified()] and [last_insert_rowid()]. [_save] calls
    sql.js's [export()], which closes the connection and opens the
    database again, and both are counters of the connection: what
    [run] reads are those of a connection that has run nothing. *)
Definition changes : Z := 0.
Definition lastInsertRowid : Z := 0.

(** *** Writes; [None] is a constraint violation, which the driver throws *)

(** [INSERT INTO users (email, password, name, role, specialty)]:
    [UNIQUE] on email and the [CHECK] on role; the key is the next of
    [AUTOINCREMENT], the second component what [run] hands back. *)
Definition insert_user (db : Db) (e pw n r : string) (sp : option string)
  : option (Db * Z) :=
  if negb (Users.check_role r) then None
  else match user_by_email db e with
       | Some _ => None
       | None =>
           let rowid := users_seq db + 1 in
           Some (with_users db
                   (users db ++
                      [{| Users.id := rowid; Users.email := e;
                          Users.password := pw; Users.name := n;
                          Users.role := r; Users.specialty := sp |}])
                   rowid,
                 lastInsertRowid)
       end.

(** [SELECT id FROM partnerships WHERE submission_id = ? AND user_id = ?] *)
Definition partnership_of (db : Db) (sid uid : Z) : option Partnerships.row :=
  find (fun p => (Partnerships.submission_id p =? sid)
                 && (Partnerships.user_id p =? uid))
       (partnerships db).

(** [SELECT COUNT( * ) FROM partnerships
     WHERE submission_id = ? AND status IN ('pending', 'accepted')] *)
Definition active_count (db : Db) (sid : Z) : Z :=
  Z.of_nat (List.length (filter (fun p => (Partnerships.submission_id p =? sid)
                                     && Partnerships.active p)
                           (partnerships db))).

(** [INSERT INTO partnerships (submission_id, user_id)]:
    [UNIQUE(submission_id, user_id)]; status takes its default
    ['pending'], [created_at] the clock, [responded_at] NULL. *)
Definition insert_partnership (db : Db) (sid uid now : Z) : option (Db * Z) :=
  match partnership_of db sid uid with
  | None =>
      let rowid := partnerships_seq db + 1 in
      Some (with_partnerships db
              (partnerships db ++
                 [{| Partnerships.id := rowid;
                     Partnerships.submission_id := sid;
                     Partnerships.user_id := uid;
                     Partnerships.status := "pending";
                     Partnerships.created_at := now;
                     Partnerships.responded_at := None |}])
              rowid,
            lastInsertRowid)
  | Some _ => None
  end.

(** [UPDATE submissions SET status = ? WHERE id = ?] *)
Definition update_status (db : Db) (st : string) (sid : Z) : Db :=
  with_submissions db
    (map (fun s => if Submissions.id s =? sid
                   then Submissions.set_status st s else s)
         (submissions db)).

(** [UPDATE submissions SET rating = ? WHERE id = ?] *)
Definition update_rating (db : Db) (r : Q) (sid : Z) : Db :=
  with_submissions db
    (map (fun s => if Submissions.id s =? sid
                   then Submissions.set_rating (Some r) s else s)
         (submissions db)).

(** [UPDATE partnerships SET status = ?, responded_at = CURRENT_TIMESTAMP
     WHERE id = ?] *)
Definition update_partnership (db : Db) (st : string) (now pid : Z) : Db :=
  with_partnerships db
    (map (fun p => if Partnerships.id p =? pid
                   then Partnerships.respond st now p else p)
         (partnerships db))
    (partnerships_seq db).

(** The rows [DELETE FROM partnerships WHERE submission_id = ?
    AND user_id = ? AND status = 'pending'] removes. *)
Definition withdrawable (sid uid : Z) (p : Partnerships.row) : bool :=
  (Partnerships.submission_id p =? sid)
  && (Partnerships.user_id p =? uid)
  && (Partnerships.status p =? "pending")%string.

(** The statement above: the store without those rows, and the
    [changes] that [run] hands back. *)
Definition delete_pending (db : Db) (sid uid : Z) : Db * Z :=
  (with_partnerships db
     (filter (fun p => negb (withdrawable sid uid p)) (partnerships db))
     (partnerships_seq db),
   changes).

End Database.

(** ** JavaScript numbers

    [approved / (approved + passed) * 100] is binary64 arithmetic; the
    operations are those of the IEEE 754 specification of the standard
    library at precision 53. *)

Module JsNumber.

Definition prec : Z := 53.
Definition emax : Z := 1024.

(** The Number an integer count becomes. *)
Definition of_Z (z : Z) : spec_float := binary_normalize prec emax z 0 false.

Definition div (x y : spec_float) : spec_float := SFdiv prec emax x y.
Definition mul (x y : spec_float) : spec_float := SFmul prec emax x y.

(** [Math.round]: the integer closest to [x], the one towards +Infinity
    when two are equally close, that is the floor of [x + 1/2] computed
    exactly. [None] is NaN or an infinity. *)
Definition Math_round (x : spec_float) : option Z :=
  match x with
  | S754_zero _ => Some 0
  | S754_finite s m e =>
      let v := if s then Z.neg m else Z.pos m in
      if 0 <=? e then Some (v * 2 ^ e)
      else Some ((2 * v + 2 ^ (- e)) / 2 ^ (1 - e))
  | _ => None
  end.

End JsNumber.

(** ** JavaScript strings and truthiness *)

Module Js.

Definition lower_ascii (c : ascii) : ascii :=
  let n := nat_of_ascii c in
  if ((65 <=? n) && (n <=? 90))%nat then ascii_of_nat (n + 32) else c.

(** [String.prototype.toLowerCase] on the ASCII range; a letter outside
    it is left as it is, and what is proved of letter case is proved
    of strings that are [ascii_only]. *)
Fixpoint toLowerCase (s : string) : string :=
  match s with
  | EmptyString => EmptyString
  | String c s' => String (lower_ascii c) (toLowerCase s')
  end.

(** [!x] for a body or query field that is a string when present:
    [None] is a missing ([undefined] or [null]) field. *)
Definition falsy (x : option string) : bool :=
  match x with
  | None => true
  | Some s => (s =? "")%string
  end.

(** [!x] for a field that is a number when present. *)
Definition falsy_number (x : option Q) : bool :=
  match x with
  | None => true
  | Some q => Qeq_bool q 0
  end.

(** [x < y] and [x > y] on numbers. *)
Definition lt (x y : Q) : bool := negb (Qle_bool y x).
Definition gt (x y : Q) : bool := negb (Qle_bool x y).

(** The byte is one of the ASCII range. *)
Definition ascii_byte (c : ascii) : bool := (nat_of_ascii c <? 128)%nat.

(** Every character of the string is an ASCII one. *)
Fixpoint ascii_only (s : string) : bool :=
  match s with
  | EmptyString => true
  | String c s' => ascii_byte c && ascii_only s'
  end.

(** The UTF-16 code units a byte of an UTF-8 string stands for: none
    for a continuation byte, two for the lead byte of a four-byte
    sequence (a surrogate pair), one for any other. *)
Definition units (c : ascii) : nat :=
  let n := nat_of_ascii c in
  if ((128 <=? n) && (n <? 192))%nat then 0%nat
  else if (240 <=? n)%nat then 2%nat
  else 1%nat.

(** [String.prototype.length] *)
Fixpoint length (s : string) : nat :=
  match s with
  | EmptyString => 0%nat
  | String c s' => (units c + length s')%nat
  end.

(** [Array.prototype.includes] on an array of strings. *)
Definition includes (l : list string) (x : option string) : bool :=
  match x with
  | None => false
  | Some s => existsb (fun v => (v =? s)%string) l
  end.

End Js.

(** ** database.js: the tables at start-up *)

Module Seed.
Import Database.

(** The store [initializeDatabase] creates: every table empty. *)
Definition empty : Db :=
  {| users := []; submissions := []; board_notes := []; partnerships := [];
     users_seq := 0; partnerships_seq := 0 |}.

Section Seeding.
Variable hashSync : string -> string.

Definition hp : string := hashSync "Demo1234!".

Definition seed_user (i : Z) (e n r : string) (sp : option string) : Users.row :=
  {| Users.id := i; Users.email := e; Users.password := hp; Users.name := n;
     Users.role := r; Users.specialty := sp |}.

Definition seed_users : list Users.row :=
  [ seed_user 1 "founder@demo.com" "Alex Chen" "founder" None;
    seed_user 2 "sarah@partner.io" "Sarah Kingston" "board" (Some "Healthcare & BioTech");
    seed_user 3 "james@partner.io" "James Morrow" "board" (Some "FinTech & SaaS");
    seed_user 4 "aisha@partner.io" "Aisha Patel" "board" (Some "AI & Deep Tech");
    seed_user 5 "david@partner.io" "David Chen" "board" (Some "Operations & Growth");
    seed_user 6 "maya@partner.io" "Maya Roberts" "board" (Some "Impact & CleanTech") ].

(** Dates are written as the integer [yyyymmdd]. *)
Definition seed_submissions : list Submissions.row :=
  [ {| Submissions.id := 1; Submissions.user_id := 1;
       Submissions.company_name := "NeuralPay";
       Submissions.one_liner :=
         "AI-powered fraud detection for African mobile money platforms";
       Submissions.industry := "FinTech"; Submissions.status := "under_review";
       Submissions.rating := Some 4%Q; Submissions.submitted_at := 20260210 |};
    {| Submissions.id := 2; Submissions.user_id := 1;
       Submissions.company_name := "PayFlow";
       Submissions.one_liner :=
         "Instant cross-border payments for freelancers in Africa";
       Submissions.industry := "FinTech"; Submissions.status := "approved";
       Submissions.rating := Some 5%Q; Submissions.submitted_at := 20260120 |};
    {| Submissions.id := 3; Submissions.user_id := 1;
       Submissions.company_name := "QuickLedger";
       Submissions.one_liner :=
         "Automated bookkeeping for SMBs in emerging markets";
       Submissions.industry := "FinTech"; Submissions.status := "passed";
       Submissions.rating := Some 2%Q; Submissions.submitted_at := 20251205 |} ].

Definition seed_note (i sid uid : Z) (t : string) (fv at_ : Z) : BoardNotes.row :=
  {| BoardNotes.id := i; BoardNotes.submission_id := sid;
     BoardNotes.user_id := uid; BoardNotes.text := t;
     BoardNotes.founder_visible := fv; BoardNotes.created_at := at_ |}.

Definition seed_notes : list BoardNotes.row :=
  [ seed_note 1 1 2 "Strong product-market fit. Requesting financial projections."
              1 20260213;
    seed_note 2 2 2 "Exceptional traction. Connecting with our healthcare network."
              1 20260201;
    seed_note 3 2 3 "Internal: verify regulatory compliance before introductions."
              0 20260203;
    seed_note 4 3 2 "Market too competitive. Encouraged to reapply."
              1 20251215 ].

(** [seedDatabase], run on the store [initializeDatabase] returns:
    nothing when a user exists already, else the demo rows, whose keys
    count from 1. *)
Definition seedDatabase (db : Db) : Db :=
  if Z.of_nat (List.length (users db)) >? 0 then db
  else {| users := seed_users; submissions := seed_submissions;
          board_notes := seed_notes; partnerships := partnerships db;
          users_seq := 6; partnerships_seq := partnerships_seq db |}.
End Seeding.
End Seed.

(** ** routes.js *)

Module Routes.
Import Database.

(** A mail handed to [email.sendEmail]; delivery is not awaited. *)
Record Mail : Type := { rcpt : string; template : string }.

(** What a writing handler leaves behind. *)
Record Outcome (A : Type) : Type :=
  { res : Response A; store : Db; outbox : list Mail }.

Arguments res {A} _.
Arguments store {A} _.
Arguments outbox {A} _.

Definition reply {A : Type} (r : Response A) (db : Db) (ms : list Mail)
  : Outcome A :=
  {| res := r; store := db; outbox := ms |}.

(** A route behind [requireAuth, requireRole(required)]. *)
Definition guarded {A : Type} (required : string) (user : Auth.ReqUser)
           (db : Db) (handler : Outcome A) : Outcome A :=
  match Auth.requireRole required user with
  | Some msg => reply (Fail Forbidden msg) db []
  | None => handler
  end.

(** The same for a route that only reads. *)
Definition guarded_read {A : Type} (required : string) (user : Auth.ReqUser)
           (handler : Response A) : Response A :=
  match Auth.requireRole required user with
  | Some msg => Fail Forbidden msg
  | None => handler
  end.

(** *** Accounts *)

Record Account : Type := { user : Users.row; token : Auth.ReqUser }.

Section Accounts.
(** [bcrypt.hashSync(password, 10)] *)
Variable hashSync : string -> string.

(** [POST /auth/register] *)
Definition register (db : Db) (name email password : option string)
  : Outcome Account :=
  match name, email, password with
  | Some n, Some e, Some pw =>
      if Js.falsy name || Js.falsy email || Js.falsy password
      then reply (Fail BadRequest "Name, email, and password are required") db []
      else if Z.of_nat (Js.length pw) <? 8
      then reply (Fail BadRequest "Password must be at least 8 characters") db []
      else
        match user_by_email db (Js.toLowerCase e) with
        | Some _ =>
            reply (Fail Conflict "An account with this email already exists") db []
        | None =>
            match insert_user db (Js.toLowerCase e) (hashSync pw) n "founder" None with
            | None => reply (Fail InternalError "Internal server error") db []
            | Some (db', rowid) =>
                match user_by_id db' rowid with
                | Some u =>
                    reply (Json Created {| user := u; token := Auth.createToken u |})
                          db' []
                | None => reply (Fail InternalError "Internal server error") db' []
                end
            end
        end
  | _, _, _ =>
      reply (Fail BadRequest "Name, email, and password are required") db []
  end.

(** [POST /admin/board-members] *)
Definition create_board_member (db : Db) (actor : Auth.ReqUser)
           (name email password specialty : option string)
  : Outcome (option Users.row) :=
  guarded "admin" actor db
    match name, email, password with
    | Some n, Some e, Some pw =>
        if Js.falsy name || Js.falsy email || Js.falsy password
        then reply (Fail BadRequest "Name, email, and password required") db []
        else
          match user_by_email db (Js.toLowerCase e) with
          | Some _ => reply (Fail Conflict "Email already exists") db []
          | None =>
              match insert_user db (Js.toLowerCase e) (hashSync pw) n "board"
                                (if Js.falsy specialty then None else specialty) with
              | None => reply (Fail InternalError "Internal server error") db []
              | Some (db', rowid) =>
                  reply (Json Created (user_by_id db' rowid)) db' []
              end
          end
    | _, _, _ => reply (Fail BadRequest "Name, email, and password required") db []
    end.
End Accounts.


(** *** Submissions *)

(** A note with the [author_name] of the join. *)
Definition NoteView : Type := (BoardNotes.row * string)%type.

(** [FROM board_notes bn JOIN users u ON bn.user_id = u.id] *)
Definition notes_with_author (db : Db) : list NoteView :=
  flat_map (fun n =>
              match user_by_id db (BoardNotes.user_id n) with
              | Some u => [(n, Users.name u)]
              | None => []
              end) (board_notes db).

(** [noteCondition]: ["AND bn.founder_visible = 1"] for a founder. *)
Definition noteCondition (actor : Auth.ReqUser) (n : BoardNotes.row) : bool :=
  if (Auth.role actor =? "founder")%string
  then BoardNotes.founder_visible n =? 1
  else true.

(** [SELECT bn.*, u.name as author_name ...
     WHERE bn.submission_id = ? ${noteCondition}
     ORDER BY bn.created_at ASC] *)
Definition select_notes (db : Db) (actor : Auth.ReqUser) (sid : Z)
  : list NoteView :=
  order_by_asc (fun nv => BoardNotes.created_at (fst nv))
    (filter (fun nv => (BoardNotes.submission_id (fst nv) =? sid)
                       && noteCondition actor (fst nv))
            (notes_with_author db)).

(** A partnership with [partner_name] and [partner_specialty]. *)
Definition PartnerView : Type :=
  (Partnerships.row * string * option string)%type.

(** [FROM partnerships p JOIN users u ON p.user_id = u.id] *)
Definition partnerships_with_partner (db : Db) : list PartnerView :=
  flat_map (fun p =>
              match user_by_id db (Partnerships.user_id p) with
              | Some u => [(p, Users.name u, Users.specialty u)]
              | None => []
              end) (partnerships db).

(** [... WHERE p.submission_id = ? ORDER BY p.created_at ASC] *)
Definition select_partners (db : Db) (sid : Z) : list PartnerView :=
  order_by_asc (fun pv => Partnerships.created_at (fst (fst pv)))
    (filter (fun pv => Partnerships.submission_id (fst (fst pv)) =? sid)
            (partnerships_with_partner db)).

(** The submission a read returns. Tags, chat messages and meeting
    requests come from tables that are not part of this store. *)
Record SubmissionView : Type :=
  { submission : Submissions.row;
    founder_name : string;
    notes : list NoteView;
    partners : list PartnerView }.

(** [GET /submissions/:id] *)
Definition get_submission (db : Db) (actor : Auth.ReqUser) (sid : Z)
  : Response SubmissionView :=
  match submission_with_founder db sid with
  | None => Fail NotFound "Submission not found"
  | Some (sub, fname) =>
      if (Auth.role actor =? "founder")%string
         && negb (Submissions.user_id sub =? Auth.id actor)
      then Fail Forbidden "Access denied"
      else Json OK {| submission := sub;
                      founder_name := fname;
                      notes := select_notes db actor (Submissions.id sub);
                      partners := select_partners db (Submissions.id sub) |}
  end.

(** An entry of the list: the row, [founder_name] and the notes; the
    tags and the chat count come from tables outside this store. *)
Record Listed : Type :=
  { listed : Submissions.row;
    listed_founder_name : string;
    listed_notes : list NoteView }.

(** [req.query] of the list route. *)
Record Query : Type :=
  { status : option string; industry : option string; search : option string }.

Section Listing.
(** SQLite's [text LIKE pattern]. *)
Variable sql_like : string -> string -> bool.

(** The [conditions] pushed for a request, joined by [AND]. *)
Definition list_conditions (actor : Auth.ReqUser) (q : Query)
  : list (Submissions.row -> bool) :=
  (if (Auth.role actor =? "founder")%string
   then [fun s => Submissions.user_id s =? Auth.id actor] else [])
  ++ (match status q with
      | Some st => if negb (Js.falsy (status q)) && negb (st =? "all")%string
                   then [fun s => (Submissions.status s =? st)%string] else []
      | None => []
      end)
  ++ (match industry q with
      | Some ind => if negb (Js.falsy (industry q)) && negb (ind =? "all")%string
                    then [fun s => (Submissions.industry s =? ind)%string] else []
      | None => []
      end)
  ++ (match search q with
      | Some term => if negb (Js.falsy (search q))
                     then let searchTerm := ("%" ++ term ++ "%")%string in
                          [fun s => sql_like (Submissions.company_name s) searchTerm
                                    || sql_like (Submissions.one_liner s) searchTerm
                                    || sql_like (Submissions.industry s) searchTerm]
                     else []
      | None => []
      end).

(** [GET /submissions]: the rows of the join that meet every
    condition, newest first, each with its notes. *)
Definition list_submissions (db : Db) (actor : Auth.ReqUser) (q : Query)
  : Response (list Listed) :=
  let rows :=
    order_by_desc (fun su => Submissions.submitted_at (fst su))
      (filter (fun su => forallb (fun c => c (fst su)) (list_conditions actor q))
              (flat_map (fun s =>
                           match user_by_id db (Submissions.user_id s) with
                           | Some u => [(s, Users.name u)]
                           | None => []
                           end) (submissions db))) in
  Json OK (map (fun su =>
                  {| listed := fst su;
                     listed_founder_name := snd su;
                     listed_notes :=
                       select_notes db actor (Submissions.id (fst su)) |})
               rows).
End Listing.

Definition valid : list string :=
  ["new"; "under_review"; "more_info"; "approved"; "passed"].

(** [PATCH /submissions/:id/status]; the body of the reply is the
    status of [{ success: true, status }]. *)
Definition patch_status (db : Db) (actor : Auth.ReqUser) (sid : Z)
           (status : option string) : Outcome string :=
  guarded "board" actor db
    match status with
    | Some st =>
        if negb (Js.includes valid status)
        then reply (Fail BadRequest "Invalid status") db []
        else
          let db' := update_status db st sid in
          let mails :=
            match submission_by_id db' sid with
            | Some sub =>
                match user_by_id db' (Submissions.user_id sub) with
                | Some founder =>
                    [{| rcpt := Users.email founder; template := "statusChange" |}]
                | None => []
                end
            | None => []
            end in
          reply (Json OK st) db' mails
    | None => reply (Fail BadRequest "Invalid status") db []
    end.

(** [PATCH /submissions/:id/rating]; the body of the reply is the
    rating of [{ success: true, rating }]. *)
Definition patch_rating (db : Db) (actor : Auth.ReqUser) (sid : Z)
           (rating : option Q) : Outcome Q :=
  guarded "board" actor db
    match rating with
    | Some r =>
        if Js.falsy_number rating || Js.lt r 1 || Js.gt r 5
        then reply (Fail BadRequest "Rating must be between 1 and 5") db []
        else reply (Json OK r) (update_rating db r sid) []
    | None => reply (Fail BadRequest "Rating must be between 1 and 5") db []
    end.


(** *** Partnerships *)

(** [SELECT p.*, u.name as partner_name, u.specialty as partner_specialty
     ... WHERE p.id = ?] *)
Definition partner_by_id (db : Db) (pid : Z) : option PartnerView :=
  find (fun pv => Partnerships.id (fst (fst pv)) =? pid)
       (partnerships_with_partner db).

(** [POST /submissions/:id/partner] *)
Definition claim (db : Db) (actor : Auth.ReqUser) (subId now : Z)
  : Outcome (option PartnerView) :=
  guarded "board" actor db
    match submission_by_id db subId with
    | None => reply (Fail NotFound "Submission not found") db []
    | Some sub =>
        match partnership_of db subId (Auth.id actor) with
        | Some _ =>
            reply (Fail Conflict "You have already requested to partner") db []
        | None =>
            if active_count db subId >=? 3
            then reply (Fail BadRequest
                             "Maximum 3 partners reached for this submission") db []
            else
              match insert_partnership db subId (Auth.id actor) now with
              | None => reply (Fail InternalError "Internal server error") db []
              | Some (db', rowid) =>
                  let partnership := partner_by_id db' rowid in
                  match user_by_id db' (Submissions.user_id sub) with
                  | Some founder =>
                      match partnership with
                      | Some _ =>
                          reply (Json Created partnership) db'
                                [{| rcpt := Users.email founder;
                                    template := "partnerRequest" |}]
                      | None =>
                          reply (Fail InternalError "Internal server error") db' []
                      end
                  | None => reply (Json Created partnership) db' []
                  end
              end
        end
    end.

(** [DELETE /submissions/:id/partner] *)
Definition withdraw (db : Db) (actor : Auth.ReqUser) (subId : Z)
  : Outcome unit :=
  guarded "board" actor db
    (let (db', result_changes) := delete_pending db subId (Auth.id actor) in
     if result_changes =? 0
     then reply (Fail BadRequest "No pending partnership to withdraw") db' []
     else reply (Json OK tt) db' []).

(** [SELECT p.*, s.user_id as founder_id FROM partnerships p
     JOIN submissions s ON p.submission_id = s.id WHERE p.id = ?] *)
Definition partnership_with_founder (db : Db) (pid : Z)
  : option (Partnerships.row * Z) :=
  find (fun pf => Partnerships.id (fst pf) =? pid)
       (flat_map (fun p =>
                    match submission_by_id db (Partnerships.submission_id p) with
                    | Some s => [(p, Submissions.user_id s)]
                    | None => []
                    end) (partnerships db)).

(** [PATCH /partnerships/:id/respond]; the body of the reply is the
    status of [{ success: true, status: response }]. *)
Definition respond (db : Db) (actor : Auth.ReqUser) (pid : Z)
           (response : option string) (now : Z) : Outcome string :=
  guarded "founder" actor db
    match response with
    | Some decision =>
        if negb (Js.includes ["accepted"; "declined"] response)
        then reply (Fail BadRequest "Response must be 'accepted' or 'declined'") db []
        else
          match partnership_with_founder db pid with
          | None => reply (Fail NotFound "Partnership not found") db []
          | Some (partnership, founder_id) =>
              if negb (founder_id =? Auth.id actor)
              then reply (Fail Forbidden "Access denied") db []
              else if negb (Partnerships.status partnership =? "pending")%string
              then reply (Fail BadRequest "Partnership already responded to") db []
              else
                let db' := update_partnership db decision now pid in
                let mails :=
                  match user_by_id db' (Partnerships.user_id partnership),
                        user_by_id db' (Auth.id actor),
                        submission_by_id db' (Partnerships.submission_id partnership)
                  with
                  | Some boardMember, Some _, Some _ =>
                      [{| rcpt := Users.email boardMember;
                          template := "partnerResponse" |}]
                  | _, _, _ => []
                  end in
                reply (Json OK decision) db' mails
          end
    | None => reply (Fail BadRequest "Response must be 'accepted' or 'declined'") db []
    end.

(** *** Analytics *)

(** [COUNT( * ) FROM submissions WHERE status = ?] *)
Definition count_status (db : Db) (st : string) : Z :=
  Z.of_nat (List.length (filter (fun s => (Submissions.status s =? st)%string)
                                (submissions db))).

(** The ratings of [WHERE rating IS NOT NULL]. *)
Definition ratings (db : Db) : list Q :=
  flat_map (fun s => match Submissions.rating s with
                     | Some r => [r]
                     | None => []
                     end) (submissions db).

(** [SELECT AVG(rating) ... WHERE rating IS NOT NULL]: NULL over no
    row, else the mean (taken exactly here). *)
Definition avg_rating (db : Db) : option Q :=
  match ratings db with
  | [] => None
  | rs => Some (fold_right Qplus 0%Q rs / inject_Z (Z.of_nat (List.length rs)))%Q
  end.

(** The [avgRating] field: the string ["N/A"], or [avg.toFixed(1)],
    kept as the number it formats. *)
Inductive AvgRating : Type :=
| Sentinel (s : string)
| ToFixed1 (avg : Q).

(** [avgRating ? avgRating.toFixed(1) : "N/A"] *)
Definition avgRating_field (avg : option Q) : AvgRating :=
  if Js.falsy_number avg then Sentinel "N/A"
  else match avg with
       | Some a => ToFixed1 a
       | None => Sentinel "N/A"
       end.

(** [(approved + passed) > 0
      ? Math.round((approved / (approved + passed)) * 100) : 0] *)
Definition approvalRate (approved passed : Z) : option Z :=
  if approved + passed >? 0
  then JsNumber.Math_round
         (JsNumber.mul
            (JsNumber.div (JsNumber.of_Z approved)
                          (JsNumber.of_Z (approved + passed)))
            (JsNumber.of_Z 100))
  else Some 0.

(** "Rounded to the nearest integer percent": no integer is closer than
    [r] to [100 * approved / (approved + passed)]. *)
Definition nearest_percent (approved passed r : Z) : Prop :=
  Z.abs (2 * (r * (approved + passed) - 100 * approved)) <= approved + passed.

Record Analytics : Type :=
  { total : Z;
    approved_count : Z;
    passed_count : Z;
    avgRating : AvgRating;
    approval_rate : option Z }.

(** [GET /analytics], its counts, [avgRating] and [approvalRate]. *)
Definition analytics (db : Db) (actor : Auth.ReqUser) : Response Analytics :=
  guarded_read "board" actor
    (let approved := count_status db "approved" in
     let passed := count_status db "passed" in
     Json OK {| total := Z.of_nat (List.length (submissions db));
                approved_count := approved;
                passed_count := passed;
                avgRating := avgRating_field (avg_rating db);
                approval_rate := approvalRate approved passed |}).


(** *** Requests served one after another *)

(** The writing routes above, as requests. *)
Inductive Request : Type :=
| Register (name email password : option string)
| CreateBoardMember (actor : Auth.ReqUser) (name email password specialty : option string)
| PatchStatus (actor : Auth.ReqUser) (sid : Z) (status : option string)
| PatchRating (actor : Auth.ReqUser) (sid : Z) (rating : option Q)
| Claim (actor : Auth.ReqUser) (subId now : Z)
| Withdraw (actor : Auth.ReqUser) (subId : Z)
| Respond (actor : Auth.ReqUser) (pid : Z) (response : option string) (now : Z).

Section Serving.
Variable hashSync : string -> string.

(** The store a request leaves. *)
Definition serve (db : Db) (r : Request) : Db :=
  match r with
  | Register n e pw => store (register hashSync db n e pw)
  | CreateBoardMember a n e pw sp => store (create_board_member hashSync db a n e pw sp)
  | PatchStatus a sid st => store (patch_status db a sid st)
  | PatchRating a sid r => store (patch_rating db a sid r)
  | Claim a sid now => store (claim db a sid now)
  | Withdraw a sid => store (withdraw db a sid)
  | Respond a pid d now => store (respond db a pid d now)
  end.

Definition serve_all (db : Db) (rs : list Request) : Db :=
  fold_left serve rs db.
End Serving.

End Routes.

(** ** What the schema keeps true of a store *)

Module Invariants.
Import Database.

(** The columns of [UNIQUE(submission_id, user_id)]. *)
Definition pair_of (p : Partnerships.row) : Z * Z :=
  (Partnerships.submission_id p, Partnerships.user_id p).

(** No submission has more than three pending or accepted rows. *)
Definition capped (db : Db) : Prop :=
  forall sid, active_count db sid <= 3.

(** [UNIQUE(submission_id, user_id)] on partnerships. *)
Definition pairs_unique (db : Db) : Prop :=
  NoDup (map pair_of (partnerships db)).

(** [INTEGER PRIMARY KEY AUTOINCREMENT] on partnerships: keys are
    unique, count from 1 and are not ahead of the sequence. *)
Definition keys_fresh (db : Db) : Prop :=
  NoDup (map Partnerships.id (partnerships db))
  /\ forall p, In p (partnerships db) ->
               0 < Partnerships.id p <= partnerships_seq db.

(** Every partnership is on a submission of the table: the claim
    route looks the submission up first and no route deletes one. *)
Definition partners_exist (db : Db) : Prop :=
  forall p, In p (partnerships db) ->
            submission_by_id db (Partnerships.submission_id p) <> None.

(** Every submission's owner has a user row: the seeded ones do, and
    no route of [Routes.Request] inserts a submission or deletes a
    user. *)
Definition owners_exist (db : Db) : Prop :=
  forall s, In s (submissions db) ->
            user_by_id db (Submissions.user_id s) <> None.

(** Every board note's author has a user row. No constraint makes it
    so: a note is stored under whatever identifier the token of its
    author carries. *)
Definition authors_exist (db : Db) : Prop :=
  forall n, In n (board_notes db) ->
            user_by_id db (BoardNotes.user_id n) <> None.

(** The [CHECK] on [users.role]. *)
Definition roles_checked (db : Db) : Prop :=
  forall u, In u (users db) ->
            Users.role u = "founder" \/ Users.role u = "board".

(** Every stored email is the lower-case form the handlers insert. *)
Definition emails_lowercase (db : Db) : Prop :=
  forall u, In u (users db) -> Js.toLowerCase (Users.email u) = Users.email u.

(** [INTEGER PRIMARY KEY AUTOINCREMENT] on users: keys count from 1
    and are not ahead of the sequence. *)
Definition user_keys_fresh (db : Db) : Prop :=
  forall u, In u (users db) -> 0 < Users.id u <= users_seq db.

(** The two sequences count from 0. *)
Definition sequences_started (db : Db) : Prop :=
  0 <= users_seq db /\ 0 <= partnerships_seq db.

Record consistent (db : Db) : Prop :=
  { is_capped : capped db;
    has_pairs_unique : pairs_unique db;
    has_keys_fresh : keys_fresh db;
    has_partners : partners_exist db;
    has_owners : owners_exist db;
    has_roles : roles_checked db;
    has_lowercase : emails_lowercase db;
    has_user_keys : user_keys_fresh db;
    has_sequences : sequences_started db }.

(** The row a registration inserts. *)
Definition founder_row (hashSync : string -> string) (db : Db) (n e pw : string)
  : Users.row :=
  {| Users.id := users_seq db + 1; Users.email := Js.toLowerCase e;
     Users.password := hashSync pw; Users.name := n;
     Users.role := "founder"; Users.specialty := None |}.

(** The row a claim inserts. *)
Definition pending_row (db : Db) (sid uid now : Z) : Partnerships.row :=
  {| Partnerships.id := partnerships_seq db + 1;
     Partnerships.submission_id := sid;
     Partnerships.user_id := uid;
     Partnerships.status := "pending";
     Partnerships.created_at := now;
     Partnerships.responded_at := None |}.

(** Every way a request changes the store. *)
Inductive change (db : Db) : Db -> Prop :=
| unchanged : change db db
| user_added (u : Users.row) :
    Users.id u = users_seq db + 1 ->
    Users.role u = "founder" \/ Users.role u = "board" ->
    Js.toLowerCase (Users.email u) = Users.email u ->
    change db (with_users db (users db ++ [u]) (users_seq db + 1))
| status_set (st : string) (sid : Z) :
    change db (update_status db st sid)
| rating_set (r : Q) (sid : Z) :
    change db (update_rating db r sid)
| partnership_added (sid uid now : Z) :
    submission_by_id db sid <> None ->
    partnership_of db sid uid = None ->
    active_count db sid < 3 ->
    change db (with_partnerships db
                 (partnerships db ++ [pending_row db sid uid now])
                 (partnerships_seq db + 1))
| pending_deleted (sid uid : Z) :
    change db (fst (delete_pending db sid uid))
| responded (decision : string) (now pid : Z) (p : Partnerships.row) :
    decision = "accepted" \/ decision = "declined" ->
    In p (partnerships db) ->
    Partnerships.id p = pid ->
    Partnerships.status p = "pending" ->
    change db (update_partnership db decision now pid).

End Invariants.

(** ** A running server for worked examples *)

Module Demo.
Import Database Routes.

(** Stand-ins for the two collaborators the handlers take: a hash, and
    SQLite's [LIKE], where [%] is any run of characters, [_] any one,
    and letters of the ASCII range match in either case. *)
Definition hashSync (pw : string) : string := ("$2a$10$" ++ pw)%string.

Fixpoint like (pattern text : string) : bool :=
  match pattern with
  | EmptyString =>
      match text with
      | EmptyString => true
      | String _ _ => false
      end
  | String p pattern' =>
      if Ascii.eqb p "%"
      then (fix run (t : string) : bool :=
              like pattern' t
              || match t with
                 | EmptyString => false
                 | String _ t' => run t'
                 end) text
      else match text with
           | EmptyString => false
           | String c text' =>
               (Ascii.eqb p "_"
                || Ascii.eqb (Js.lower_ascii p) (Js.lower_ascii c))
               && like pattern' text'
           end
  end.

Definition sql_like (text pattern : string) : bool := like pattern text.

Definition alex : Auth.ReqUser := {| Auth.id := 1; Auth.role := "founder" |}.
Definition sarah : Auth.ReqUser := {| Auth.id := 2; Auth.role := "board" |}.
Definition james : Auth.ReqUser := {| Auth.id := 3; Auth.role := "board" |}.
Definition aisha : Auth.ReqUser := {| Auth.id := 4; Auth.role := "board" |}.
Definition david : Auth.ReqUser := {| Auth.id := 5; Auth.role := "board" |}.
Definition casey : Auth.ReqUser := {| Auth.id := 7; Auth.role := "founder" |}.

Definition seeded : Db := Seed.seedDatabase hashSync Seed.empty.

(** The seeded store after a second founder has registered. *)
Definition db : Db :=
  serve hashSync seeded
        (Register (Some "Casey Wu") (Some "Casey@Demo.com") (Some "Passw0rd!")).

(** Three board members claim a slot on submission 1. *)
Definition three_claims : list Request :=
  [Claim sarah 1 20260301; Claim james 1 20260302; Claim aisha 1 20260303].

Definition full : Db := serve_all hashSync db three_claims.

(** Alex declines Sarah's claim, accepts James's. *)
Definition answered : Db :=
  serve_all hashSync full
            [Respond alex 1 (Some "declined") 20260304;
             Respond alex 2 (Some "accepted") 20260305].
End Demo.

(** ** JavaScript strings: [trim], [split] and [join] *)

Module JsText.

(** The white space and line terminators [trim] strips, by their
    UTF-8 encoding: in one byte TAB, LF, VT, FF, CR and the space; *)
Definition is_space (c : ascii) : bool :=
  let n := nat_of_ascii c in
  ((n =? 32) || ((9 <=? n) && (n <=? 13)))%nat.

(** in two bytes U+00A0; *)
Definition is_space2 (c c1 : ascii) : bool :=
  ((nat_of_ascii c =? 194) && (nat_of_ascii c1 =? 160))%nat.

(** in three bytes U+1680, U+2000 to U+200A, U+2028, U+2029, U+202F,
    U+205F, U+3000 and U+FEFF. *)
Definition is_space3 (c c1 c2 : ascii) : bool :=
  let n := nat_of_ascii c in
  let n1 := nat_of_ascii c1 in
  let n2 := nat_of_ascii c2 in
  (((n =? 225) && (n1 =? 154) && (n2 =? 128))
   || ((n =? 226) && (n1 =? 128)
       && (((128 <=? n2) && (n2 <=? 138))
           || (n2 =? 168) || (n2 =? 169) || (n2 =? 175)))
   || ((n =? 226) && (n1 =? 129) && (n2 =? 159))
   || ((n =? 227) && (n1 =? 128) && (n2 =? 128))
   || ((n =? 239) && (n1 =? 187) && (n2 =? 191)))%nat.

(** Every character is white space. *)
Fixpoint blank (s : string) : bool :=
  match s with
  | EmptyString => true
  | String c s1 =>
      if is_space c then blank s1
      else match s1 with
           | EmptyString => false
           | String c1 s2 =>
               if is_space2 c c1 then blank s2
               else match s2 with
                    | EmptyString => false
                    | String c2 s3 => is_space3 c c1 c2 && blank s3
                    end
           end
  end.

Fixpoint trimStart (s : string) : string :=
  match s with
  | EmptyString => EmptyString
  | String c s1 =>
      if is_space c then trimStart s1
      else match s1 with
           | EmptyString => s
           | String c1 s2 =>
               if is_space2 c c1 then trimStart s2
               else match s2 with
                    | EmptyString => s
                    | String c2 s3 =>
                        if is_space3 c c1 c2 then trimStart s3 else s
                    end
           end
  end.

(** What is left of [s] when the white space it ends with is cut. *)
Fixpoint trimEnd (s : string) : string :=
  match s with
  | EmptyString => EmptyString
  | String c s' => if blank s then EmptyString else String c (trimEnd s')
  end.

(** [String.prototype.trim] *)
Definition trim (s : string) : string := trimEnd (trimStart s).

(** [!text || !text.trim()] for a body field that is a string when
    present. *)
Definition no_text (text : option string) : bool :=
  match text with
  | None => true
  | Some t => Js.falsy text || Js.falsy (Some (trim t))
  end.

(** [String.prototype.split] by a separator of one character. *)
Fixpoint split (sep : ascii) (s : string) : list string :=
  match s with
  | EmptyString => [EmptyString]
  | String c s' =>
      if Ascii.eqb c sep then EmptyString :: split sep s'
      else match split sep s' with
           | piece :: rest => String c piece :: rest
           | [] => [String c EmptyString]
           end
  end.

(** [Array.prototype.join] on an array of strings. *)
Fixpoint join (sep : string) (l : list string) : string :=
  match l with
  | [] => EmptyString
  | [x] => x
  | x :: l' => (x ++ sep ++ join sep l')%string
  end.

(** The string holds no [sep]. *)
Fixpoint free_of (sep : ascii) (s : string) : bool :=
  match s with
  | EmptyString => true
  | String c s' => negb (Ascii.eqb c sep) && free_of sep s'
  end.

End JsText.

(** ** auth.js: the bearer token of a request *)

Module Bearer.

Definition Unauthorized : Z := 401.

(** What a middleware does with a request: [next()] with [req.user]
    set, or the response it sends. *)
Inductive Checked : Type :=
| Next (user : Auth.ReqUser)
| Refused (code : Z) (error : string).

Section Verification.
(** [jwt.verify(token, JWT_SECRET)]: the payload of a token whose
    signature and expiry hold, [None] when it throws. *)
Variable verify : string -> option Auth.ReqUser.

(** [requireAuth], on [req.headers.authorization]. *)
Definition requireAuth (authHeader : option string) : Checked :=
  match authHeader with
  | None => Refused Unauthorized "Authentication required"
  | Some h =>
      if Js.falsy authHeader || negb (String.prefix "Bearer " h)
      then Refused Unauthorized "Authentication required"
      else
        match nth_error (JsText.split " "%char h) 1 with
        | Some token =>
            match verify token with
            | Some decoded => Next decoded
            | None => Refused Unauthorized "Invalid or expired token"
            end
        | None => Refused Unauthorized "Invalid or expired token"
        end
  end.
End Verification.

End Bearer.

(** ** routes.js: signing in *)

Module Sessions.
Import Database.

(** A user row without its password hash. *)
Record SafeUser : Type :=
  { id : Z; email : string; name : string; role : string;
    specialty : option string }.

Definition safe (u : Users.row) : SafeUser :=
  {| id := Users.id u; email := Users.email u; name := Users.name u;
     role := Users.role u; specialty := Users.specialty u |}.

Record Session : Type := { user : SafeUser; token : Auth.ReqUser }.

Section Login.
(** [bcrypt.compareSync(password, hash)] *)
Variable compareSync : string -> string -> bool.

(** [POST /auth/login] *)
Definition login (db : Db) (email password : option string)
  : Response Session :=
  match email, password with
  | Some e, Some pw =>
      if Js.falsy email || Js.falsy password
      then Fail BadRequest "Email and password are required"
      else
        match user_by_email db (Js.toLowerCase e) with
        | None => Fail Bearer.Unauthorized "Invalid email or password"
        | Some u =>
            if negb (compareSync pw (Users.password u))
            then Fail Bearer.Unauthorized "Invalid email or password"
            else Json OK {| user := safe u; token := Auth.createToken u |}
        end
  | _, _ => Fail BadRequest "Email and password are required"
  end.
End Login.

(** [GET /auth/me] *)
Definition me (db : Db) (actor : Auth.ReqUser) : Response SafeUser :=
  match user_by_id db (Auth.id actor) with
  | None => Fail NotFound "User not found"
  | Some u => Json OK (safe u)
  end.

End Sessions.

(** ** routes.js: the [looking_for] column *)

Module LookingFor.

(** The [lookingFor] field of a body: an array of strings, or a string. *)
Inductive Field : Type :=
| Items (l : list string)
| Text (s : string).

(** [Array.isArray(lookingFor) ? lookingFor.join(",") : lookingFor],
    what [POST /submissions] stores. *)
Definition lookingForStr (lookingFor : Field) : string :=
  match lookingFor with
  | Items l => JsText.join "," l
  | Text s => s
  end.

(** [sub.looking_for ? sub.looking_for.split(",") : []], what the two
    reads of submissions return. *)
Definition looking_for (stored : string) : list string :=
  if Js.falsy (Some stored) then [] else JsText.split ","%char stored.

End LookingFor.

(** ** routes.js: posting a board note *)

Module Notes.
Import Database Routes.

Definition with_board_notes (db : Db) (ns : list BoardNotes.row) : Db :=
  {| users := users db; submissions := submissions db;
     board_notes := ns; partnerships := partnerships db;
     users_seq := users_seq db; partnerships_seq := partnerships_seq db |}.

(** The key [AUTOINCREMENT] gives the next row of a table no statement
    deletes from: one more than the largest key. *)
Definition next_key (keys : list Z) : Z := fold_right Z.max 0 keys + 1.

(** [INSERT INTO board_notes (submission_id, user_id, text,
    founder_visible)]: the store with the row, and the
    [lastInsertRowid] that [run] hands back. *)
Definition insert_note (db : Db) (sid uid : Z) (text : string)
           (founder_visible now : Z) : Db * Z :=
  let rowid := next_key (map BoardNotes.id (board_notes db)) in
  (with_board_notes db
     (board_notes db ++
        [{| BoardNotes.id := rowid;
            BoardNotes.submission_id := sid;
            BoardNotes.user_id := uid;
            BoardNotes.text := text;
            BoardNotes.founder_visible := founder_visible;
            BoardNotes.created_at := now |}]),
   lastInsertRowid).

(** [SELECT bn.*, u.name as author_name ... WHERE bn.id = ?] *)
Definition note_by_id (db : Db) (nid : Z) : option NoteView :=
  find (fun nv => BoardNotes.id (fst nv) =? nid) (notes_with_author db).

(** [POST /submissions/:id/notes]; [founderVisible] is the truth value
    of the body field. *)
Definition post_note (db : Db) (actor : Auth.ReqUser) (sid : Z)
           (text : option string) (founderVisible : bool) (now : Z)
  : Outcome (option NoteView) :=
  guarded "board" actor db
    match text with
    | Some t =>
        if JsText.no_text text
        then reply (Fail BadRequest "Note text is required") db []
        else
          let (db', rowid) :=
            insert_note db sid (Auth.id actor) t
                        (if founderVisible then 1 else 0) now in
          reply (Json Created (note_by_id db' rowid)) db' []
    | None => reply (Fail BadRequest "Note text is required") db []
    end.

End Notes.

(** ** database.js: the tables of tags, chat and meetings

    [created_at] of a tag is read by no statement and left out. *)

Module TaggedMembers.
Record row : Type :=
  { id : Z; submission_id : Z; user_id : Z; tagged_by : Z }.
End TaggedMembers.

Module ChatMessages.
Record row : Type :=
  { id : Z; submission_id : Z; user_id : Z; text : string; created_at : Z }.
End ChatMessages.

Module MeetingRequests.
Record row : Type :=
  { id : Z; submission_id : Z; user_id : Z; message : string;
    created_at : Z }.
End MeetingRequests.

(** ** routes.js: tags, chat, meetings and the partnership workspace *)

Module Workspace.
Import Database Routes.

(** The store with the tables above beside those of [Db];
    [tagged_seq] is the [sqlite_sequence] counter of the one table
    rows are deleted from. *)
Record Store : Type :=
  { base : Db;
    tagged_members : list TaggedMembers.row;
    tagged_seq : Z;
    chat_messages : list ChatMessages.row;
    meeting_requests : list MeetingRequests.row }.

Definition with_base (s : Store) (db : Db) : Store :=
  {| base := db; tagged_members := tagged_members s;
     tagged_seq := tagged_seq s; chat_messages := chat_messages s;
     meeting_requests := meeting_requests s |}.

Definition with_tagged (s : Store) (ts : list TaggedMembers.row) (seq : Z)
  : Store :=
  {| base := base s; tagged_members := ts; tagged_seq := seq;
     chat_messages := chat_messages s;
     meeting_requests := meeting_requests s |}.

Definition with_chat (s : Store) (cs : list ChatMessages.row) : Store :=
  {| base := base s; tagged_members := tagged_members s;
     tagged_seq := tagged_seq s; chat_messages := cs;
     meeting_requests := meeting_requests s |}.

Definition with_meetings (s : Store) (ms : list MeetingRequests.row) : Store :=
  {| base := base s; tagged_members := tagged_members s;
     tagged_seq := tagged_seq s; chat_messages := chat_messages s;
     meeting_requests := ms |}.

(** What a writing handler leaves behind in this store. *)
Record Effect (A : Type) : Type :=
  { answer : Response A; after : Store; sent : list Mail }.

Arguments answer {A} _.
Arguments after {A} _.
Arguments sent {A} _.

Definition finish {A : Type} (r : Response A) (s : Store) (ms : list Mail)
  : Effect A :=
  {| answer := r; after := s; sent := ms |}.

(** A route behind [requireAuth, requireRole(required)]. *)
Definition behind {A : Type} (required : string) (user : Auth.ReqUser)
           (s : Store) (handler : Effect A) : Effect A :=
  match Auth.requireRole required user with
  | Some msg => finish (Fail Forbidden msg) s []
  | None => handler
  end.

(** *** Tags *)

(** The row [UNIQUE(submission_id, user_id)] would clash with. *)
Definition tag_of (s : Store) (sid uid : Z) : option TaggedMembers.row :=
  find (fun t => (TaggedMembers.submission_id t =? sid)
                 && (TaggedMembers.user_id t =? uid))
       (tagged_members s).

(** [INSERT OR IGNORE INTO tagged_members (submission_id, user_id,
    tagged_by)]: the statement takes the next key of [AUTOINCREMENT]
    before it tests [UNIQUE], so a clash with the pair leaves the rows
    as they are and the sequence one further. *)
Definition insert_or_ignore_tag (s : Store) (sid uid tagger : Z) : Store :=
  let rowid := tagged_seq s + 1 in
  match tag_of s sid uid with
  | Some _ => with_tagged s (tagged_members s) rowid
  | None =>
      with_tagged s
        (tagged_members s ++
           [{| TaggedMembers.id := rowid;
               TaggedMembers.submission_id := sid;
               TaggedMembers.user_id := uid;
               TaggedMembers.tagged_by := tagger |}])
        rowid
  end.

(** The columns of [UNIQUE(submission_id, user_id)]. *)
Definition tag_pair (t : TaggedMembers.row) : Z * Z :=
  (TaggedMembers.submission_id t, TaggedMembers.user_id t).

(** [UNIQUE(submission_id, user_id)] on tagged_members. *)
Definition tags_unique (s : Store) : Prop :=
  NoDup (map tag_pair (tagged_members s)).

(** [!userId] for a body field that is a number when present. *)
Definition falsy_id (x : option Z) : bool :=
  match x with
  | None => true
  | Some z => z =? 0
  end.

(** [POST /submissions/:id/tag] *)
Definition tag (s : Store) (actor : Auth.ReqUser) (sid : Z)
           (userId : option Z) : Effect unit :=
  behind "board" actor s
    match userId with
    | Some uid =>
        if falsy_id userId
        then finish (Fail BadRequest "userId is required") s []
        else
          finish (Json OK tt) (insert_or_ignore_tag s sid uid (Auth.id actor)) []
    | None => finish (Fail BadRequest "userId is required") s []
    end.

(** [DELETE /submissions/:id/tag/:userId] *)
Definition untag (s : Store) (actor : Auth.ReqUser) (sid userId : Z)
  : Effect unit :=
  behind "board" actor s
    (finish (Json OK tt)
       (with_tagged s
          (filter (fun t => negb ((TaggedMembers.submission_id t =? sid)
                                  && (TaggedMembers.user_id t =? userId)))
                  (tagged_members s))
          (tagged_seq s))
       []).

(** [SELECT u.id, u.name, u.specialty FROM tagged_members tm
     JOIN users u ON tm.user_id = u.id WHERE tm.submission_id = ?] *)
Definition select_tagged (s : Store) (sid : Z)
  : list (Z * string * option string) :=
  flat_map (fun t =>
              if TaggedMembers.submission_id t =? sid
              then match user_by_id (base s) (TaggedMembers.user_id t) with
                   | Some u => [(Users.id u, Users.name u, Users.specialty u)]
                   | None => []
                   end
              else [])
           (tagged_members s).

(** *** The discussion thread of a submission *)

(** [INSERT INTO chat_messages (submission_id, user_id, text)]: the
    store with the row, and the [lastInsertRowid] that [run] hands
    back; no statement deletes from the table. *)
Definition insert_chat (s : Store) (sid uid : Z) (text : string) (now : Z)
  : Store * Z :=
  let rowid := Notes.next_key (map ChatMessages.id (chat_messages s)) in
  (with_chat s
     (chat_messages s ++
        [{| ChatMessages.id := rowid;
            ChatMessages.submission_id := sid;
            ChatMessages.user_id := uid;
            ChatMessages.text := text;
            ChatMessages.created_at := now |}]),
   lastInsertRowid).

(** A message with the [author_name] of the join. *)
Definition ChatView : Type := (ChatMessages.row * string)%type.

(** [FROM chat_messages cm JOIN users u ON cm.user_id = u.id] *)
Definition chat_with_author (s : Store) : list ChatView :=
  flat_map (fun m =>
              match user_by_id (base s) (ChatMessages.user_id m) with
              | Some u => [(m, Users.name u)]
              | None => []
              end) (chat_messages s).

(** [... WHERE cm.id = ?] *)
Definition chat_by_id (s : Store) (mid : Z) : option ChatView :=
  find (fun mv => ChatMessages.id (fst mv) =? mid) (chat_with_author s).

(** [POST /submissions/:id/chat] *)
Definition post_chat (s : Store) (actor : Auth.ReqUser) (sid : Z)
           (text : option string) (now : Z) : Effect (option ChatView) :=
  match text with
  | Some t =>
      if JsText.no_text text
      then finish (Fail BadRequest "Message text is required") s []
      else if (Auth.role actor =? "founder")%string
              && match submission_by_id (base s) sid with
                 | None => true
                 | Some sub => negb (Submissions.user_id sub =? Auth.id actor)
                 end
      then finish (Fail Forbidden "Access denied") s []
      else
        let (s', rowid) := insert_chat s sid (Auth.id actor) t now in
        finish (Json Created (chat_by_id s' rowid)) s' []
  | None => finish (Fail BadRequest "Message text is required") s []
  end.

(** [... WHERE cm.submission_id = ? ORDER BY cm.created_at ASC] *)
Definition select_chat (s : Store) (sid : Z) : list ChatView :=
  order_by_asc (fun mv => ChatMessages.created_at (fst mv))
    (filter (fun mv => ChatMessages.submission_id (fst mv) =? sid)
            (chat_with_author s)).

(** [chatMessages] of [GET /submissions/:id] *)
Definition chatMessages (s : Store) (actor : Auth.ReqUser)
           (sub : Submissions.row) : list ChatView :=
  if (Auth.role actor =? "board")%string
     || ((Auth.role actor =? "founder")%string
         && (Submissions.user_id sub =? Auth.id actor))
  then select_chat s (Submissions.id sub)
  else [].

(** [chatCount] of [GET /submissions] *)
Definition chatCount (s : Store) (actor : Auth.ReqUser) (sid : Z) : Z :=
  if (Auth.role actor =? "board")%string
  then Z.of_nat (List.length
                   (filter (fun m => ChatMessages.submission_id m =? sid)
                           (chat_messages s)))
  else 0.

(** *** Meeting requests *)

(** [INSERT INTO meeting_requests (submission_id, user_id, message)]:
    the store with the row, and the [lastInsertRowid] that [run] hands
    back; no statement deletes from the table. *)
Definition insert_meeting (s : Store) (sid uid : Z) (message : string)
           (now : Z) : Store * Z :=
  let rowid := Notes.next_key (map MeetingRequests.id (meeting_requests s)) in
  (with_meetings s
     (meeting_requests s ++
        [{| MeetingRequests.id := rowid;
            MeetingRequests.submission_id := sid;
            MeetingRequests.user_id := uid;
            MeetingRequests.message := message;
            MeetingRequests.created_at := now |}]),
   lastInsertRowid).

(** A request with [requester_name] and [requester_specialty]. *)
Definition MeetingView : Type :=
  (MeetingRequests.row * string * option string)%type.

(** [FROM meeting_requests mr JOIN users u ON mr.user_id = u.id] *)
Definition meetings_with_requester (s : Store) : list MeetingView :=
  flat_map (fun m =>
              match user_by_id (base s) (MeetingRequests.user_id m) with
              | Some u => [(m, Users.name u, Users.specialty u)]
              | None => []
              end) (meeting_requests s).

(** [... WHERE mr.id = ?] *)
Definition meeting_by_id (s : Store) (mid : Z) : option MeetingView :=
  find (fun mv => MeetingRequests.id (fst (fst mv)) =? mid)
       (meetings_with_requester s).

(** [... WHERE mr.submission_id = ? ORDER BY mr.created_at DESC] *)
Definition select_meetings (s : Store) (sid : Z) : list MeetingView :=
  order_by_desc (fun mv => MeetingRequests.created_at (fst (fst mv)))
    (filter (fun mv => MeetingRequests.submission_id (fst (fst mv)) =? sid)
            (meetings_with_requester s)).

Definition default_message : string :=
  "I'd like to schedule a meeting to discuss your submission.".

(** [`[Meeting Request] ${boardUser.name} would like to meet:
    "${meetingMsg}"`] *)
Definition chatText (name meetingMsg : string) : string :=
  ("[Meeting Request] " ++ name ++ " would like to meet: "
   ++ String "034"%char meetingMsg ++ String "034"%char EmptyString)%string.

(** [POST /submissions/:id/meeting] *)
Definition request_meeting (s : Store) (actor : Auth.ReqUser) (subId : Z)
           (message : option string) (now : Z) : Effect (option MeetingView) :=
  behind "board" actor s
    match submission_by_id (base s) subId with
    | None => finish (Fail NotFound "Submission not found") s []
    | Some sub =>
        let meetingMsg :=
          match message with
          | Some m => if Js.falsy message then default_message else m
          | None => default_message
          end in
        let (s1, rowid) :=
          insert_meeting s subId (Auth.id actor) meetingMsg now in
        match user_by_id (base s1) (Auth.id actor) with
        | None => finish (Fail InternalError "Internal server error") s1 []
        | Some boardUser =>
            let (s2, _) :=
              insert_chat s1 subId (Auth.id actor)
                          (chatText (Users.name boardUser) meetingMsg) now in
            let meetingRequest := meeting_by_id s2 rowid in
            match user_by_id (base s2) (Submissions.user_id sub) with
            | Some founder =>
                match meetingRequest with
                | Some _ =>
                    finish (Json Created meetingRequest) s2
                           [{| rcpt := Users.email founder;
                               template := "meetingRequest" |}]
                | None =>
                    finish (Fail InternalError "Internal server error") s2 []
                end
            | None => finish (Json Created meetingRequest) s2 []
            end
        end
    end.

(** *** Reading a submission with its thread *)

(** [GET /submissions/:id] with [tagged_members], [chat_messages] and
    [meeting_requests]. *)
Record Detail : Type :=
  { view : SubmissionView;
    tagged : list (Z * string * option string);
    chat : list ChatView;
    meetings : list MeetingView }.

Definition get_submission_detail (s : Store) (actor : Auth.ReqUser) (sid : Z)
  : Response Detail :=
  match get_submission (base s) actor sid with
  | Fail c e => Fail c e
  | Json c v =>
      let sub := submission v in
      Json c {| view := v;
                tagged := select_tagged s (Submissions.id sub);
                chat := chatMessages s actor sub;
                meetings := select_meetings s (Submissions.id sub) |}
  end.

(** *** Partnerships, read *)

(** [GET /submissions/:id/partners] *)
Definition get_partners (db : Db) (actor : Auth.ReqUser) (sid : Z)
  : Response (list PartnerView) :=
  match submission_by_id db sid with
  | None => Fail NotFound "Submission not found"
  | Some sub =>
      if (Auth.role actor =? "founder")%string
         && negb (Submissions.user_id sub =? Auth.id actor)
      then Fail Forbidden "Access denied"
      else Json OK (select_partners db sid)
  end.

(** A row of [GET /my/partnerships]. *)
Record Mine : Type :=
  { partnership : Partnerships.row;
    partner_name : string;
    partner_specialty : option string;
    company_name : string;
    one_liner : string }.

(** [FROM partnerships p JOIN users u ON p.user_id = u.id
     JOIN submissions s ON p.submission_id = s.id WHERE s.user_id = ?] *)
Definition partnerships_of_founder (db : Db) (uid : Z) : list Mine :=
  flat_map (fun p =>
              match user_by_id db (Partnerships.user_id p),
                    submission_by_id db (Partnerships.submission_id p) with
              | Some u, Some sub =>
                  if Submissions.user_id sub =? uid
                  then [{| partnership := p;
                           partner_name := Users.name u;
                           partner_specialty := Users.specialty u;
                           company_name := Submissions.company_name sub;
                           one_liner := Submissions.one_liner sub |}]
                  else []
              | _, _ => []
              end) (partnerships db).

(** [GET /my/partnerships], [ORDER BY p.created_at DESC] *)
Definition my_partnerships (db : Db) (actor : Auth.ReqUser)
  : Response (list Mine) :=
  guarded_read "founder" actor
    (Json OK (order_by_desc (fun m => Partnerships.created_at (partnership m))
                            (partnerships_of_founder db (Auth.id actor)))).

(** [p.status = 'accepted'] *)
Definition accepted (p : Partnerships.row) : bool :=
  (Partnerships.status p =? "accepted")%string.

(** An entry of [GET /active-partnerships]. *)
Record Active : Type :=
  { startup : Submissions.row;
    active_partners : list PartnerView;
    founder : option (Z * string * string) }.

(** [SELECT DISTINCT s.* FROM submissions s JOIN partnerships p
     ON p.submission_id = s.id WHERE ... AND p.status = 'accepted']:
    the submissions some accepted row joins, each once. The statement
    fixes no order of the rows; they are listed here as the table of
    submissions has them. *)
Definition partnered (db : Db) (actor : Auth.ReqUser) : list Submissions.row :=
  if (Auth.role actor =? "founder")%string
  then filter (fun sub =>
                 existsb (fun p => (Partnerships.submission_id p
                                    =? Submissions.id sub)
                                   && (Submissions.user_id sub =? Auth.id actor)
                                   && accepted p)
                         (partnerships db))
              (submissions db)
  else filter (fun sub =>
                 existsb (fun p => (Partnerships.submission_id p
                                    =? Submissions.id sub)
                                   && (Partnerships.user_id p =? Auth.id actor)
                                   && accepted p)
                         (partnerships db))
              (submissions db).

(** [GET /active-partnerships] *)
Definition active_partnerships (db : Db) (actor : Auth.ReqUser)
  : Response (list Active) :=
  Json OK
    (map (fun sub =>
            {| startup := sub;
               active_partners :=
                 filter (fun pv => (Partnerships.submission_id (fst (fst pv))
                                    =? Submissions.id sub)
                                   && accepted (fst (fst pv)))
                        (partnerships_with_partner db);
               founder :=
                 match user_by_id db (Submissions.user_id sub) with
                 | Some u => Some (Users.id u, Users.name u, Users.email u)
                 | None => None
                 end |})
         (partnered db actor)).

(** *** The partnership workspace *)

Definition isFounder (actor : Auth.ReqUser) (sub : Submissions.row) : bool :=
  (Auth.role actor =? "founder")%string
  && (Submissions.user_id sub =? Auth.id actor).

(** [SELECT id FROM partnerships WHERE submission_id = ? AND user_id = ?
     AND status = 'accepted'] *)
Definition isPartner (db : Db) (subId uid : Z) : option Partnerships.row :=
  find (fun p => (Partnerships.submission_id p =? subId)
                 && (Partnerships.user_id p =? uid)
                 && accepted p)
       (partnerships db).

(** [!isFounder && !isPartner] *)
Definition locked_out (db : Db) (actor : Auth.ReqUser) (sub : Submissions.row)
           (subId : Z) : bool :=
  negb (isFounder actor sub)
  && match isPartner db subId (Auth.id actor) with
     | Some _ => false
     | None => true
     end.

(** The statements past the access test are on [partnership_messages]
    and [shared_links]. [initializeDatabase] creates neither table, so
    preparing any of them throws, which the server answers with 500. *)
Definition no_such_table {A : Type} : Response A :=
  Fail InternalError "Internal server error".

(** [GET /submissions/:id/partnership-chat] *)
Definition partnership_chat (s : Store) (actor : Auth.ReqUser) (subId : Z)
  : Response unit :=
  match submission_by_id (base s) subId with
  | None => Fail NotFound "Submission not found"
  | Some sub =>
      if locked_out (base s) actor sub subId
      then Fail Forbidden "Access denied"
      else no_such_table
  end.

(** [POST /submissions/:id/partnership-chat] *)
Definition post_partnership_chat (s : Store) (actor : Auth.ReqUser)
           (subId : Z) (text : option string) (now : Z) : Effect unit :=
  match text with
  | Some t =>
      if JsText.no_text text
      then finish (Fail BadRequest "Message text is required") s []
      else
        match submission_by_id (base s) subId with
        | None => finish (Fail NotFound "Submission not found") s []
        | Some sub =>
            if locked_out (base s) actor sub subId
            then finish (Fail Forbidden "Access denied") s []
            else finish no_such_table s []
        end
  | None => finish (Fail BadRequest "Message text is required") s []
  end.

(** [POST /submissions/:id/shared-links] *)
Definition post_shared_link (s : Store) (actor : Auth.ReqUser) (subId : Z)
           (url title : option string) (now : Z) : Effect unit :=
  match url with
  | Some u =>
      if JsText.no_text url
      then finish (Fail BadRequest "URL is required") s []
      else
        match submission_by_id (base s) subId with
        | None => finish (Fail NotFound "Submission not found") s []
        | Some sub =>
            if locked_out (base s) actor sub subId
            then finish (Fail Forbidden "Access denied") s []
            else finish no_such_table s []
        end
  | None => finish (Fail BadRequest "URL is required") s []
  end.

(** *** The board leaderboard of [GET /admin/analytics] *)

(** [SELECT COUNT( * ) FROM board_notes WHERE user_id = u.id] *)
Definition notes_by (s : Store) (uid : Z) : Z :=
  Z.of_nat (List.length (filter (fun n => BoardNotes.user_id n =? uid)
                                (board_notes (base s)))).

(** [... FROM partnerships WHERE user_id = u.id AND status = 'accepted'] *)
Definition deals_by (s : Store) (uid : Z) : Z :=
  Z.of_nat (List.length (filter (fun p => (Partnerships.user_id p =? uid)
                                          && accepted p)
                                (partnerships (base s)))).

(** [... FROM chat_messages WHERE user_id = u.id] *)
Definition messages_by (s : Store) (uid : Z) : Z :=
  Z.of_nat (List.length (filter (fun m => ChatMessages.user_id m =? uid)
                                (chat_messages s))).

(** [... FROM meeting_requests WHERE user_id = u.id] *)
Definition meetings_by (s : Store) (uid : Z) : Z :=
  Z.of_nat (List.length (filter (fun m => MeetingRequests.user_id m =? uid)
                                (meeting_requests s))).

(** The expression of the [ORDER BY]. *)
Definition score (s : Store) (uid : Z) : Z :=
  notes_by s uid + deals_by s uid * 5 + meetings_by s uid * 3.

(** Neighbours of a list in descending key order. *)
Definition descending {A : Type} (key : A -> Z) (x y : A) : Prop :=
  key y <= key x.

Record Standing : Type :=
  { member : Z; member_name : string; member_specialty : option string;
    notes_count : Z; deals : Z; messages : Z; meetings_count : Z }.

(** [SELECT u.id, u.name, u.specialty, ... FROM users u
     WHERE u.role = 'board' ORDER BY (...) DESC] *)
Definition leaderboard (s : Store) : list Standing :=
  map (fun u =>
         {| member := Users.id u; member_name := Users.name u;
            member_specialty := Users.specialty u;
            notes_count := notes_by s (Users.id u);
            deals := deals_by s (Users.id u);
            messages := messages_by s (Users.id u);
            meetings_count := meetings_by s (Users.id u) |})
      (order_by_desc (fun u => score s (Users.id u))
         (filter (fun u => (Users.role u =? "board")%string)
                 (users (base s)))).

(** The counts, [leaderboard] and [approvalRate] of the response. *)
Record AdminAnalytics : Type :=
  { admin_total : Z; admin_approved : Z; admin_passed : Z;
    totalPartnerships : Z; pendingPartnerships : Z; totalMeetings : Z;
    totalFounders : Z; totalBoard : Z;
    board : list Standing; admin_approvalRate : option Z }.

Definition count_role (db : Db) (r : string) : Z :=
  Z.of_nat (List.length (filter (fun u => (Users.role u =? r)%string)
                                (users db))).

Definition count_partnerships (db : Db) (st : string) : Z :=
  Z.of_nat (List.length (filter (fun p => (Partnerships.status p =? st)%string)
                                (partnerships db))).

(** [GET /admin/analytics] *)
Definition admin_analytics (s : Store) (actor : Auth.ReqUser)
  : Response AdminAnalytics :=
  guarded_read "admin" actor
    (let approved := count_status (base s) "approved" in
     let passed := count_status (base s) "passed" in
     Json OK {| admin_total := Z.of_nat (List.length (submissions (base s)));
                admin_approved := approved;
                admin_passed := passed;
                totalPartnerships := count_partnerships (base s) "accepted";
                pendingPartnerships := count_partnerships (base s) "pending";
                totalMeetings := Z.of_nat (List.length (meeting_requests s));
                totalFounders := count_role (base s) "founder";
                totalBoard := count_role (base s) "board";
                board := leaderboard s;
                admin_approvalRate := approvalRate approved passed |}).

(** *** database.js: the tables at start-up *)

Definition empty : Store :=
  {| base := Seed.empty; tagged_members := []; tagged_seq := 0;
     chat_messages := []; meeting_requests := [] |}.

Definition seed_tags : list TaggedMembers.row :=
  [ {| TaggedMembers.id := 1; TaggedMembers.submission_id := 1;
       TaggedMembers.user_id := 3; TaggedMembers.tagged_by := 2 |};
    {| TaggedMembers.id := 2; TaggedMembers.submission_id := 1;
       TaggedMembers.user_id := 4; TaggedMembers.tagged_by := 2 |} ].

(** Times of day are written as the integer [yyyymmddhhmm]. *)
Definition seed_chats : list ChatMessages.row :=
  [ {| ChatMessages.id := 1; ChatMessages.submission_id := 1;
       ChatMessages.user_id := 2;
       ChatMessages.text := "Strong FinTech play. @James evaluate fraud claims?";
       ChatMessages.created_at := 202602110915 |};
    {| ChatMessages.id := 2; ChatMessages.submission_id := 1;
       ChatMessages.user_id := 3;
       ChatMessages.text :=
         "84% fraud reduction credible. Want false positive breakdown.";
       ChatMessages.created_at := 202602111430 |};
    {| ChatMessages.id := 3; ChatMessages.submission_id := 1;
       ChatMessages.user_id := 4;
       ChatMessages.text :=
         "ML approach solid. Requesting training data methodology.";
       ChatMessages.created_at := 202602121045 |} ].

Section Seeding.
Variable hashSync : string -> string.

(** [seedDatabase] with the tags and the chat it inserts. *)
Definition seedDatabase (s : Store) : Store :=
  if Z.of_nat (List.length (users (base s))) >? 0 then s
  else {| base := Seed.seedDatabase hashSync (base s);
          tagged_members := seed_tags; tagged_seq := 2;
          chat_messages := seed_chats;
          meeting_requests := meeting_requests s |}.
End Seeding.

(** *** Requests served one after another *)

(** The writing routes, those of [Routes.Request] included. *)
Inductive Request : Type :=
| Earlier (r : Routes.Request)
| PostNote (actor : Auth.ReqUser) (sid : Z) (text : option string)
           (founderVisible : bool) (now : Z)
| Tag (actor : Auth.ReqUser) (sid : Z) (userId : option Z)
| Untag (actor : Auth.ReqUser) (sid userId : Z)
| PostChat (actor : Auth.ReqUser) (sid : Z) (text : option string) (now : Z)
| RequestMeeting (actor : Auth.ReqUser) (subId : Z) (message : option string)
                 (now : Z)
| PostPartnershipChat (actor : Auth.ReqUser) (subId : Z) (text : option string)
                      (now : Z)
| PostSharedLink (actor : Auth.ReqUser) (subId : Z) (url title : option string)
                 (now : Z).

Section Serving.
Variable hashSync : string -> string.

(** The store a request leaves. *)
Definition serve (s : Store) (r : Request) : Store :=
  match r with
  | Earlier r => with_base s (Routes.serve hashSync (base s) r)
  | PostNote a sid t fv now =>
      with_base s (store (Notes.post_note (base s) a sid t fv now))
  | Tag a sid u => after (tag s a sid u)
  | Untag a sid u => after (untag s a sid u)
  | PostChat a sid t now => after (post_chat s a sid t now)
  | RequestMeeting a sid m now => after (request_meeting s a sid m now)
  | PostPartnershipChat a sid t now => after (post_partnership_chat s a sid t now)
  | PostSharedLink a sid u t now => after (post_shared_link s a sid u t now)
  end.

Definition serve_all (s : Store) (rs : list Request) : Store :=
  fold_left serve rs s.
End Serving.

End Workspace.

(** ** The running server, with its threads *)

Module Studio.
Import Database Routes Workspace.

(** Stand-ins for [bcrypt.compareSync] and [jwt.verify]. *)
Definition compareSync (pw hash : string) : bool :=
  (hash =? Demo.hashSync pw)%string.

Definition verify (token : string) : option Auth.ReqUser :=
  if (token =? "alex.token")%string then Some Demo.alex
  else if (token =? "sarah.token")%string then Some Demo.sarah
  else None.

Definition seeded : Store := seedDatabase Demo.hashSync empty.

(** The seeded store after the requests of [Demo.answered]: Sarah's
    claim on submission 1 declined, James's accepted, Aisha's pending. *)
Definition studio : Store := with_base seeded Demo.answered.

Definition root : Auth.ReqUser := {| Auth.id := 99; Auth.role := "admin" |}.

End Studio.

(** * Properties *)

(** ** Lists, lookups and sorting *)

Section ListFacts.
Context {A B : Type}.

Lemma find_app_some (f : A -> bool) (l l' : list A) (x : A) :
  find f l = Some x -> find f (l ++ l') = Some x.
Proof.
  induction l as [|a l IH]; simpl; [discriminate|].
  destruct (f a); auto.
Qed.

Lemma find_app_none (f : A -> bool) (l l' : list A) :
  find f l = None -> find f (l ++ l') = find f l'.
Proof.
  induction l as [|a l IH]; simpl; [reflexivity|].
  destruct (f a); [discriminate|auto].
Qed.

Lemma find_not_none (f : A -> bool) (l : list A) (x : A) :
  In x l -> f x = true -> find f l <> None.
Proof.
  intros Hin Hf Hnone.
  apply (find_none f l Hnone) in Hin. congruence.
Qed.

(** A lookup through a row-wise update that keeps what the lookup tests. *)
Lemma find_map_keeping (f : A -> bool) (g : A -> A) (l : list A) :
  (forall x, f (g x) = f x) ->
  find f (map g l) = option_map g (find f l).
Proof.
  intros Hfg. induction l as [|a l IH]; simpl; [reflexivity|].
  rewrite Hfg. destruct (f a); simpl; auto.
Qed.

Lemma map_id_on (g : A -> A) (l : list A) :
  (forall x, In x l -> g x = x) -> map g l = l.
Proof.
  induction l as [|a l IH]; simpl; intros H; [reflexivity|].
  rewrite H by auto. f_equal. apply IH. auto.
Qed.

Lemma filter_all (f : A -> bool) (l : list A) :
  (forall x, In x l -> f x = true) -> filter f l = l.
Proof.
  induction l as [|a l IH]; simpl; intros H; [reflexivity|].
  rewrite H by auto. f_equal. apply IH. auto.
Qed.

Lemma filter_nothing (f : A -> bool) (l : list A) :
  (forall x, In x l -> f x = false) -> filter f l = [].
Proof.
  induction l as [|a l IH]; simpl; intros H; [reflexivity|].
  rewrite H by auto. apply IH. auto.
Qed.

Lemma filter_length_zero (f : A -> bool) (l : list A) :
  List.length (filter f l) = 0%nat -> forall x, In x l -> f x = false.
Proof.
  induction l as [|a l IH]; simpl; intros H x Hin; [contradiction|].
  destruct (f a) eqn:Ha; [discriminate|].
  destruct Hin as [->|Hin]; auto.
Qed.

Lemma map_filter_through (g : A -> B) (f : B -> bool) (l : list A) :
  map g (filter (fun x => f (g x)) l) = filter f (map g l).
Proof.
  induction l as [|a l IH]; simpl; [reflexivity|].
  destruct (f (g a)); simpl; congruence.
Qed.

(** A count cannot grow under an update that turns no row into a match. *)
Lemma filter_map_length_le (f : A -> bool) (g : A -> A) (l : list A) :
  (forall x, In x l -> f (g x) = true -> f x = true) ->
  (List.length (filter f (map g l)) <= List.length (filter f l))%nat.
Proof.
  induction l as [|a l IH]; simpl; intros H; [lia|].
  assert (IH' := IH (fun x Hx => H x (or_intror Hx))).
  destruct (f (g a)) eqn:E.
  - rewrite (H a (or_introl eq_refl) E). simpl. lia.
  - destruct (f a); simpl; lia.
Qed.

Lemma filter_filter_length_le (f g : A -> bool) (l : list A) :
  (List.length (filter f (filter g l)) <= List.length (filter f l))%nat.
Proof.
  induction l as [|a l IH]; simpl; [lia|].
  destruct (g a); simpl; destruct (f a); simpl; lia.
Qed.

Lemma NoDup_map_filter (g : A -> B) (f : A -> bool) (l : list A) :
  NoDup (map g l) -> NoDup (map g (filter f l)).
Proof.
  induction l as [|a l IH]; simpl; intros H; [constructor|].
  inversion H as [|? ? Hnotin Hnd]; subst.
  destruct (f a); simpl; auto.
  constructor; auto.
  intros Hin. apply Hnotin.
  apply in_map_iff in Hin. destruct Hin as [x [Hx Hin]].
  apply filter_In in Hin. apply in_map_iff. exists x. tauto.
Qed.

Lemma NoDup_map_snoc (g : A -> B) (l : list A) (x : A) :
  NoDup (map g l) -> ~ In (g x) (map g l) -> NoDup (map g (l ++ [x])).
Proof.
  intros Hnd Hnotin. rewrite map_app. simpl.
  apply NoDup_app.
  - exact Hnd.
  - constructor; [simpl; tauto | constructor].
  - intros y Hy [Hy'|[]]. subst. contradiction.
Qed.

(** In a list whose keys differ, a key names its row. *)
Lemma NoDup_map_key (g : A -> B) (l : list A) (x y : A) :
  NoDup (map g l) -> In x l -> In y l -> g x = g y -> x = y.
Proof.
  induction l as [|a l IH]; simpl; intros Hnd Hx Hy Heq; [contradiction|].
  inversion Hnd as [|? ? Hnotin Hnd']; subst.
  destruct Hx as [->|Hx], Hy as [->|Hy]; auto.
  - exfalso. apply Hnotin. rewrite Heq. apply in_map. exact Hy.
  - exfalso. apply Hnotin. rewrite <- Heq. apply in_map. exact Hx.
Qed.
End ListFacts.

Section OrderByFacts.
Import Database.
Context {A : Type} (key : A -> Z).

Lemma insert_asc_perm (x : A) (l : list A) :
  Permutation (insert_asc key x l) (x :: l).
Proof.
  induction l as [|y l IH]; simpl; [reflexivity|].
  destruct (key x <=? key y); [reflexivity|].
  rewrite IH. apply perm_swap.
Qed.

Lemma order_by_asc_perm (l : list A) : Permutation (order_by_asc key l) l.
Proof.
  induction l as [|x l IH]; simpl; [reflexivity|].
  rewrite insert_asc_perm. constructor. exact IH.
Qed.

Lemma insert_asc_hd (x a : A) (l : list A) :
  key a <= key x -> HdRel (ascending key) a l -> HdRel (ascending key) a (insert_asc key x l).
Proof.
  intros Hax Hhd. destruct l as [|y l]; simpl.
  - constructor. exact Hax.
  - destruct (key x <=? key y); constructor; [exact Hax|].
    inversion Hhd; assumption.
Qed.

Lemma insert_asc_sorted (x : A) (l : list A) :
  Sorted (ascending key) l -> Sorted (ascending key) (insert_asc key x l).
Proof.
  induction l as [|y l IH]; simpl; intros Hs.
  - repeat constructor.
  - inversion Hs as [|? ? Hs' Hhd]; subst.
    destruct (key x <=? key y) eqn:E.
    + constructor; [exact Hs|]. constructor. unfold ascending. lia.
    + constructor; [auto|]. apply insert_asc_hd; [lia|exact Hhd].
Qed.

Lemma order_by_asc_sorted (l : list A) :
  Sorted (ascending key) (order_by_asc key l).
Proof.
  induction l as [|x l IH]; simpl; [constructor|].
  apply insert_asc_sorted. exact IH.
Qed.

Lemma insert_desc_perm (x : A) (l : list A) :
  Permutation (insert_desc key x l) (x :: l).
Proof.
  induction l as [|y l IH]; simpl; [reflexivity|].
  destruct (key y <=? key x); [reflexivity|].
  rewrite IH. apply perm_swap.
Qed.

Lemma order_by_desc_perm (l : list A) : Permutation (order_by_desc key l) l.
Proof.
  induction l as [|x l IH]; simpl; [reflexivity|].
  rewrite insert_desc_perm. constructor. exact IH.
Qed.

Lemma order_by_desc_In (x : A) (l : list A) :
  In x (order_by_desc key l) <-> In x l.
Proof.
  split; apply Permutation_in;
    [apply order_by_desc_perm | symmetry; apply order_by_desc_perm].
Qed.
End OrderByFacts.

Section OrderByMap.
Import Database.
Context {A B : Type} (g : A -> B) (key : B -> Z).

Lemma map_insert_asc (x : A) (l : list A) :
  map g (insert_asc (fun a => key (g a)) x l) = insert_asc key (g x) (map g l).
Proof.
  induction l as [|y l IH]; simpl; [reflexivity|].
  destruct (key (g x) <=? key (g y)); simpl; congruence.
Qed.

Lemma map_order_by_asc (l : list A) :
  map g (order_by_asc (fun a => key (g a)) l) = order_by_asc key (map g l).
Proof.
  induction l as [|x l IH]; simpl; [reflexivity|].
  rewrite map_insert_asc. congruence.
Qed.
End OrderByMap.

(** ** The middleware *)

Section Middleware.
Import Auth.

Lemma requireRole_passes (required : string) (u : ReqUser) :
  role u = required \/ role u = "admin" -> requireRole required u = None.
Proof.
  unfold requireRole. intros [H|H].
  - destruct (role u =? "admin")%string; [reflexivity|].
    rewrite H, String.eqb_refl. reflexivity.
  - rewrite H. reflexivity.
Qed.

Lemma requireRole_blocks (required : string) (u : ReqUser) :
  role u <> required -> role u <> "admin" ->
  requireRole required u
  = Some ("Access restricted to " ++ required ++ " members")%string.
Proof.
  unfold requireRole. intros H1 H2.
  apply String.eqb_neq in H1, H2. rewrite H1, H2. reflexivity.
Qed.

Lemma requireRole_cases (required : string) (u : ReqUser) :
  (requireRole required u = None /\ (role u = required \/ role u = "admin"))
  \/ (requireRole required u
      = Some ("Access restricted to " ++ required ++ " members")%string
      /\ role u <> required /\ role u <> "admin").
Proof.
  destruct (String.eqb_spec (role u) "admin") as [Ha|Ha].
  - left. split; [apply requireRole_passes|]; auto.
  - destruct (String.eqb_spec (role u) required) as [Hr|Hr].
    + left. split; [apply requireRole_passes|]; auto.
    + right. split; [apply requireRole_blocks|]; auto.
Qed.
End Middleware.

(** ** Reading submissions *)

Section Reading.
Import Database Routes.

Lemma join_founder_some (db : Db) (l : list Submissions.row) (sid : Z)
      (S : Submissions.row) (owner : Users.row) :
  find (fun s => Submissions.id s =? sid) l = Some S ->
  user_by_id db (Submissions.user_id S) = Some owner ->
  find (fun su : Submissions.row * string => Submissions.id (fst su) =? sid)
       (flat_map (fun s =>
                    match user_by_id db (Submissions.user_id s) with
                    | Some u => [(s, Users.name u)]
                    | None => []
                    end) l)
  = Some (S, Users.name owner).
Proof.
  induction l as [|a l IH]; simpl; [discriminate|].
  intros Hfind Howner.
  destruct (Submissions.id a =? sid) eqn:E.
  - injection Hfind as ->. rewrite Howner. simpl. rewrite E. reflexivity.
  - destruct (user_by_id db (Submissions.user_id a)); simpl.
    + rewrite E. auto.
    + auto.
Qed.

Lemma join_founder_none (db : Db) (l : list Submissions.row) (sid : Z) :
  find (fun s => Submissions.id s =? sid) l = None ->
  find (fun su : Submissions.row * string => Submissions.id (fst su) =? sid)
       (flat_map (fun s =>
                    match user_by_id db (Submissions.user_id s) with
                    | Some u => [(s, Users.name u)]
                    | None => []
                    end) l)
  = None.
Proof.
  induction l as [|a l IH]; simpl; [reflexivity|].
  destruct (Submissions.id a =? sid) eqn:E; [discriminate|].
  intros Hfind.
  destruct (user_by_id db (Submissions.user_id a)); simpl; [rewrite E|]; auto.
Qed.

Lemma submission_with_founder_some (db : Db) (sid : Z)
      (S : Submissions.row) (owner : Users.row) :
  submission_by_id db sid = Some S ->
  user_by_id db (Submissions.user_id S) = Some owner ->
  submission_with_founder db sid = Some (S, Users.name owner).
Proof. apply join_founder_some. Qed.

Lemma submission_with_founder_none (db : Db) (sid : Z) :
  submission_by_id db sid = None -> submission_with_founder db sid = None.
Proof. apply join_founder_none. Qed.

Lemma submission_by_id_key (db : Db) (sid : Z) (S : Submissions.row) :
  submission_by_id db sid = Some S -> Submissions.id S = sid.
Proof.
  intros H. apply find_some in H. destruct H as [_ H]. lia.
Qed.

Variable sql_like : string -> string -> bool.

(** What a founder is listed is their own. *)
Lemma founder_list_is_own (db : Db) (F : Auth.ReqUser) (q : Query)
      (rows : list Listed) :
  Auth.role F = "founder" ->
  list_submissions sql_like db F q = Json OK rows ->
  forall x, In x rows -> Submissions.user_id (listed x) = Auth.id F.
Proof.
  intros HF Hlist x Hx. unfold list_submissions in Hlist.
  injection Hlist as <-.
  apply in_map_iff in Hx. destruct Hx as [su [<- Hsu]]. simpl.
  apply order_by_desc_In in Hsu. apply filter_In in Hsu.
  destruct Hsu as [_ Hall].
  unfold list_conditions in Hall. rewrite HF in Hall. simpl in Hall.
  apply andb_true_iff in Hall. destruct Hall as [Hown _]. lia.
Qed.

(** C1. A founder F who does not own a submission S: fetching S is
    answered 403 when S exists (the lookup comes before the ownership
    test) and 404 when no submission has the id; no list returned to F
    holds S; F's status and rating writes are answered 403 and leave
    the store as it was. *)
Theorem founder_cannot_reach_others_submission :
  forall (db : Db) (F : Auth.ReqUser),
    Auth.role F = "founder" ->
    (forall sid S owner,
        submission_by_id db sid = Some S ->
        user_by_id db (Submissions.user_id S) = Some owner ->
        Submissions.user_id S <> Auth.id F ->
        get_submission db F sid = Fail Forbidden "Access denied")
    /\ (forall sid,
           submission_by_id db sid = None ->
           get_submission db F sid = Fail NotFound "Submission not found")
    /\ (forall q S,
           Submissions.user_id S <> Auth.id F ->
           exists rows, list_submissions sql_like db F q = Json OK rows
                        /\ ~ In S (map listed rows))
    /\ (forall sid st,
           patch_status db F sid st
           = reply (Fail Forbidden "Access restricted to board members") db [])
    /\ (forall sid r,
           patch_rating db F sid r
           = reply (Fail Forbidden "Access restricted to board members") db []).
Proof.
  intros db F HF. repeat split.
  - intros sid S owner HS Howner Hnot.
    unfold get_submission.
    rewrite (submission_with_founder_some _ _ _ _ HS Howner).
    rewrite HF. simpl.
    apply Z.eqb_neq in Hnot. rewrite Hnot. reflexivity.
  - intros sid Hnone. unfold get_submission.
    rewrite (submission_with_founder_none _ _ Hnone). reflexivity.
  - intros q S Hnot.
    eexists. split; [reflexivity|].
    intros Hin. apply in_map_iff in Hin. destruct Hin as [x [<- Hx]].
    apply Hnot.
    eapply founder_list_is_own; [exact HF | reflexivity | exact Hx].
  - intros sid st. unfold patch_status, guarded.
    rewrite requireRole_blocks; [reflexivity| |]; rewrite HF; discriminate.
  - intros sid r. unfold patch_rating, guarded.
    rewrite requireRole_blocks; [reflexivity| |]; rewrite HF; discriminate.
Qed.
End Reading.

(** ** Board notes *)

Section Notes.
Import Database Routes.

Lemma notes_with_author_all (db : Db) :
  Invariants.authors_exist db ->
  map fst (notes_with_author db) = board_notes db.
Proof.
  unfold Invariants.authors_exist, notes_with_author.
  induction (board_notes db) as [|n l IH]; simpl; intros H; [reflexivity|].
  destruct (user_by_id db (BoardNotes.user_id n)) eqn:E.
  - simpl. f_equal. apply IH. auto.
  - exfalso. apply (H n); auto.
Qed.

(** The notes query, on the notes table alone. *)
Lemma select_notes_rows (db : Db) (reader : Auth.ReqUser) (sid : Z) :
  Invariants.authors_exist db ->
  map fst (select_notes db reader sid)
  = order_by_asc BoardNotes.created_at
      (filter (fun n => (BoardNotes.submission_id n =? sid)
                        && noteCondition reader n)
              (board_notes db)).
Proof.
  intros H. unfold select_notes.
  rewrite (map_order_by_asc fst BoardNotes.created_at).
  rewrite (map_filter_through fst
             (fun n => (BoardNotes.submission_id n =? sid)
                       && noteCondition reader n)).
  rewrite notes_with_author_all by exact H. reflexivity.
Qed.

Lemma select_notes_sorted (db : Db) (reader : Auth.ReqUser) (sid : Z) :
  Invariants.authors_exist db ->
  Sorted (ascending BoardNotes.created_at) (map fst (select_notes db reader sid)).
Proof.
  intros H. rewrite select_notes_rows by exact H. apply order_by_asc_sorted.
Qed.

Lemma select_notes_founder (db : Db) (reader : Auth.ReqUser) (sid : Z) :
  Invariants.authors_exist db ->
  Auth.role reader = "founder" ->
  Permutation (map fst (select_notes db reader sid))
              (filter (fun n => (BoardNotes.submission_id n =? sid)
                                && (BoardNotes.founder_visible n =? 1))
                      (board_notes db)).
Proof.
  intros H HF. rewrite select_notes_rows by exact H.
  rewrite order_by_asc_perm.
  unfold noteCondition. rewrite HF. simpl. reflexivity.
Qed.

Lemma select_notes_board (db : Db) (reader : Auth.ReqUser) (sid : Z) :
  Invariants.authors_exist db ->
  Auth.role reader = "board" ->
  Permutation (map fst (select_notes db reader sid))
              (filter (fun n => BoardNotes.submission_id n =? sid)
                      (board_notes db)).
Proof.
  intros H HB. rewrite select_notes_rows by exact H.
  rewrite order_by_asc_perm.
  unfold noteCondition. rewrite HB. simpl.
  erewrite filter_ext; [reflexivity|].
  intros n. simpl. apply andb_true_r.
Qed.

Variable sql_like : string -> string -> bool.

(** C5. With every note's author on record: the founder who owns a
    submission is shown, by the fetch and by the list, exactly its
    notes whose [founder_visible] is 1, oldest first; a board member
    is shown every note of the submission, oldest first. *)
Theorem notes_shown_by_role :
  forall (db : Db) (sid : Z) (S : Submissions.row) (owner : Users.row),
    Invariants.authors_exist db ->
    submission_by_id db sid = Some S ->
    user_by_id db (Submissions.user_id S) = Some owner ->
    (forall F : Auth.ReqUser,
        Auth.role F = "founder" -> Auth.id F = Submissions.user_id S ->
        (exists v, get_submission db F sid = Json OK v
                   /\ Sorted (ascending BoardNotes.created_at) (map fst (notes v))
                   /\ Permutation (map fst (notes v))
                        (filter (fun n => (BoardNotes.submission_id n =? sid)
                                          && (BoardNotes.founder_visible n =? 1))
                                (board_notes db)))
        /\ (forall q rows x,
               list_submissions sql_like db F q = Json OK rows -> In x rows ->
               Sorted (ascending BoardNotes.created_at) (map fst (listed_notes x))
               /\ Permutation (map fst (listed_notes x))
                    (filter (fun n => (BoardNotes.submission_id n
                                       =? Submissions.id (listed x))
                                      && (BoardNotes.founder_visible n =? 1))
                            (board_notes db))))
    /\ (forall B : Auth.ReqUser,
           Auth.role B = "board" ->
           (exists v, get_submission db B sid = Json OK v
                      /\ Sorted (ascending BoardNotes.created_at) (map fst (notes v))
                      /\ Permutation (map fst (notes v))
                           (filter (fun n => BoardNotes.submission_id n =? sid)
                                   (board_notes db)))
           /\ (forall q rows x,
                  list_submissions sql_like db B q = Json OK rows -> In x rows ->
                  Sorted (ascending BoardNotes.created_at) (map fst (listed_notes x))
                  /\ Permutation (map fst (listed_notes x))
                       (filter (fun n => BoardNotes.submission_id n
                                         =? Submissions.id (listed x))
                               (board_notes db)))).
Proof.
  intros db sid S owner Hfk HS Howner.
  pose proof (submission_by_id_key _ _ _ HS) as Hkey.
  split.
  - intros F HF Hown. split.
    + unfold get_submission.
      rewrite (submission_with_founder_some _ _ _ _ HS Howner).
      rewrite HF, Hown, Z.eqb_refl. simpl.
      eexists. split; [reflexivity|]. simpl. rewrite Hkey.
      split; [apply select_notes_sorted | apply select_notes_founder]; auto.
    + intros q rows x Hlist Hx. unfold list_submissions in Hlist.
      injection Hlist as <-.
      apply in_map_iff in Hx. destruct Hx as [su [<- _]]. simpl.
      split; [apply select_notes_sorted | apply select_notes_founder]; auto.
  - intros B HB. split.
    + unfold get_submission.
      rewrite (submission_with_founder_some _ _ _ _ HS Howner).
      rewrite HB. simpl.
      eexists. split; [reflexivity|]. simpl. rewrite Hkey.
      split; [apply select_notes_sorted | apply select_notes_board]; auto.
    + intros q rows x Hlist Hx. unfold list_submissions in Hlist.
      injection Hlist as <-.
      apply in_map_iff in Hx. destruct Hx as [su [<- _]]. simpl.
      split; [apply select_notes_sorted | apply select_notes_board]; auto.
Qed.
End Notes.

Lemma founder_cannot_reach_others_submission_witness :
  Auth.role Demo.casey = "founder"
  /\ Routes.get_submission Demo.db Demo.casey 1 = Fail Forbidden "Access denied"
  /\ Routes.get_submission Demo.db Demo.casey 9 = Fail NotFound "Submission not found"
  /\ status_code (Routes.res (Routes.patch_status Demo.db Demo.casey 1 (Some "approved")))
     = Forbidden.
Proof.
  destruct (founder_cannot_reach_others_submission
              Demo.sql_like Demo.db Demo.casey eq_refl)
    as (Hfetch & Habsent & _ & Hstatus & _).
  split; [reflexivity|].
  split; [|split].
  - eapply (Hfetch 1); [reflexivity | reflexivity | discriminate].
  - apply (Habsent 9). reflexivity.
  - rewrite Hstatus. reflexivity.
Defined.

Lemma notes_shown_by_role_witness :
  exists v, Routes.get_submission Demo.db Demo.alex 2 = Json OK v
            /\ Permutation (map fst (Routes.notes v))
                 (filter (fun n => (BoardNotes.submission_id n =? 2)
                                   && (BoardNotes.founder_visible n =? 1))
                         (Database.board_notes Demo.db)).
Proof.
  assert (Hfk : Invariants.authors_exist Demo.db).
  { intros n Hn. simpl in Hn.
    repeat (destruct Hn as [<-|Hn]; [discriminate|]). contradiction. }
  destruct (notes_shown_by_role Demo.sql_like Demo.db 2 _ _ Hfk eq_refl eq_refl)
    as (Hfounder & _).
  destruct (Hfounder Demo.alex eq_refl eq_refl) as ((v & Hv & _ & Hperm) & _).
  exists v. split; assumption.
Defined.

(** ** Status and rating writes *)

Section Writes.
Import Database Routes.

Lemma with_submissions_same (db : Db) : with_submissions db (submissions db) = db.
Proof. destruct db; reflexivity. Qed.

Lemma update_status_absent (db : Db) (st : string) (sid : Z) :
  submission_by_id db sid = None -> update_status db st sid = db.
Proof.
  intros Hnone. unfold update_status.
  rewrite map_id_on; [apply with_submissions_same|].
  intros s Hs. rewrite (find_none _ _ Hnone s Hs). reflexivity.
Qed.

Lemma update_rating_absent (db : Db) (r : Q) (sid : Z) :
  submission_by_id db sid = None -> update_rating db r sid = db.
Proof.
  intros Hnone. unfold update_rating.
  rewrite map_id_on; [apply with_submissions_same|].
  intros s Hs. rewrite (find_none _ _ Hnone s Hs). reflexivity.
Qed.

Lemma includes_valid (st : string) :
  In st valid -> Js.includes valid (Some st) = true.
Proof.
  intros H. simpl in H.
  repeat (destruct H as [<-|H]; [reflexivity|]). contradiction.
Qed.

(** The three tests of the rating handler, on a number. *)
Lemma rating_in_range (r : Q) :
  (1 <= r)%Q -> (r <= 5)%Q ->
  Js.falsy_number (Some r) || Js.lt r 1 || Js.gt r 5 = false.
Proof.
  intros H1 H5. unfold Js.falsy_number, Js.lt, Js.gt.
  apply Qle_bool_iff in H5. rewrite H5.
  pose proof H1 as H1'. apply Qle_bool_iff in H1'. rewrite H1'.
  destruct (Qeq_bool r 0) eqn:E; [|reflexivity].
  apply Qeq_bool_iff in E. rewrite E in H1.
  exfalso. revert H1. apply Qlt_not_le. reflexivity.
Qed.

Lemma rating_out_of_range (r : Q) :
  ~ ((1 <= r)%Q /\ (r <= 5)%Q) ->
  Js.falsy_number (Some r) || Js.lt r 1 || Js.gt r 5 = true.
Proof.
  intros H. unfold Js.lt, Js.gt.
  destruct (Qle_bool 1 r) eqn:E1; [|apply orb_true_iff; left; apply orb_true_r].
  destruct (Qle_bool r 5) eqn:E5; [|apply orb_true_r].
  exfalso. apply H. split; apply Qle_bool_iff; assumption.
Qed.

(** C10. For a board member or an admin, a valid status or a rating
    from 1 to 5 written to an id no submission has is answered 200, and
    the store, every submission in it, is left as it was. *)
Theorem writes_to_absent_submission_succeed :
  forall (db : Db) (actor : Auth.ReqUser) (sid : Z),
    Auth.role actor = "board" \/ Auth.role actor = "admin" ->
    submission_by_id db sid = None ->
    (forall st, In st valid ->
                patch_status db actor sid (Some st) = reply (Json OK st) db [])
    /\ (forall r, (1 <= r)%Q -> (r <= 5)%Q ->
                  patch_rating db actor sid (Some r) = reply (Json OK r) db []).
Proof.
  intros db actor sid Hrole Hnone. split.
  - intros st Hst. unfold patch_status, guarded.
    rewrite (requireRole_passes "board" actor Hrole).
    rewrite (includes_valid st Hst). simpl.
    rewrite (update_status_absent db st sid Hnone), Hnone. reflexivity.
  - intros r H1 H5. unfold patch_rating, guarded.
    rewrite (requireRole_passes "board" actor Hrole).
    rewrite (rating_in_range r H1 H5).
    rewrite (update_rating_absent db r sid Hnone). reflexivity.
Qed.

Lemma submission_by_id_rated (db : Db) (r : Q) (sid sid' : Z) :
  submission_by_id (update_rating db r sid) sid'
  = option_map (fun s => if Submissions.id s =? sid
                         then Submissions.set_rating (Some r) s else s)
               (submission_by_id db sid').
Proof.
  unfold submission_by_id, update_rating. simpl.
  apply find_map_keeping.
  intros s. destruct (Submissions.id s =? sid); reflexivity.
Qed.

Lemma update_rating_twice (db : Db) (r1 r2 : Q) (sid : Z) :
  update_rating (update_rating db r1 sid) r2 sid = update_rating db r2 sid.
Proof.
  unfold update_rating, with_submissions. simpl. f_equal.
  rewrite map_map. apply map_ext.
  intros s. destruct (Submissions.id s =? sid) eqn:E; simpl; rewrite E; reflexivity.
Qed.

(** C6, as the handler has it. The rating write is refused with 403 to
    every actor who is neither board nor admin. From a board member or
    an admin, a number is accepted exactly when it lies between 1 and 5,
    whole or not, and is refused with 400 otherwise, as is a missing
    rating. An accepted rating replaces the one the submission had: the
    row keeps its other columns, other submissions are untouched, and a
    second write leaves the store a single write of it would. *)
Theorem rating_write_takes_the_range :
  forall (db : Db) (actor : Auth.ReqUser) (sid : Z),
    (Auth.role actor <> "board" -> Auth.role actor <> "admin" ->
     forall r, patch_rating db actor sid r
               = reply (Fail Forbidden "Access restricted to board members") db [])
    /\ (Auth.role actor = "board" \/ Auth.role actor = "admin" ->
        (forall r, (1 <= r)%Q /\ (r <= 5)%Q ->
                   patch_rating db actor sid (Some r)
                   = reply (Json OK r) (update_rating db r sid) [])
        /\ (forall r, ~ ((1 <= r)%Q /\ (r <= 5)%Q) ->
                      patch_rating db actor sid (Some r)
                      = reply (Fail BadRequest "Rating must be between 1 and 5") db [])
        /\ patch_rating db actor sid None
           = reply (Fail BadRequest "Rating must be between 1 and 5") db [])
    /\ (forall r S, submission_by_id db sid = Some S ->
                    submission_by_id (update_rating db r sid) sid
                    = Some (Submissions.set_rating (Some r) S))
    /\ (forall r sid', sid' <> sid ->
                       submission_by_id (update_rating db r sid) sid'
                       = submission_by_id db sid')
    /\ (forall r1 r2, update_rating (update_rating db r1 sid) r2 sid
                      = update_rating db r2 sid).
Proof.
  intros db actor sid. repeat split.
  - intros Hb Ha r. unfold patch_rating, guarded.
    rewrite (requireRole_blocks "board" actor Hb Ha). reflexivity.
  - intros r [H1 H5]. unfold patch_rating, guarded.
    rewrite (requireRole_passes "board" actor H).
    rewrite (rating_in_range r H1 H5). reflexivity.
  - intros r Hout. unfold patch_rating, guarded.
    rewrite (requireRole_passes "board" actor H).
    rewrite (rating_out_of_range r Hout). reflexivity.
  - unfold patch_rating, guarded.
    rewrite (requireRole_passes "board" actor H). reflexivity.
  - intros r S HS. rewrite submission_by_id_rated, HS. simpl.
    rewrite (submission_by_id_key db sid S HS), Z.eqb_refl. reflexivity.
  - intros r sid' Hne. rewrite submission_by_id_rated.
    destruct (submission_by_id db sid') as [S|] eqn:HS; [|reflexivity]. simpl.
    rewrite (submission_by_id_key db sid' S HS).
    apply Z.eqb_neq in Hne. rewrite Hne. reflexivity.
  - intros r1 r2. apply update_rating_twice.
Qed.
End Writes.

Lemma writes_to_absent_submission_succeed_witness :
  Routes.patch_status Demo.db Demo.sarah 99 (Some "approved")
  = Routes.reply (Json OK "approved") Demo.db []
  /\ Routes.patch_rating Demo.db Demo.sarah 99 (Some 3%Q)
     = Routes.reply (Json OK 3%Q) Demo.db [].
Proof.
  destruct (writes_to_absent_submission_succeed
              Demo.db Demo.sarah 99 (or_introl eq_refl) eq_refl) as [Hst Hr].
  split.
  - apply Hst. simpl. tauto.
  - apply Hr; discriminate.
Defined.

(** C6, as the claim has it, fails: the rating 5/2 is no integer, yet a
    board member's write of it is answered 200 and stored. *)
Lemma rating_write_takes_a_fraction :
  Routes.res (Routes.patch_rating Demo.db Demo.sarah 1 (Some (5 # 2)%Q))
  = Json OK (5 # 2)%Q
  /\ option_map Submissions.rating
       (Database.submission_by_id
          (Routes.store (Routes.patch_rating Demo.db Demo.sarah 1 (Some (5 # 2)%Q))) 1)
     = Some (Some (5 # 2)%Q)
  /\ (forall z : Z, ~ (5 # 2 == inject_Z z)%Q).
Proof.
  split; [reflexivity|]. split; [reflexivity|].
  intros z H. unfold Qeq in H. simpl in H. lia.
Qed.

Lemma rating_write_takes_the_range_witness :
  Routes.patch_rating Demo.db Demo.sarah 1 (Some (5 # 2)%Q)
  = Routes.reply (Json OK (5 # 2)%Q) (Database.update_rating Demo.db (5 # 2)%Q 1) []
  /\ Routes.patch_rating Demo.db Demo.sarah 1 (Some 6%Q)
     = Routes.reply (Fail BadRequest "Rating must be between 1 and 5") Demo.db []
  /\ Routes.patch_rating Demo.db Demo.alex 1 (Some 3%Q)
     = Routes.reply (Fail Forbidden "Access restricted to board members") Demo.db [].
Proof.
  destruct (rating_write_takes_the_range Demo.db Demo.sarah 1)
    as (_ & Hboard & _).
  destruct (Hboard (or_introl eq_refl)) as (Hin & Hout & _).
  destruct (rating_write_takes_the_range Demo.db Demo.alex 1)
    as (Hfounder & _).
  split; [|split].
  - apply Hin. split; discriminate.
  - apply Hout. intros [_ H]. apply H. reflexivity.
  - apply Hfounder; discriminate.
Defined.

(** ** Requests change the store in a few ways only *)

Section Changes.
Import Database Routes Invariants.

Lemma lower_ascii_idem (c : ascii) :
  Js.lower_ascii (Js.lower_ascii c) = Js.lower_ascii c.
Proof. destruct c as [[] [] [] [] [] [] [] []]; reflexivity. Qed.

Lemma toLowerCase_idem (s : string) :
  Js.toLowerCase (Js.toLowerCase s) = Js.toLowerCase s.
Proof.
  induction s as [|c s IH]; simpl; [reflexivity|].
  rewrite lower_ascii_idem, IH. reflexivity.
Qed.

Lemma check_role_cases (r : string) :
  Users.check_role r = true -> r = "founder" \/ r = "board".
Proof.
  unfold Users.check_role. intros H. apply orb_true_iff in H.
  destruct H as [H|H]; apply String.eqb_eq in H; auto.
Qed.

(** What a successful [INSERT INTO users] does. *)
Lemma insert_user_some (db db' : Db) (e pw n r : string) (sp : option string)
      (rowid : Z) :
  insert_user db e pw n r sp = Some (db', rowid) ->
  let u := {| Users.id := users_seq db + 1; Users.email := e;
              Users.password := pw; Users.name := n;
              Users.role := r; Users.specialty := sp |} in
  rowid = lastInsertRowid
  /\ db' = with_users db (users db ++ [u]) (users_seq db + 1)
  /\ Users.check_role r = true
  /\ user_by_email db e = None.
Proof.
  unfold insert_user. intros H.
  destruct (Users.check_role r) eqn:Hr; simpl in H; [|discriminate].
  destruct (user_by_email db e) eqn:He; [discriminate|].
  injection H as <- <-. auto.
Qed.

(** What a successful [INSERT INTO partnerships] does. *)
Lemma insert_partnership_some (db db' : Db) (sid uid now rowid : Z) :
  insert_partnership db sid uid now = Some (db', rowid) ->
  rowid = lastInsertRowid
  /\ db' = with_partnerships db (partnerships db ++ [pending_row db sid uid now])
                             (partnerships_seq db + 1)
  /\ partnership_of db sid uid = None.
Proof.
  unfold insert_partnership. intros H.
  destruct (partnership_of db sid uid) eqn:Hp; [discriminate|].
  injection H as <- <-. repeat split; congruence.
Qed.

Lemma insert_partnership_succeeds (db : Db) (sid uid now : Z) :
  partnership_of db sid uid = None ->
  insert_partnership db sid uid now
  = Some (with_partnerships db (partnerships db ++ [pending_row db sid uid now])
                            (partnerships_seq db + 1),
          lastInsertRowid).
Proof.
  unfold insert_partnership. intros Hp. rewrite Hp. reflexivity.
Qed.

(** The row a response is given to is a row of the table. *)
Lemma partnership_with_founder_some (db : Db) (pid : Z)
      (p : Partnerships.row) (founder_id : Z) :
  partnership_with_founder db pid = Some (p, founder_id) ->
  In p (partnerships db) /\ Partnerships.id p = pid
  /\ exists s, submission_by_id db (Partnerships.submission_id p) = Some s
               /\ Submissions.user_id s = founder_id.
Proof.
  unfold partnership_with_founder. intros H.
  apply find_some in H. destruct H as [Hin Hid]. simpl in Hid.
  apply in_flat_map in Hin. destruct Hin as [q [Hq Hin]].
  destruct (submission_by_id db (Partnerships.submission_id q)) as [s|] eqn:Hs;
    [|contradiction].
  destruct Hin as [Heq|[]]. injection Heq as <- <-.
  repeat split; [assumption | lia | exists s; auto].
Qed.

Lemma includes_decision (d : string) :
  Js.includes ["accepted"; "declined"] (Some d) = true ->
  d = "accepted" \/ d = "declined".
Proof.
  unfold Js.includes. intros H.
  apply existsb_exists in H. destruct H as [v [Hin Hv]].
  apply String.eqb_eq in Hv. subst v.
  destruct Hin as [<-|[<-|[]]]; auto.
Qed.

Variable hashSync : string -> string.

Lemma register_change (db : Db) (n e pw : option string) :
  change db (store (register hashSync db n e pw)).
Proof.
  unfold register.
  destruct n as [n|], e as [e|], pw as [pw|]; try apply unchanged.
  destruct (Js.falsy (Some n) || Js.falsy (Some e) || Js.falsy (Some pw));
    [apply unchanged|].
  destruct (Z.of_nat (Js.length pw) <? 8); [apply unchanged|].
  destruct (user_by_email db (Js.toLowerCase e)); [apply unchanged|].
  destruct (insert_user db (Js.toLowerCase e) (hashSync pw) n "founder" None)
    as [[db' rowid]|] eqn:Hins; [|apply unchanged].
  apply insert_user_some in Hins. destruct Hins as (_ & -> & _ & _).
  assert (Hch : change db
                  (with_users db
                     (users db ++
                        [{| Users.id := users_seq db + 1;
                            Users.email := Js.toLowerCase e;
                            Users.password := hashSync pw; Users.name := n;
                            Users.role := "founder"; Users.specialty := None |}])
                     (users_seq db + 1))).
  { apply user_added; simpl; auto using toLowerCase_idem. }
  match goal with |- context [match ?x with _ => _ end] => destruct x end;
    exact Hch.
Qed.

Lemma create_board_member_change (db : Db) (a : Auth.ReqUser)
      (n e pw sp : option string) :
  change db (store (create_board_member hashSync db a n e pw sp)).
Proof.
  unfold create_board_member, guarded.
  destruct (Auth.requireRole "admin" a); [apply unchanged|].
  destruct n as [n|], e as [e|], pw as [pw|]; try apply unchanged.
  destruct (Js.falsy (Some n) || Js.falsy (Some e) || Js.falsy (Some pw));
    [apply unchanged|].
  destruct (user_by_email db (Js.toLowerCase e)); [apply unchanged|].
  match goal with
  | |- context [insert_user ?d ?em ?p ?nm ?r ?s] =>
      destruct (insert_user d em p nm r s) as [[db' rowid]|] eqn:Hins
  end; [|apply unchanged].
  apply insert_user_some in Hins. destruct Hins as (_ & -> & _ & _).
  apply user_added; simpl; auto using toLowerCase_idem.
Qed.

Lemma patch_status_change (db : Db) (a : Auth.ReqUser) (sid : Z)
      (st : option string) :
  change db (store (patch_status db a sid st)).
Proof.
  unfold patch_status, guarded.
  destruct (Auth.requireRole "board" a); [apply unchanged|].
  destruct st as [st|]; [|apply unchanged].
  destruct (negb (Js.includes valid (Some st))); [apply unchanged|].
  apply status_set.
Qed.

Lemma patch_rating_change (db : Db) (a : Auth.ReqUser) (sid : Z)
      (r : option Q) :
  change db (store (patch_rating db a sid r)).
Proof.
  unfold patch_rating, guarded.
  destruct (Auth.requireRole "board" a); [apply unchanged|].
  destruct r as [r|]; [|apply unchanged].
  destruct (Js.falsy_number (Some r) || Js.lt r 1 || Js.gt r 5);
    [apply unchanged|].
  apply rating_set.
Qed.

Lemma claim_change (db : Db) (a : Auth.ReqUser) (sid now : Z) :
  change db (store (claim db a sid now)).
Proof.
  unfold claim, guarded.
  destruct (Auth.requireRole "board" a); [apply unchanged|].
  destruct (submission_by_id db sid) as [sub|] eqn:Hsub; [|apply unchanged].
  destruct (partnership_of db sid (Auth.id a)) eqn:Hp; [apply unchanged|].
  destruct (active_count db sid >=? 3) eqn:Hc; [apply unchanged|].
  destruct (insert_partnership db sid (Auth.id a) now) as [[db' rowid]|] eqn:Hins;
    [|apply unchanged].
  apply insert_partnership_some in Hins.
  destruct Hins as (_ & -> & _).
  assert (Hch : change db
                  (with_partnerships db
                     (partnerships db ++ [pending_row db sid (Auth.id a) now])
                     (partnerships_seq db + 1))).
  { apply partnership_added; [congruence|exact Hp|lia]. }
  repeat match goal with
         | |- context [match ?x with _ => _ end] => destruct x
         end; exact Hch.
Qed.

Lemma withdraw_change (db : Db) (a : Auth.ReqUser) (sid : Z) :
  change db (store (withdraw db a sid)).
Proof.
  unfold withdraw, guarded.
  destruct (Auth.requireRole "board" a); [apply unchanged|].
  pose proof (pending_deleted db sid (Auth.id a)) as Hch.
  destruct (delete_pending db sid (Auth.id a)) as [db' n].
  destruct (n =? 0); exact Hch.
Qed.

Lemma respond_change (db : Db) (a : Auth.ReqUser) (pid : Z)
      (d : option string) (now : Z) :
  change db (store (respond db a pid d now)).
Proof.
  unfold respond, guarded.
  destruct (Auth.requireRole "founder" a); [apply unchanged|].
  destruct d as [d|]; [|apply unchanged].
  destruct (Js.includes ["accepted"; "declined"] (Some d)) eqn:Hd;
    [|apply unchanged].
  simpl negb. cbv iota.
  destruct (partnership_with_founder db pid) as [[p f]|] eqn:Hp;
    [|apply unchanged].
  destruct (negb (f =? Auth.id a)); [apply unchanged|].
  destruct (Partnerships.status p =? "pending")%string eqn:Hst;
    [|apply unchanged].
  simpl.
  apply partnership_with_founder_some in Hp. destruct Hp as (Hin & Hid & _).
  apply (responded db d now pid p); auto.
  - apply includes_decision. exact Hd.
  - apply String.eqb_eq. exact Hst.
Qed.

Lemma serve_change (db : Db) (r : Request) : change db (serve hashSync db r).
Proof.
  destruct r; simpl.
  - apply register_change.
  - apply create_board_member_change.
  - apply patch_status_change.
  - apply patch_rating_change.
  - apply claim_change.
  - apply withdraw_change.
  - apply respond_change.
Qed.
End Changes.

(** ** The schema's constraints hold after every request *)

Section Preservation.
Import Database Routes Invariants.

Lemma user_by_id_grows (db : Db) (u : Users.row) (seq uid : Z) :
  user_by_id db uid <> None ->
  user_by_id (with_users db (users db ++ [u]) seq) uid <> None.
Proof.
  unfold user_by_id. simpl. intros H.
  destruct (find (fun u0 => Users.id u0 =? uid) (users db)) eqn:E; [|congruence].
  rewrite (find_app_some _ _ _ _ E). discriminate.
Qed.

Lemma user_by_email_grows (db : Db) (u : Users.row) (seq : Z) (e : string) :
  user_by_email db e <> None ->
  user_by_email (with_users db (users db ++ [u]) seq) e <> None.
Proof.
  unfold user_by_email. simpl. intros H.
  destruct (find (fun u0 => (Users.email u0 =? e)%string) (users db)) eqn:E;
    [|congruence].
  rewrite (find_app_some _ _ _ _ E). discriminate.
Qed.

Lemma submission_by_id_status (db : Db) (st : string) (sid sid' : Z) :
  submission_by_id (update_status db st sid) sid'
  = option_map (fun s => if Submissions.id s =? sid
                         then Submissions.set_status st s else s)
               (submission_by_id db sid').
Proof.
  unfold submission_by_id, update_status. simpl.
  apply find_map_keeping.
  intros s. destruct (Submissions.id s =? sid); reflexivity.
Qed.

Lemma active_count_snoc (db : Db) (p : Partnerships.row) (seq sid : Z) :
  active_count (with_partnerships db (partnerships db ++ [p]) seq) sid
  = active_count db sid
    + (if (Partnerships.submission_id p =? sid) && Partnerships.active p
       then 1 else 0).
Proof.
  unfold active_count. simpl. rewrite filter_app, length_app. simpl.
  destruct ((Partnerships.submission_id p =? sid) && Partnerships.active p);
    simpl; lia.
Qed.

(** A response leaves each row its key, submission and claimant. *)
Lemma respond_keeps (st : string) (now pid : Z) (p : Partnerships.row) :
  let q := if Partnerships.id p =? pid then Partnerships.respond st now p else p in
  Partnerships.id q = Partnerships.id p
  /\ Partnerships.submission_id q = Partnerships.submission_id p
  /\ Partnerships.user_id q = Partnerships.user_id p.
Proof. simpl. destruct (Partnerships.id p =? pid); auto. Qed.

Lemma capped_change (db db' : Db) :
  keys_fresh db -> capped db -> change db db' -> capped db'.
Proof.
  intros [Hnd _] Hcap Hch sid'.
  destruct Hch as [ | u _ _ _ | st sid | r sid | sid uid now _ _ Hlt
                   | sid uid | d now pid p _ Hin Hid Hst ];
    try exact (Hcap sid').
  - rewrite active_count_snoc. simpl.
    destruct (sid =? sid') eqn:E; simpl.
    + apply Z.eqb_eq in E. subst sid'. lia.
    + specialize (Hcap sid'). lia.
  - unfold delete_pending, active_count. simpl.
    specialize (Hcap sid'). unfold active_count in Hcap.
    pose proof (filter_filter_length_le
                  (fun p => (Partnerships.submission_id p =? sid')
                            && Partnerships.active p)
                  (fun p => negb (withdrawable sid uid p))
                  (partnerships db)).
    lia.
  - unfold update_partnership, active_count. simpl.
    specialize (Hcap sid'). unfold active_count in Hcap.
    pose proof (filter_map_length_le
                  (fun p => (Partnerships.submission_id p =? sid')
                            && Partnerships.active p)
                  (fun p => if Partnerships.id p =? pid
                            then Partnerships.respond d now p else p)
                  (partnerships db)) as Hle.
    cut (forall x, In x (partnerships db) ->
                   (Partnerships.submission_id
                      (if Partnerships.id x =? pid
                       then Partnerships.respond d now x else x) =? sid')
                   && Partnerships.active
                        (if Partnerships.id x =? pid
                         then Partnerships.respond d now x else x) = true ->
                   (Partnerships.submission_id x =? sid')
                   && Partnerships.active x = true).
    { intros Hcut. specialize (Hle Hcut). lia. }
    intros x Hx. destruct (Partnerships.id x =? pid) eqn:E; [|auto].
    apply Z.eqb_eq in E.
    assert (x = p) as ->.
    { apply (NoDup_map_key Partnerships.id (partnerships db)); auto. congruence. }
    simpl. intros H. apply andb_true_iff in H. destruct H as [H _].
    rewrite H. unfold Partnerships.active. rewrite Hst. reflexivity.
Qed.

Lemma pairs_unique_change (db db' : Db) :
  pairs_unique db -> change db db' -> pairs_unique db'.
Proof.
  unfold pairs_unique. intros Hnd Hch.
  destruct Hch as [ | u _ _ _ | st sid | r sid | sid uid now _ Hnone _
                   | sid uid | d now pid p _ _ _ _ ];
    try exact Hnd; simpl.
  - apply NoDup_map_snoc; [exact Hnd|].
    intros Hin. apply in_map_iff in Hin. destruct Hin as [x [Hx Hin]].
    pose proof (find_none _ _ Hnone x Hin) as Hf. simpl in Hf.
    unfold pair_of in Hx. simpl in Hx. injection Hx as H1 H2.
    rewrite H1, H2, !Z.eqb_refl in Hf. discriminate.
  - apply NoDup_map_filter. exact Hnd.
  - rewrite map_map.
    erewrite map_ext; [exact Hnd|].
    intros x. unfold pair_of.
    destruct (Partnerships.id x =? pid); reflexivity.
Qed.

Lemma keys_fresh_change (db db' : Db) :
  sequences_started db -> keys_fresh db -> change db db' -> keys_fresh db'.
Proof.
  unfold keys_fresh. intros [_ Hseq] [Hnd Hle] Hch.
  destruct Hch as [ | u _ _ _ | st sid | r sid | sid uid now _ _ _
                   | sid uid | d now pid p _ _ _ _ ];
    try (split; assumption); simpl.
  - split.
    + apply NoDup_map_snoc; [exact Hnd|]. simpl.
      intros Hin. apply in_map_iff in Hin. destruct Hin as [x [Hx Hin]].
      specialize (Hle x Hin). lia.
    + intros q Hq. apply in_app_iff in Hq. destruct Hq as [Hq|[<-|[]]].
      * specialize (Hle q Hq). lia.
      * simpl. lia.
  - split.
    + apply NoDup_map_filter. exact Hnd.
    + intros q Hq. apply filter_In in Hq. apply Hle. tauto.
  - split.
    + rewrite map_map. erewrite map_ext; [exact Hnd|].
      intros x. destruct (Partnerships.id x =? pid); reflexivity.
    + intros q Hq. apply in_map_iff in Hq. destruct Hq as [x [<- Hx]].
      specialize (Hle x Hx).
      destruct (Partnerships.id x =? pid); simpl; lia.
Qed.

Lemma partners_exist_change (db db' : Db) :
  partners_exist db -> change db db' -> partners_exist db'.
Proof.
  unfold partners_exist. intros Hfk Hch.
  destruct Hch as [ | u _ _ _ | st sid | r sid | sid uid now Hs _ _
                   | sid uid | d now pid p _ _ _ _ ];
    try exact Hfk; simpl.
  - intros q Hq. specialize (Hfk q Hq).
    rewrite submission_by_id_status.
    destruct (submission_by_id db (Partnerships.submission_id q));
      simpl; congruence.
  - intros q Hq. specialize (Hfk q Hq).
    rewrite submission_by_id_rated.
    destruct (submission_by_id db (Partnerships.submission_id q));
      simpl; congruence.
  - intros q Hq. apply in_app_iff in Hq. destruct Hq as [Hq|[<-|[]]].
    + exact (Hfk q Hq).
    + simpl. exact Hs.
  - intros q Hq. apply filter_In in Hq. destruct Hq as [Hq _]. exact (Hfk q Hq).
  - intros q Hq. apply in_map_iff in Hq. destruct Hq as [x [<- Hx]].
    specialize (Hfk x Hx).
    destruct (Partnerships.id x =? pid); simpl; exact Hfk.
Qed.

Lemma owners_exist_change (db db' : Db) :
  owners_exist db -> change db db' -> owners_exist db'.
Proof.
  unfold owners_exist. intros Hfk Hch.
  destruct Hch as [ | u _ _ _ | st sid | r sid | sid uid now _ _ _
                   | sid uid | d now pid p _ _ _ _ ];
    try exact Hfk; simpl.
  - intros s Hs. apply user_by_id_grows. exact (Hfk s Hs).
  - intros s Hs. apply in_map_iff in Hs. destruct Hs as [x [<- Hx]].
    specialize (Hfk x Hx). destruct (Submissions.id x =? sid); exact Hfk.
  - intros s Hs. apply in_map_iff in Hs. destruct Hs as [x [<- Hx]].
    specialize (Hfk x Hx). destruct (Submissions.id x =? sid); exact Hfk.
Qed.

Lemma roles_checked_change (db db' : Db) :
  roles_checked db -> change db db' -> roles_checked db'.
Proof.
  unfold roles_checked. intros Hr Hch.
  destruct Hch as [ | u _ Hrole _ | st sid | r sid | sid uid now _ _ _
                   | sid uid | d now pid p _ _ _ _ ];
    try exact Hr; simpl.
  intros v Hv. apply in_app_iff in Hv. destruct Hv as [Hv|[<-|[]]]; auto.
Qed.

Lemma emails_lowercase_change (db db' : Db) :
  emails_lowercase db -> change db db' -> emails_lowercase db'.
Proof.
  unfold emails_lowercase. intros Hl Hch.
  destruct Hch as [ | u _ _ Hlow | st sid | r sid | sid uid now _ _ _
                   | sid uid | d now pid p _ _ _ _ ];
    try exact Hl; simpl.
  intros v Hv. apply in_app_iff in Hv. destruct Hv as [Hv|[<-|[]]]; auto.
Qed.

Lemma user_keys_fresh_change (db db' : Db) :
  sequences_started db -> user_keys_fresh db -> change db db' ->
  user_keys_fresh db'.
Proof.
  unfold user_keys_fresh. intros [Hseq _] Hk Hch.
  destruct Hch as [ | u Hid _ _ | st sid | r sid | sid uid now _ _ _
                   | sid uid | d now pid p _ _ _ _ ];
    try exact Hk; simpl.
  intros v Hv. apply in_app_iff in Hv. destruct Hv as [Hv|[<-|[]]].
  - specialize (Hk v Hv). lia.
  - lia.
Qed.

Lemma sequences_started_change (db db' : Db) :
  sequences_started db -> change db db' -> sequences_started db'.
Proof.
  unfold sequences_started. intros [Hu Hp] Hch.
  destruct Hch as [ | u _ _ _ | st sid | r sid | sid uid now _ _ _
                   | sid uid | d now pid p _ _ _ _ ];
    simpl; lia.
Qed.

Lemma consistent_change (db db' : Db) :
  consistent db -> change db db' -> consistent db'.
Proof.
  intros [H1 H2 H3 H4 H5 H6 H7 H8 H9] Hch. constructor.
  - eapply capped_change; eauto.
  - eapply pairs_unique_change; eauto.
  - eapply keys_fresh_change; eauto.
  - eapply partners_exist_change; eauto.
  - eapply owners_exist_change; eauto.
  - eapply roles_checked_change; eauto.
  - eapply emails_lowercase_change; eauto.
  - eapply user_keys_fresh_change; eauto.
  - eapply sequences_started_change; eauto.
Qed.

Variable hashSync : string -> string.

Lemma consistent_serve (db : Db) (r : Request) :
  consistent db -> consistent (serve hashSync db r).
Proof.
  intros H. eapply consistent_change; [exact H | apply serve_change].
Qed.

Lemma consistent_serve_all (rs : list Request) (db : Db) :
  consistent db -> consistent (serve_all hashSync db rs).
Proof.
  unfold serve_all. revert db.
  induction rs as [|r rs IH]; simpl; intros db H; [exact H|].
  apply IH. apply consistent_serve. exact H.
Qed.

Lemma consistent_empty : consistent Seed.empty.
Proof.
  constructor.
  - intros sid. unfold active_count. simpl. lia.
  - constructor.
  - split; [constructor | intros p []].
  - intros p [].
  - intros s [].
  - intros u [].
  - intros u [].
  - intros u [].
  - split; simpl; lia.
Qed.

Lemma consistent_seeded : consistent (Seed.seedDatabase hashSync Seed.empty).
Proof.
  constructor.
  - intros sid. unfold active_count. simpl. lia.
  - constructor.
  - split; [constructor | intros p []].
  - intros p [].
  - intros s Hs. simpl in Hs.
    repeat (destruct Hs as [<-|Hs]; [discriminate|]). contradiction.
  - intros u Hu. simpl in Hu.
    repeat (destruct Hu as [<-|Hu]; [simpl; auto|]). contradiction.
  - intros u Hu. simpl in Hu.
    repeat (destruct Hu as [<-|Hu]; [reflexivity|]). contradiction.
  - intros u Hu. simpl in Hu.
    repeat (destruct Hu as [<-|Hu]; [simpl; lia|]). contradiction.
  - split; simpl; lia.
Qed.
End Preservation.

(** ** Claiming, withdrawing, responding *)

Section Allocator.
Import Database Routes Invariants.

Lemma find_all_false {A : Type} (f : A -> bool) (l : list A) :
  (forall x, In x l -> f x = false) -> find f l = None.
Proof.
  induction l as [|a l IH]; simpl; intros H; [reflexivity|].
  rewrite (H a) by auto. apply IH. auto.
Qed.

(** Rows deleted and rows kept add up, for a count that covers the
    deleted ones. *)
Lemma filter_removed_length {A : Type} (f w : A -> bool) (l : list A) :
  (forall x, w x = true -> f x = true) ->
  (List.length (filter f (filter (fun x => negb (w x)) l))
   + List.length (filter w l) = List.length (filter f l))%nat.
Proof.
  intros Hwf. induction l as [|a l IH]; simpl; [reflexivity|].
  destruct (w a) eqn:Hw; simpl.
  - rewrite (Hwf a Hw). simpl. lia.
  - destruct (f a); simpl; lia.
Qed.

Lemma partnership_of_some (db : Db) (sid uid : Z) (p : Partnerships.row) :
  partnership_of db sid uid = Some p ->
  In p (partnerships db)
  /\ Partnerships.submission_id p = sid /\ Partnerships.user_id p = uid.
Proof.
  intros H. apply find_some in H. destruct H as [Hin H].
  apply andb_true_iff in H. destruct H as [H1 H2].
  repeat split; [assumption | lia | lia].
Qed.

Lemma partnership_of_in (db : Db) (p : Partnerships.row) :
  In p (partnerships db) ->
  partnership_of db (Partnerships.submission_id p) (Partnerships.user_id p) <> None.
Proof.
  intros Hin. apply (find_not_none _ _ p Hin).
  rewrite !Z.eqb_refl. reflexivity.
Qed.

(** No row has the key that [run] hands back. *)
Lemma partner_by_id_lost (db : Db) :
  (forall p, In p (partnerships db) -> 0 < Partnerships.id p) ->
  partner_by_id db lastInsertRowid = None.
Proof.
  intros Hpos. unfold partner_by_id, partnerships_with_partner.
  apply find_all_false. intros [[q n] s] Hq. cbn [fst].
  apply in_flat_map in Hq. destruct Hq as [x [Hx Hq]].
  destruct (user_by_id db (Partnerships.user_id x)); [|contradiction].
  destruct Hq as [Heq|[]]. injection Heq as <- _ _.
  specialize (Hpos x Hx). unfold lastInsertRowid. lia.
Qed.

(** The claim handler, when each of its tests passes: the row is
    written, the re-read by the key [run] hands back finds nothing,
    and the handler throws on it where the owner has a user row. *)
Lemma claim_inserts (db : Db) (actor : Auth.ReqUser) (sid now : Z)
      (sub : Submissions.row) :
  sequences_started db ->
  keys_fresh db ->
  Auth.role actor = "board" \/ Auth.role actor = "admin" ->
  submission_by_id db sid = Some sub ->
  partnership_of db sid (Auth.id actor) = None ->
  active_count db sid < 3 ->
  claim db actor sid now
  = reply (match user_by_id db (Submissions.user_id sub) with
           | Some _ => Fail InternalError "Internal server error"
           | None => Json Created None
           end)
          (with_partnerships db
             (partnerships db ++ [pending_row db sid (Auth.id actor) now])
             (partnerships_seq db + 1))
          [].
Proof.
  intros [_ Hseq] [_ Hle] Hrole Hsub Hnone Hlt.
  unfold claim, guarded.
  rewrite (requireRole_passes "board" actor Hrole), Hsub, Hnone.
  assert ((active_count db sid >=? 3) = false) as -> by lia.
  rewrite (insert_partnership_succeeds db sid (Auth.id actor) now Hnone).
  rewrite partner_by_id_lost.
  - change (user_by_id (with_partnerships db
              (partnerships db ++ [pending_row db sid (Auth.id actor) now])
              (partnerships_seq db + 1)))
      with (user_by_id db).
    destruct (user_by_id db (Submissions.user_id sub)); reflexivity.
  - cbn [partnerships with_partnerships]. intros p Hp.
    apply in_app_iff in Hp. destruct Hp as [Hp|[<-|[]]].
    + specialize (Hle p Hp). lia.
    + cbn [pending_row Partnerships.id]. lia.
Qed.


Lemma partnership_with_founder_updated (db : Db) (d : string) (now pid pid' : Z) :
  partnership_with_founder (update_partnership db d now pid) pid'
  = option_map (fun pf => (if Partnerships.id (fst pf) =? pid
                           then Partnerships.respond d now (fst pf)
                           else fst pf, snd pf))
               (partnership_with_founder db pid').
Proof.
  unfold partnership_with_founder, update_partnership, submission_by_id. simpl.
  induction (partnerships db) as [|a l IH]; simpl; [reflexivity|].
  replace (Partnerships.submission_id
             (if Partnerships.id a =? pid then Partnerships.respond d now a else a))
    with (Partnerships.submission_id a)
    by (destruct (Partnerships.id a =? pid); reflexivity).
  destruct (find (fun s => Submissions.id s =? Partnerships.submission_id a)
                 (submissions db)) as [s|]; simpl.
  - replace (Partnerships.id
               (if Partnerships.id a =? pid then Partnerships.respond d now a else a))
      with (Partnerships.id a)
      by (destruct (Partnerships.id a =? pid); reflexivity).
    destruct (Partnerships.id a =? pid'); simpl; [reflexivity|exact IH].
  - exact IH.
Qed.

Lemma partnership_with_founder_absent (db : Db) (pid : Z) :
  find (fun p => Partnerships.id p =? pid) (partnerships db) = None ->
  partnership_with_founder db pid = None.
Proof.
  intros Hnone. apply find_all_false. intros [q f] Hq. simpl.
  apply in_flat_map in Hq. destruct Hq as [x [Hx Hq]].
  destruct (submission_by_id db (Partnerships.submission_id x)); [|contradiction].
  destruct Hq as [Heq|[]]. injection Heq as <- <-.
  exact (find_none _ _ Hnone x Hx).
Qed.
End Allocator.

Section Capacity.
Import Database Routes Invariants.
Variable hashSync : string -> string.

(** C2, as the handler has it. A claim on a submission that has three
    or more pending or accepted rows always fails and writes nothing;
    it fails with 400 when the submission exists and the claimant, a
    board member or an admin, has no row for it (the claimant who has
    one is answered 409 by the earlier test). So, requests being served
    one after another from a store within the cap, no submission ever
    has more than three pending or accepted rows. *)
Theorem full_submission_takes_no_claim :
  (forall (db : Db) (sid : Z),
      3 <= active_count db sid ->
      (forall actor now,
          exists code msg, claim db actor sid now = reply (Fail code msg) db [])
      /\ (forall actor now sub,
             Auth.role actor = "board" \/ Auth.role actor = "admin" ->
             submission_by_id db sid = Some sub ->
             partnership_of db sid (Auth.id actor) = None ->
             claim db actor sid now
             = reply (Fail BadRequest
                           "Maximum 3 partners reached for this submission") db []))
  /\ (forall (db : Db) (rs : list Request) (sid : Z),
         consistent db -> active_count (serve_all hashSync db rs) sid <= 3)
  /\ (forall (rs : list Request) (sid : Z),
         active_count
           (serve_all hashSync (Seed.seedDatabase hashSync Seed.empty) rs) sid <= 3).
Proof.
  split; [|split].
  - intros db sid Hfull. split.
    + intros actor now. unfold claim, guarded.
      destruct (Auth.requireRole "board" actor); [eauto|].
      destruct (submission_by_id db sid); [|eauto].
      destruct (partnership_of db sid (Auth.id actor)); [eauto|].
      assert ((active_count db sid >=? 3) = true) as -> by lia. eauto.
    + intros actor now sub Hrole Hsub Hnone. unfold claim, guarded.
      rewrite (requireRole_passes "board" actor Hrole), Hsub, Hnone.
      assert ((active_count db sid >=? 3) = true) as -> by lia. reflexivity.
  - intros db rs sid Hc.
    apply (is_capped _ (consistent_serve_all hashSync rs db Hc)).
  - intros rs sid.
    apply (is_capped _ (consistent_serve_all hashSync rs _
                          (consistent_seeded hashSync))).
Qed.
End Capacity.

(** C2, as the claim has it, fails: submission 1 has three pending rows
    and Sarah, who holds one of them, claims again; the answer is 409,
    not 400. *)
Lemma full_submission_answers_conflict_first :
  Database.active_count Demo.full 1 = 3
  /\ Routes.res (Routes.claim Demo.full Demo.sarah 1 20260306)
     = Fail Conflict "You have already requested to partner"
  /\ Conflict <> BadRequest.
Proof. split; [|split]; [vm_compute; reflexivity | vm_compute; reflexivity | discriminate]. Qed.

Lemma full_submission_takes_no_claim_witness :
  Routes.claim Demo.full Demo.david 1 20260306
  = Routes.reply
      (Fail BadRequest "Maximum 3 partners reached for this submission")
      Demo.full []
  /\ Database.active_count
       (Routes.serve_all Demo.hashSync Demo.full
                         [Routes.Claim Demo.david 1 20260306]) 1 <= 3.
Proof.
  destruct (full_submission_takes_no_claim Demo.hashSync) as (Hfull & Hcap & _).
  split.
  - assert (Hcount : 3 <= Database.active_count Demo.full 1)
      by (vm_compute; discriminate).
    destruct (Hfull Demo.full 1 Hcount) as [_ H].
    destruct (Database.submission_by_id Demo.full 1) as [sub|] eqn:Hsub;
      [|vm_compute in Hsub; discriminate].
    apply (H Demo.david 20260306 sub);
      [left; reflexivity | reflexivity | vm_compute; reflexivity].
  - apply Hcap.
    apply (consistent_serve_all Demo.hashSync Demo.three_claims).
    apply (consistent_serve Demo.hashSync).
    apply consistent_seeded.
Defined.

Section Uniqueness.
Import Database Routes Invariants.
Variable hashSync : string -> string.



(** The withdrawal of one's pending row: the row goes, and the answer
    is the one for [changes] 0. *)
Lemma withdraw_pending (db : Db) (actor : Auth.ReqUser) (sid : Z)
      (p : Partnerships.row) :
  consistent db ->
  Auth.role actor = "board" \/ Auth.role actor = "admin" ->
  partnership_of db sid (Auth.id actor) = Some p ->
  Partnerships.status p = "pending" ->
  withdraw db actor sid
  = reply (Fail BadRequest "No pending partnership to withdraw")
          (fst (delete_pending db sid (Auth.id actor))) []
  /\ ~ In p (partnerships (fst (delete_pending db sid (Auth.id actor))))
  /\ (forall q, In q (partnerships db) -> q <> p ->
                 In q (partnerships (fst (delete_pending db sid (Auth.id actor)))))
  /\ partnership_of (fst (delete_pending db sid (Auth.id actor)))
                    sid (Auth.id actor) = None
  /\ active_count (fst (delete_pending db sid (Auth.id actor))) sid < 3.
Proof.
  intros Hc Hrole Hp Hst.
  apply partnership_of_some in Hp. destruct Hp as (Hin & Hsid & Huid).
  assert (Hw : withdrawable sid (Auth.id actor) p = true).
  { unfold withdrawable. rewrite Hsid, Huid, Hst, !Z.eqb_refl. reflexivity. }
  assert (Honly : forall x, In x (partnerships db) ->
                            (Partnerships.submission_id x =? sid)
                            && (Partnerships.user_id x =? Auth.id actor) = true ->
                            x = p).
  { intros x Hx E. apply andb_true_iff in E. destruct E as [E1 E2].
    apply (NoDup_map_key pair_of (partnerships db)); auto.
    - apply (has_pairs_unique _ Hc).
    - unfold pair_of. f_equal; lia. }
  split; [|split; [|split; [|split]]].
  - unfold withdraw, guarded.
    rewrite (requireRole_passes "board" actor Hrole). reflexivity.
  - simpl. intros Hin'. apply filter_In in Hin'. destruct Hin' as [_ H].
    rewrite Hw in H. discriminate.
  - intros q Hq Hne. simpl. apply filter_In. split; [exact Hq|].
    apply negb_true_iff. unfold withdrawable.
    destruct ((Partnerships.submission_id q =? sid)
              && (Partnerships.user_id q =? Auth.id actor)) eqn:E; [|reflexivity].
    exfalso. apply Hne. exact (Honly q Hq E).
  - apply find_all_false. simpl. intros x Hx.
    apply filter_In in Hx. destruct Hx as [Hx Hnw].
    destruct ((Partnerships.submission_id x =? sid)
              && (Partnerships.user_id x =? Auth.id actor)) eqn:E; [|reflexivity].
    pose proof (Honly x Hx E). subst x. rewrite Hw in Hnw. discriminate.
  - pose proof (is_capped _ Hc sid) as Hcap.
    unfold active_count in Hcap |- *. simpl.
    pose proof (filter_removed_length
                  (fun q => (Partnerships.submission_id q =? sid)
                            && Partnerships.active q)
                  (withdrawable sid (Auth.id actor))
                  (partnerships db)) as Hsum.
    assert (Hpos : (0 < List.length (filter (withdrawable sid (Auth.id actor))
                                            (partnerships db)))%nat).
    { destruct (filter (withdrawable sid (Auth.id actor)) (partnerships db))
        as [|x l] eqn:E; simpl; [|lia].
      assert (Hin' : In p (filter (withdrawable sid (Auth.id actor))
                                  (partnerships db)))
        by (apply filter_In; auto).
      rewrite E in Hin'. contradiction. }
    rewrite <- Hsum in Hcap; [lia|].
    intros x Hx. unfold withdrawable in Hx.
    apply andb_true_iff in Hx. destruct Hx as [Hx Hs].
    apply andb_true_iff in Hx. destruct Hx as [Hx _].
    rewrite Hx. unfold Partnerships.active. rewrite Hs. reflexivity.
Qed.

End Uniqueness.


Section Responding.
Import Database Routes Invariants.

(** C4, as the handler has it. For a founder or an admin and a decision
    of accepted or declined: the response is 404 when no partnership
    has the id, 403 when the partnership's submission is owned by
    someone else, 400 when the partnership is no longer pending; each
    of these leaves the store as it was. Otherwise it is 200, the row
    takes the decision as its status and the time as [responded_at],
    and every later response to that partnership fails and leaves the
    store, so that status and [responded_at], as it was. *)
Theorem respond_checks_in_order :
  forall (db : Db) (actor : Auth.ReqUser) (pid : Z) (decision : string) (now : Z),
    Auth.role actor = "founder" \/ Auth.role actor = "admin" ->
    decision = "accepted" \/ decision = "declined" ->
    (find (fun p => Partnerships.id p =? pid) (partnerships db) = None ->
     respond db actor pid (Some decision) now
     = reply (Fail NotFound "Partnership not found") db [])
    /\ (partnership_with_founder db pid = None ->
        respond db actor pid (Some decision) now
        = reply (Fail NotFound "Partnership not found") db [])
    /\ (forall p owner,
           partnership_with_founder db pid = Some (p, owner) ->
           owner <> Auth.id actor ->
           respond db actor pid (Some decision) now
           = reply (Fail Forbidden "Access denied") db [])
    /\ (forall p owner,
           partnership_with_founder db pid = Some (p, owner) ->
           owner = Auth.id actor ->
           Partnerships.status p <> "pending" ->
           respond db actor pid (Some decision) now
           = reply (Fail BadRequest "Partnership already responded to") db [])
    /\ (forall p owner,
           partnership_with_founder db pid = Some (p, owner) ->
           owner = Auth.id actor ->
           Partnerships.status p = "pending" ->
           res (respond db actor pid (Some decision) now) = Json OK decision
           /\ store (respond db actor pid (Some decision) now)
              = update_partnership db decision now pid
           /\ partnership_with_founder
                (store (respond db actor pid (Some decision) now)) pid
              = Some (Partnerships.respond decision now p, owner)
           /\ forall actor' decision' now',
               exists code msg,
                 respond (store (respond db actor pid (Some decision) now))
                         actor' pid decision' now'
                 = reply (Fail code msg)
                         (store (respond db actor pid (Some decision) now)) []).
Proof.
  intros db actor pid decision now Hrole Hdec.
  assert (Hinc : Js.includes ["accepted"; "declined"] (Some decision) = true)
    by (destruct Hdec; subst; reflexivity).
  assert (Hstart :
             respond db actor pid (Some decision) now
             = match partnership_with_founder db pid with
               | None => reply (Fail NotFound "Partnership not found") db []
               | Some (partnership, founder_id) =>
                   if negb (founder_id =? Auth.id actor)
                   then reply (Fail Forbidden "Access denied") db []
                   else if negb (Partnerships.status partnership =? "pending")%string
                   then reply (Fail BadRequest "Partnership already responded to") db []
                   else respond db actor pid (Some decision) now
               end).
  { unfold respond at 1, guarded.
    rewrite (requireRole_passes "founder" actor Hrole), Hinc. cbn [negb].
    destruct (partnership_with_founder db pid) as [[p f]|] eqn:Hp; [|reflexivity].
    destruct (negb (f =? Auth.id actor)) eqn:Hf; [reflexivity|].
    destruct (negb (Partnerships.status p =? "pending")%string) eqn:Hs;
      [reflexivity|].
    unfold respond, guarded.
    rewrite (requireRole_passes "founder" actor Hrole), Hinc, Hp. cbn [negb].
    rewrite Hf, Hs. reflexivity. }
  split; [|split; [|split; [|split]]].
  - intros Hnone. rewrite Hstart.
    rewrite (partnership_with_founder_absent db pid Hnone). reflexivity.
  - intros Hnone. rewrite Hstart, Hnone. reflexivity.
  - intros p owner Hp Hne. rewrite Hstart, Hp.
    apply Z.eqb_neq in Hne. rewrite Hne. reflexivity.
  - intros p owner Hp Hown Hst. rewrite Hstart, Hp.
    subst owner. rewrite Z.eqb_refl.
    apply String.eqb_neq in Hst. rewrite Hst. reflexivity.
  - intros p owner Hp Hown Hst.
    assert (Hres : exists mails,
               respond db actor pid (Some decision) now
               = reply (Json OK decision)
                       (update_partnership db decision now pid) mails).
    { unfold respond, guarded.
      rewrite (requireRole_passes "founder" actor Hrole), Hinc, Hp. cbn [negb].
      subst owner. rewrite Z.eqb_refl, Hst. simpl. eexists. reflexivity. }
    destruct Hres as [mails Hres]. rewrite Hres. cbn [res store reply].
    assert (Hrow : partnership_with_founder
                     (update_partnership db decision now pid) pid
                   = Some (Partnerships.respond decision now p, owner)).
    { rewrite partnership_with_founder_updated, Hp. simpl.
      apply partnership_with_founder_some in Hp. destruct Hp as (_ & Hid & _).
      rewrite Hid, Z.eqb_refl. reflexivity. }
    split; [reflexivity|]. split; [reflexivity|]. split; [exact Hrow|].
    intros actor' decision' now'. unfold respond, guarded.
    destruct (Auth.requireRole "founder" actor'); [eauto|].
    destruct decision' as [d'|]; [|eauto].
    destruct (negb (Js.includes ["accepted"; "declined"] (Some d'))); [eauto|].
    rewrite Hrow.
    destruct (negb (owner =? Auth.id actor')); [eauto|].
    assert (Hanswered : (Partnerships.status (Partnerships.respond decision now p)
                         =? "pending")%string = false)
      by (destruct Hdec; subst; reflexivity).
    rewrite Hanswered. simpl. eauto.
Qed.
End Responding.

(** C4, as the claim has it, fails: Alex answers Sarah's claim, which he
    has declined, a second time; the answer is 400, not 409. *)
Lemma second_response_is_a_bad_request :
  Routes.res (Routes.respond Demo.answered Demo.alex 1 (Some "accepted") 20260310)
  = Fail BadRequest "Partnership already responded to"
  /\ BadRequest <> Conflict.
Proof. split; [vm_compute; reflexivity | discriminate]. Qed.

Lemma respond_checks_in_order_witness :
  Routes.res (Routes.respond Demo.full Demo.alex 3 (Some "accepted") 20260310)
  = Json OK "accepted"
  /\ Routes.respond Demo.full Demo.casey 3 (Some "accepted") 20260310
     = Routes.reply (Fail Forbidden "Access denied") Demo.full []
  /\ Routes.respond Demo.full Demo.alex 9 (Some "accepted") 20260310
     = Routes.reply (Fail NotFound "Partnership not found") Demo.full []
  /\ Routes.respond Demo.answered Demo.alex 1 (Some "accepted") 20260310
     = Routes.reply (Fail BadRequest "Partnership already responded to")
                    Demo.answered [].
Proof.
  destruct (respond_checks_in_order Demo.full Demo.alex 3 "accepted" 20260310
              (or_introl eq_refl) (or_introl eq_refl))
    as (_ & _ & _ & _ & Hok).
  destruct (respond_checks_in_order Demo.full Demo.casey 3 "accepted" 20260310
              (or_introl eq_refl) (or_introl eq_refl))
    as (_ & _ & Hforbidden & _).
  destruct (respond_checks_in_order Demo.full Demo.alex 9 "accepted" 20260310
              (or_introl eq_refl) (or_introl eq_refl))
    as (Habsent & _).
  destruct (respond_checks_in_order Demo.answered Demo.alex 1 "accepted" 20260310
              (or_introl eq_refl) (or_introl eq_refl))
    as (_ & _ & _ & Hanswered & _).
  assert (Hthird : Routes.partnership_with_founder Demo.full 3
                   = Some ({| Partnerships.id := 3; Partnerships.submission_id := 1;
                              Partnerships.user_id := 4;
                              Partnerships.status := "pending";
                              Partnerships.created_at := 20260303;
                              Partnerships.responded_at := None |}, 1))
    by (vm_compute; reflexivity).
  assert (Hfirst : Routes.partnership_with_founder Demo.answered 1
                   = Some ({| Partnerships.id := 1; Partnerships.submission_id := 1;
                              Partnerships.user_id := 2;
                              Partnerships.status := "declined";
                              Partnerships.created_at := 20260301;
                              Partnerships.responded_at := Some 20260304 |}, 1))
    by (vm_compute; reflexivity).
  split; [|split; [|split]].
  - apply (Hok _ _ Hthird); reflexivity.
  - apply (Hforbidden _ _ Hthird). discriminate.
  - apply Habsent. vm_compute. reflexivity.
  - apply (Hanswered _ _ Hfirst); [reflexivity|discriminate].
Defined.

(** ** Accounts and roles *)

Section Registration.
Import Database Routes Invariants.
Variable hashSync : string -> string.

Lemma user_by_id_new (db : Db) (u : Users.row) :
  user_keys_fresh db ->
  Users.id u = users_seq db + 1 ->
  user_by_id (with_users db (users db ++ [u]) (users_seq db + 1))
             (users_seq db + 1)
  = Some u.
Proof.
  intros Hk Hid. unfold user_by_id. simpl.
  rewrite find_app_none.
  - simpl. rewrite Hid, Z.eqb_refl. reflexivity.
  - apply find_all_false. intros x Hx. specialize (Hk x Hx). lia.
Qed.

Lemma user_by_email_change (db db' : Db) (e : string) :
  change db db' -> user_by_email db e <> None -> user_by_email db' e <> None.
Proof.
  intros Hch.
  destruct Hch as [ | u _ _ _ | st sid | r sid | sid uid now _ _ _
                   | sid uid | d now pid p _ _ _ _ ];
    try (intros H; exact H).
  apply user_by_email_grows.
Qed.

Lemma user_by_email_serve_all (rs : list Request) (db : Db) (e : string) :
  user_by_email db e <> None ->
  user_by_email (serve_all hashSync db rs) e <> None.
Proof.
  unfold serve_all. revert db.
  induction rs as [|r rs IH]; simpl; intros db H; [exact H|].
  apply IH. eapply user_by_email_change; [apply serve_change | exact H].
Qed.

(** No user is read back under [lastInsertRowid]: every key is above
    it. *)
Lemma user_by_id_lost (db : Db) :
  (forall u, In u (users db) -> 0 < Users.id u) ->
  user_by_id db lastInsertRowid = None.
Proof.
  intros Hpos. unfold user_by_id. apply find_all_false.
  intros x Hx. specialize (Hpos x Hx). unfold lastInsertRowid. lia.
Qed.

Lemma user_by_id_lost_after (db : Db) (u : Users.row) (k : Z) :
  user_keys_fresh db -> 0 < Users.id u ->
  user_by_id (with_users db (users db ++ [u]) k) lastInsertRowid = None.
Proof.
  intros Hk Hu. apply user_by_id_lost. simpl. intros x Hx.
  apply in_app_iff in Hx. destruct Hx as [Hx|[<-|[]]]; [|exact Hu].
  specialize (Hk x Hx). lia.
Qed.

(** A registration that is answered 201. *)
Lemma register_created (db : Db) (name email password : option string)
      (acct : Account) :
  user_keys_fresh db -> sequences_started db ->
  res (register hashSync db name email password) = Json Created acct ->
  exists n e pw,
    name = Some n /\ email = Some e /\ password = Some pw
    /\ acct = {| user := founder_row hashSync db n e pw;
                 token := Auth.createToken (founder_row hashSync db n e pw) |}
    /\ store (register hashSync db name email password)
       = with_users db (users db ++ [founder_row hashSync db n e pw]) (users_seq db + 1).
Proof.
  intros Hk Hseq. unfold register.
  destruct name as [n|], email as [e|], password as [pw|];
    try (simpl; discriminate).
  destruct (Js.falsy (Some n) || Js.falsy (Some e) || Js.falsy (Some pw));
    [simpl; discriminate|].
  destruct (Z.of_nat (Js.length pw) <? 8); [simpl; discriminate|].
  destruct (user_by_email db (Js.toLowerCase e)); [simpl; discriminate|].
  destruct (insert_user db (Js.toLowerCase e) (hashSync pw) n "founder" None)
    as [[db' rowid]|] eqn:Hins; [|simpl; discriminate].
  apply insert_user_some in Hins. destruct Hins as (-> & -> & _ & _).
  rewrite (user_by_id_lost_after db _ _ Hk);
    [simpl; discriminate | destruct Hseq; simpl; lia].
Qed.

(** A registration whose fields pass, under an email not on record:
    the row is inserted, and the reading back of it under
    [lastInsertRowid] finds no user to make a token for. *)
Lemma register_inserts (db : Db) (n e pw : string) :
  user_keys_fresh db -> sequences_started db ->
  n <> "" -> e <> "" -> (8 <= Js.length pw)%nat ->
  user_by_email db (Js.toLowerCase e) = None ->
  register hashSync db (Some n) (Some e) (Some pw)
  = reply (Fail InternalError "Internal server error")
          (with_users db (users db ++ [founder_row hashSync db n e pw])
                      (users_seq db + 1))
          [].
Proof.
  intros Hk Hseq Hn He Hlen Hfree. unfold register.
  assert (Hpw : pw <> "") by (intros ->; simpl in Hlen; lia).
  apply String.eqb_neq in Hn, He, Hpw. simpl Js.falsy.
  rewrite Hn, He, Hpw. simpl orb. cbv iota.
  assert ((Z.of_nat (Js.length pw) <? 8) = false) as -> by lia.
  rewrite Hfree. unfold insert_user. rewrite Hfree. cbn [Users.check_role negb].
  change (negb (Users.check_role "founder")) with false. cbv iota.
  fold (founder_row hashSync db n e pw).
  rewrite (user_by_id_lost_after db _ _ Hk);
    [reflexivity | destruct Hseq; simpl; lia].
Qed.

(** A registration under an email on record in any letter case. *)
Lemma register_taken (db : Db) (name password : option string) (e : string) :
  user_by_email db (Js.toLowerCase e) <> None ->
  (exists code msg,
      register hashSync db name (Some e) password = reply (Fail code msg) db [])
  /\ (forall n pw,
         name = Some n -> password = Some pw ->
         n <> "" -> e <> "" -> pw <> "" -> (8 <= Js.length pw)%nat ->
         register hashSync db name (Some e) password
         = reply (Fail Conflict "An account with this email already exists") db []).
Proof.
  intros Htaken. split.
  - unfold register.
    destruct name as [n|], password as [pw|]; eauto.
    destruct (Js.falsy (Some n) || Js.falsy (Some e) || Js.falsy (Some pw)); eauto.
    destruct (Z.of_nat (Js.length pw) <? 8); eauto.
    destruct (user_by_email db (Js.toLowerCase e)); [eauto|congruence].
  - intros n pw -> -> Hn He Hpw Hlen. unfold register.
    apply String.eqb_neq in Hn, He, Hpw. simpl Js.falsy.
    rewrite Hn, He, Hpw. simpl.
    assert ((Z.of_nat (Js.length pw) <? 8) = false) as -> by lia.
    destruct (user_by_email db (Js.toLowerCase e)); [reflexivity|congruence].
Qed.

(** Whatever a registration is given, a row it leaves in the users
    table was there before or is a founder's. *)
Lemma register_adds_founders (db : Db) (name email password : option string)
      (u : Users.row) :
  In u (users (store (register hashSync db name email password))) ->
  In u (users db) \/ Users.role u = "founder".
Proof.
  unfold register.
  destruct name as [n|], email as [e|], password as [pw|]; auto.
  destruct (Js.falsy (Some n) || Js.falsy (Some e) || Js.falsy (Some pw)); auto.
  destruct (Z.of_nat (Js.length pw) <? 8); auto.
  destruct (user_by_email db (Js.toLowerCase e)); auto.
  destruct (insert_user db (Js.toLowerCase e) (hashSync pw) n "founder" None)
    as [[db' rowid]|] eqn:Hins; auto.
  apply insert_user_some in Hins. destruct Hins as (_ & -> & _ & _).
  assert (Hin : In u (users db ++
                        [{| Users.id := users_seq db + 1;
                            Users.email := Js.toLowerCase e;
                            Users.password := hashSync pw; Users.name := n;
                            Users.role := "founder"; Users.specialty := None |}]) ->
                In u (users db) \/ Users.role u = "founder").
  { intros H. apply in_app_iff in H. destruct H as [H|[<-|[]]]; auto. }
  match goal with |- context [match ?x with _ => _ end] => destruct x end;
    exact Hin.
Qed.

(** C7, with the length of a password counted as the program counts it,
    in UTF-16 units, and letter case taken on ASCII emails. A
    registration with the name, the email or the password missing or
    empty, or with a password shorter than 8, is answered 400 and
    writes nothing. One under an email that differs only in letter case
    from an email on record is rejected, with 409 when the other fields
    are valid. A registration whose fields are valid, under an email
    not on record, inserts one row: a user of role founder with the
    email in lower case, after which every registration under that
    email in any letter case is rejected, whatever requests were served
    since. Whatever it is given, a row a registration leaves in the
    table that was not there before has role founder. *)
Theorem register_validates :
  forall (db : Db),
    consistent db ->
    (forall name email password,
        Js.falsy name = true \/ Js.falsy email = true \/ Js.falsy password = true ->
        register hashSync db name email password
        = reply (Fail BadRequest "Name, email, and password are required") db [])
    /\ (forall n e pw,
           n <> "" -> e <> "" -> pw <> "" -> (Js.length pw < 8)%nat ->
           register hashSync db (Some n) (Some e) (Some pw)
           = reply (Fail BadRequest "Password must be at least 8 characters") db [])
    /\ (forall name email pw,
           (Js.length pw < 8)%nat ->
           exists msg,
             register hashSync db name email (Some pw)
             = reply (Fail BadRequest msg) db [])
    /\ (forall u e,
           In u (users db) ->
           Js.ascii_only e = true ->
           Js.toLowerCase e = Js.toLowerCase (Users.email u) ->
           (forall name password,
               exists code msg,
                 register hashSync db name (Some e) password
                 = reply (Fail code msg) db [])
           /\ (forall n pw,
                  n <> "" -> e <> "" -> pw <> "" -> (8 <= Js.length pw)%nat ->
                  register hashSync db (Some n) (Some e) (Some pw)
                  = reply (Fail Conflict "An account with this email already exists")
                          db []))
    /\ (forall n e pw,
           n <> "" -> e <> "" -> (8 <= Js.length pw)%nat ->
           Js.ascii_only e = true ->
           user_by_email db (Js.toLowerCase e) = None ->
           users (store (register hashSync db (Some n) (Some e) (Some pw)))
           = users db ++ [founder_row hashSync db n e pw]
           /\ Users.role (founder_row hashSync db n e pw) = "founder"
           /\ user_by_email (store (register hashSync db (Some n) (Some e) (Some pw)))
                            (Js.toLowerCase e)
              = Some (founder_row hashSync db n e pw)
           /\ forall rs e',
               Js.ascii_only e' = true ->
               Js.toLowerCase e' = Js.toLowerCase e ->
               forall name' password',
               exists code msg,
                 register hashSync
                          (serve_all hashSync
                             (store (register hashSync db (Some n) (Some e) (Some pw)))
                             rs)
                          name' (Some e') password'
                 = reply (Fail code msg)
                         (serve_all hashSync
                            (store (register hashSync db (Some n) (Some e) (Some pw)))
                            rs)
                         [])
    /\ (forall name email password u,
           In u (users (store (register hashSync db name email password))) ->
           In u (users db) \/ Users.role u = "founder").
Proof.
  intros db Hc. split; [|split; [|split; [|split; [|split]]]].
  - intros name email password Hmissing. unfold register.
    destruct name as [n|], email as [e|], password as [pw|]; try reflexivity.
    assert (Js.falsy (Some n) || Js.falsy (Some e) || Js.falsy (Some pw) = true)
      as ->; [|reflexivity].
    destruct Hmissing as [H|[H|H]]; rewrite H;
      rewrite ?orb_true_r, ?orb_true_l; reflexivity.
  - intros n e pw Hn He Hpw Hlen. unfold register.
    apply String.eqb_neq in Hn, He, Hpw. simpl Js.falsy.
    rewrite Hn, He, Hpw. simpl.
    assert ((Z.of_nat (Js.length pw) <? 8) = true) as -> by lia.
    reflexivity.
  - intros name email pw Hlen. unfold register.
    destruct name as [n|], email as [e|]; eauto.
    destruct (Js.falsy (Some n) || Js.falsy (Some e) || Js.falsy (Some pw)); eauto.
    assert ((Z.of_nat (Js.length pw) <? 8) = true) as -> by lia.
    eauto.
  - intros u e Hu _ Hcase.
    assert (Htaken : user_by_email db (Js.toLowerCase e) <> None).
    { rewrite Hcase, (has_lowercase _ Hc u Hu).
      apply (find_not_none _ _ u Hu). apply String.eqb_refl. }
    split.
    + intros name password.
      apply (proj1 (register_taken db name password e Htaken)).
    + intros n pw Hn He Hpw Hlen.
      apply (proj2 (register_taken db (Some n) (Some pw) e Htaken) n pw); auto.
  - intros n e pw Hn He Hlen _ Hfree.
    rewrite (register_inserts db n e pw (has_user_keys _ Hc) (has_sequences _ Hc)
               Hn He Hlen Hfree).
    cbn [store reply]. 
    assert (Hrow : user_by_email
                     (with_users db (users db ++ [founder_row hashSync db n e pw])
                                 (users_seq db + 1))
                     (Js.toLowerCase e)
                   = Some (founder_row hashSync db n e pw)).
    { unfold user_by_email in *. simpl.
      rewrite (find_app_none _ _ _ Hfree). simpl.
      rewrite String.eqb_refl. reflexivity. }
    split; [reflexivity|]. split; [reflexivity|]. split; [exact Hrow|].
    intros rs e' _ Hcase name' password'.
    apply (fun H => proj1 (register_taken _ name' password' e' H)).
    rewrite Hcase.
    apply user_by_email_serve_all. rewrite Hrow. discriminate.
  - intros name email password u. apply register_adds_founders.
Qed.
End Registration.

Lemma register_validates_witness :
  Routes.register Demo.hashSync Demo.db (Some "Zed") None (Some "longpassword")
  = Routes.reply (Fail BadRequest "Name, email, and password are required") Demo.db []
  /\ Routes.register Demo.hashSync Demo.db (Some "Zed") (Some "z@demo.com") (Some "short")
     = Routes.reply (Fail BadRequest "Password must be at least 8 characters") Demo.db []
  /\ Routes.register Demo.hashSync Demo.db
                     (Some "Zed") (Some "FOUNDER@Demo.Com") (Some "longpassword")
     = Routes.reply (Fail Conflict "An account with this email already exists")
                    Demo.db []
  /\ Database.users
       (Routes.store (Routes.register Demo.hashSync Demo.db
                                      (Some "Zed") (Some "Zed@Demo.com")
                                      (Some "longpassword")))
     = Database.users Demo.db
       ++ [{| Users.id := 8; Users.email := "zed@demo.com";
              Users.password := Demo.hashSync "longpassword";
              Users.name := "Zed"; Users.role := "founder";
              Users.specialty := None |}].
Proof.
  assert (Hdb : Invariants.consistent Demo.db).
  { apply (consistent_serve Demo.hashSync). apply consistent_seeded. }
  destruct (register_validates Demo.hashSync Demo.db Hdb)
    as (Hmissing & Hshort & _ & Htaken & Hnew & _).
  split; [|split; [|split]].
  - apply Hmissing. right. left. reflexivity.
  - apply Hshort; [discriminate | discriminate | discriminate | simpl; lia].
  - destruct (Htaken (Seed.seed_user Demo.hashSync 1 "founder@demo.com" "Alex Chen"
                                     "founder" None)
                     "FOUNDER@Demo.Com") as [_ H].
    + simpl. left. reflexivity.
    + reflexivity.
    + reflexivity.
    + apply H; [discriminate | discriminate | discriminate | simpl; lia].
  - destruct (Hnew "Zed" "Zed@Demo.com" "longpassword") as (Hrows & _).
    + discriminate.
    + discriminate.
    + vm_compute. lia.
    + reflexivity.
    + vm_compute. reflexivity.
    + rewrite Hrows. vm_compute. reflexivity.
Defined.

Section Roles.
Import Database Routes Invariants.
Variable hashSync : string -> string.

(** A board member creation that is answered 201. *)
Lemma board_member_created (db : Db) (actor : Auth.ReqUser)
      (name email password specialty : option string) (u : Users.row) :
  user_keys_fresh db -> sequences_started db ->
  res (create_board_member hashSync db actor name email password specialty)
  = Json Created (Some u) ->
  Users.role u = "board".
Proof.
  intros Hk Hseq. unfold create_board_member, guarded.
  destruct (Auth.requireRole "admin" actor); [simpl; discriminate|].
  destruct name as [n|], email as [e|], password as [pw|];
    try (simpl; discriminate).
  destruct (Js.falsy (Some n) || Js.falsy (Some e) || Js.falsy (Some pw));
    [simpl; discriminate|].
  destruct (user_by_email db (Js.toLowerCase e)); [simpl; discriminate|].
  match goal with
  | |- context [insert_user ?d ?em ?p ?nm ?r ?s] =>
      destruct (insert_user d em p nm r s) as [[db' rowid]|] eqn:Hins
  end; [|simpl; discriminate].
  apply insert_user_some in Hins. destruct Hins as (-> & -> & _ & _).
  rewrite (user_by_id_lost_after db _ _ Hk);
    [simpl; discriminate | destruct Hseq; simpl; lia].
Qed.

Lemma stored_role_is_not_admin (u : Users.row) :
  Users.role u = "founder" \/ Users.role u = "board" ->
  Auth.requireRole "admin" (Auth.createToken u)
  = Some "Access restricted to admin members".
Proof.
  intros H.
  apply (requireRole_blocks "admin" (Auth.createToken u));
    simpl; destruct H as [-> | ->]; discriminate.
Qed.

(** C9. The insert the users table accepts never has role admin, and
    the two handlers that create accounts insert founder and board. So,
    from a store whose users are founders and board members, and from
    the seeded one, every user on record after any requests is a founder
    or a board member; the token made for such a user fails
    [requireRole("admin")], and the board-member creation it guards
    answers 403 to it. *)
Theorem no_stored_user_is_admin :
  (forall db e pw n sp, insert_user db e pw n "admin" sp = None)
  /\ (forall db name email password acct,
         consistent db ->
         res (register hashSync db name email password) = Json Created acct ->
         Users.role (user acct) = "founder")
  /\ (forall db actor name email password specialty u,
         consistent db ->
         res (create_board_member hashSync db actor name email password specialty)
         = Json Created (Some u) ->
         Users.role u = "board")
  /\ (forall db rs u,
         consistent db ->
         In u (users (serve_all hashSync db rs)) ->
         (Users.role u = "founder" \/ Users.role u = "board")
         /\ Auth.requireRole "admin" (Auth.createToken u)
            = Some "Access restricted to admin members"
         /\ forall db' name email password specialty,
             create_board_member hashSync db' (Auth.createToken u)
                                 name email password specialty
             = reply (Fail Forbidden "Access restricted to admin members") db' [])
  /\ (forall rs u,
         In u (users (serve_all hashSync (Seed.seedDatabase hashSync Seed.empty) rs)) ->
         (Users.role u = "founder" \/ Users.role u = "board")
         /\ Auth.requireRole "admin" (Auth.createToken u)
            = Some "Access restricted to admin members").
Proof.
  assert (Hroles : forall db rs u,
             consistent db -> In u (users (serve_all hashSync db rs)) ->
             Users.role u = "founder" \/ Users.role u = "board").
  { intros db rs u Hc Hu.
    exact (has_roles _ (consistent_serve_all hashSync rs db Hc) u Hu). }
  split; [|split; [|split; [|split]]].
  - intros db e pw n sp. reflexivity.
  - intros db name email password acct Hc Hres.
    destruct (register_created hashSync db name email password acct
                               (has_user_keys _ Hc) (has_sequences _ Hc) Hres)
      as (n & e & pw & _ & _ & _ & -> & _).
    reflexivity.
  - intros db actor name email password specialty u Hc Hres.
    exact (board_member_created db actor name email password specialty u
                                (has_user_keys _ Hc) (has_sequences _ Hc) Hres).
  - intros db rs u Hc Hu.
    pose proof (Hroles db rs u Hc Hu) as Hrole.
    split; [exact Hrole|]. split; [apply stored_role_is_not_admin; exact Hrole|].
    intros db' name email password specialty.
    unfold create_board_member, guarded.
    rewrite (stored_role_is_not_admin u Hrole). reflexivity.
  - intros rs u Hu.
    pose proof (Hroles _ rs u (consistent_seeded hashSync) Hu) as Hrole.
    split; [exact Hrole | apply stored_role_is_not_admin; exact Hrole].
Qed.
End Roles.

Lemma no_stored_user_is_admin_witness :
  Auth.requireRole "admin" (Auth.createToken
                              (Seed.seed_user Demo.hashSync 2 "sarah@partner.io"
                                              "Sarah Kingston" "board"
                                              (Some "Healthcare & BioTech")))
  = Some "Access restricted to admin members".
Proof.
  destruct (no_stored_user_is_admin Demo.hashSync) as (_ & _ & _ & _ & Hseed).
  apply (Hseed []). simpl. right. left. reflexivity.
Defined.

(** ** Binary64 arithmetic

    What the division, the multiplication by 100 and [Math.round] of
    the approval rate compute, from the definitions of the IEEE 754
    specification: each operation rounds to a 53-digit mantissa that is
    the exact one cut off, or the next. *)

Section Binary64.

Lemma digits2_pos_size (p : positive) : digits2_pos p = Pos.size p.
Proof. induction p; simpl; congruence. Qed.

(** A number of [d] binary digits lies from 2^(d-1) up to 2^d. *)
Lemma digits2_bounds (p : positive) :
  2 ^ (Z.pos (digits2_pos p) - 1) <= Z.pos p < 2 ^ Z.pos (digits2_pos p).
Proof.
  rewrite digits2_pos_size. split.
  - pose proof (Pos.size_le p) as H.
    apply Pos2Z.pos_le_pos in H. rewrite Pos2Z.inj_pow in H.
    replace (Z.pos (Pos.size p)) with (Z.pos (Pos.size p) - 1 + 1) in H by lia.
    rewrite Z.pow_add_r in H by lia. change (2 ^ 1) with 2 in H. lia.
  - pose proof (Pos.size_gt p) as H.
    apply Pos2Z.pos_lt_pos in H. rewrite Pos2Z.inj_pow in H. exact H.
Qed.

Lemma Zdigits2_unique (m d : Z) :
  2 ^ (d - 1) <= m < 2 ^ d -> 0 < d -> Zdigits2 m = d.
Proof.
  intros [Hlo Hhi] Hd.
  assert (0 < m) by (pose proof (Z.pow_pos_nonneg 2 (d - 1)); lia).
  destruct m as [|p|p]; try lia. simpl.
  pose proof (digits2_bounds p) as [Hlo' Hhi'].
  destruct (Z.lt_trichotomy (Z.pos (digits2_pos p)) d) as [Hlt|[Heq|Hgt]];
    [|exact Heq|].
  - assert (2 ^ Z.pos (digits2_pos p) <= 2 ^ (d - 1))
      by (apply Z.pow_le_mono_r; lia). lia.
  - assert (2 ^ d <= 2 ^ (Z.pos (digits2_pos p) - 1))
      by (apply Z.pow_le_mono_r; lia). lia.
Qed.

Lemma shr_m_of_loc (m : Z) (l : location) : shr_m (shr_record_of_loc m l) = m.
Proof. destruct l as [|[]]; reflexivity. Qed.

Lemma loc_of_loc (m : Z) (l : location) :
  loc_of_shr_record (shr_record_of_loc m l) = l.
Proof. destruct l as [|[]]; reflexivity. Qed.

Lemma shr_1_m (mrs : shr_record) :
  0 <= shr_m mrs -> shr_m (shr_1 mrs) = shr_m mrs / 2.
Proof.
  destruct mrs as [m r s]. simpl. intros Hm.
  rewrite <- Z.div2_div.
  destruct m as [|[p|p|]|p]; try reflexivity; lia.
Qed.

Lemma pow2_xI (p : positive) : 2 ^ Z.pos p~1 = 2 * 2 ^ Z.pos p * 2 ^ Z.pos p.
Proof.
  replace (Z.pos p~1) with (1 + Z.pos p + Z.pos p) by lia.
  rewrite Z.pow_add_r by lia. rewrite Z.pow_add_r by lia. reflexivity.
Qed.

Lemma pow2_xO (p : positive) : 2 ^ Z.pos p~0 = 2 ^ Z.pos p * 2 ^ Z.pos p.
Proof.
  replace (Z.pos p~0) with (Z.pos p + Z.pos p) by lia.
  rewrite Z.pow_add_r by lia. reflexivity.
Qed.

Lemma pow2_pos (k : Z) : 0 <= k -> 0 < 2 ^ k.
Proof. intros. apply Z.pow_pos_nonneg; lia. Qed.

(** Shifting right [p] times divides the mantissa by 2^p. *)
Lemma iter_shr_m (p : positive) (mrs : shr_record) :
  0 <= shr_m mrs ->
  shr_m (iter_pos shr_1 p mrs) = shr_m mrs / 2 ^ Z.pos p.
Proof.
  revert mrs. induction p as [p IH|p IH|]; intros mrs Hm; simpl iter_pos.
  - assert (H1 : 0 <= shr_m (shr_1 mrs))
      by (rewrite shr_1_m by lia; apply Z.div_pos; lia).
    assert (H2 : 0 <= shr_m (iter_pos shr_1 p (shr_1 mrs)))
      by (rewrite IH by lia; apply Z.div_pos; [lia|apply pow2_pos; lia]).
    rewrite IH, IH, shr_1_m by lia.
    assert (0 < 2 ^ Z.pos p) by (apply pow2_pos; lia).
    repeat (rewrite Z.div_div by lia).
    rewrite pow2_xI. f_equal. ring.
  - assert (H2 : 0 <= shr_m (iter_pos shr_1 p mrs))
      by (rewrite IH by lia; apply Z.div_pos; [lia|apply pow2_pos; lia]).
    rewrite IH, IH by lia.
    assert (0 < 2 ^ Z.pos p) by (apply pow2_pos; lia).
    repeat (rewrite Z.div_div by lia).
    rewrite pow2_xO. f_equal.
  - rewrite shr_1_m by lia. reflexivity.
Qed.

Lemma Zdigits2_bounds (m : Z) :
  0 < m -> 0 < Zdigits2 m /\ 2 ^ (Zdigits2 m - 1) <= m < 2 ^ Zdigits2 m.
Proof.
  destruct m as [|p|p]; try lia. intros _. simpl.
  split; [lia | apply digits2_bounds].
Qed.

(** Away from the subnormal range, [shr_fexp] cuts a mantissa of 53
    digits or more down to 53. *)
Lemma shr_fexp_spec (m e : Z) (l : location) :
  0 < m -> 53 <= Zdigits2 m -> -1074 <= Zdigits2 m + e - 53 ->
  exists mrs,
    shr_fexp 53 1024 m e l = (mrs, e + (Zdigits2 m - 53))
    /\ shr_m mrs = m / 2 ^ (Zdigits2 m - 53)
    /\ (Zdigits2 m = 53 -> mrs = shr_record_of_loc m l).
Proof.
  intros Hm Hd He. unfold shr_fexp, fexp, emin.
  rewrite Z.max_l by lia.
  replace (Zdigits2 m + e - 53 - e) with (Zdigits2 m - 53) by lia.
  destruct (Zdigits2 m - 53) as [|k|k] eqn:Hk; try lia.
  - exists (shr_record_of_loc m l). simpl.
    rewrite Z.add_0_r, shr_m_of_loc, Z.div_1_r. auto.
  - eexists. simpl shr. split; [reflexivity|]. split; [|lia].
    rewrite iter_shr_m; rewrite shr_m_of_loc; [reflexivity|lia].
Qed.

Lemma round_nearest_even_cases (m : Z) (l : location) :
  round_nearest_even m l = m \/ round_nearest_even m l = m + 1.
Proof.
  destruct l as [|[]]; simpl; auto. destruct (Z.even m); auto.
Qed.

(** The mantissa a shift by the excess digits leaves has 53 digits. *)
Lemma shifted_mantissa (m : Z) :
  0 < m -> 53 <= Zdigits2 m ->
  2 ^ 52 <= m / 2 ^ (Zdigits2 m - 53) < 2 ^ 53.
Proof.
  intros Hm Hd. destruct (Zdigits2_bounds m Hm) as [_ [Hlo Hhi]].
  set (k := Zdigits2 m - 53) in *.
  assert (Hk : 0 < 2 ^ k) by (apply pow2_pos; lia).
  replace (Zdigits2 m - 1) with (52 + k) in Hlo by lia.
  replace (Zdigits2 m) with (53 + k) in Hhi by lia.
  rewrite Z.pow_add_r in Hlo, Hhi by lia.
  split.
  - apply Z.div_le_lower_bound; lia.
  - apply Z.div_lt_upper_bound; lia.
Qed.

(** Rounding: the result is finite, its mantissa has 53 digits, and it
    is worth the mantissa cut to 53 digits, or that plus one, at the
    exponent raised by the digits cut; a carry to 2^53 is renormalised. *)
Lemma binary_round_aux_spec (m e : Z) (l : location) :
  0 < m -> 53 <= Zdigits2 m ->
  -1074 <= Zdigits2 m + e - 53 -> Zdigits2 m + e - 53 + 1 <= 971 ->
  exists (pm : positive) (pe m2 : Z),
    binary_round_aux 53 1024 false m e l = S754_finite false pm pe
    /\ 2 ^ 52 <= Z.pos pm < 2 ^ 53
    /\ (m2 = m / 2 ^ (Zdigits2 m - 53) \/ m2 = m / 2 ^ (Zdigits2 m - 53) + 1)
    /\ ((pe = e + (Zdigits2 m - 53) /\ Z.pos pm = m2)
        \/ (pe = e + (Zdigits2 m - 53) + 1 /\ Z.pos pm = 2 ^ 52 /\ m2 = 2 ^ 53))
    /\ (l = loc_Exact -> Zdigits2 m = 53 -> m2 = m).
Proof.
  intros Hm Hd Hlo Hhi.
  destruct (shr_fexp_spec m e l Hm Hd Hlo) as (mrs & Hs & Hm1 & Hloc).
  pose proof (shifted_mantissa m Hm Hd) as Hb.
  unfold binary_round_aux. rewrite Hs.
  set (k := Zdigits2 m - 53) in *.
  set (m2 := round_nearest_even (shr_m mrs) (loc_of_shr_record mrs)).
  assert (Hm2 : m2 = m / 2 ^ k \/ m2 = m / 2 ^ k + 1).
  { unfold m2. rewrite <- Hm1. apply round_nearest_even_cases. }
  assert (Hexact : l = loc_Exact -> Zdigits2 m = 53 -> m2 = m).
  { intros -> H53. unfold m2. rewrite (Hloc H53). reflexivity. }
  destruct (Z.lt_ge_cases m2 (2 ^ 53)) as [Hsmall|Hbig].
  - assert (Hd2 : Zdigits2 m2 = 53) by (apply Zdigits2_unique; lia).
    destruct (shr_fexp_spec m2 (e + k) loc_Exact) as (mrs2 & Hs2 & Hm2' & Hloc2);
      try lia.
    rewrite Hs2. rewrite (Hloc2 Hd2). simpl shr_m.
    destruct m2 as [|pm|pm] eqn:E; try lia.
    assert ((e + k + (Zdigits2 (Z.pos pm) - 53) <=? 1024 - 53) = true) as ->
        by (apply Z.leb_le; lia).
    exists pm, (e + k + (Zdigits2 (Z.pos pm) - 53)), (Z.pos pm).
    split; [reflexivity|]. split; [lia|]. split; [exact Hm2|].
    split; [left; split; lia | exact Hexact].
  - assert (Heq : m2 = 2 ^ 53) by lia.
    assert (Hd2 : Zdigits2 m2 = 54).
    { apply Zdigits2_unique; [|lia]. rewrite Heq. simpl. lia. }
    destruct (shr_fexp_spec m2 (e + k) loc_Exact) as (mrs2 & Hs2 & Hm2' & _);
      try lia.
    rewrite Hs2. rewrite Hm2', Hd2, Heq.
    change (2 ^ 53 / 2 ^ (54 - 53)) with (Z.pos (2 ^ 52)).
    assert ((e + k + (54 - 53) <=? 1024 - 53) = true) as ->
        by (apply Z.leb_le; lia).
    exists (2 ^ 52)%positive, (e + k + (54 - 53)), m2.
    change (Z.pos (2 ^ 52)) with (2 ^ 52).
    split; [reflexivity|]. split; [lia|]. split; [exact Hm2|].
    split; [right; repeat split; lia | exact Hexact].
Qed.

Lemma iter_xO (p s : positive) : Z.pos (Pos.iter xO p s) = Z.pos p * 2 ^ Z.pos s.
Proof.
  induction s as [|s IH] using Pos.peano_ind.
  - simpl. lia.
  - rewrite Pos.iter_succ, Pos2Z.inj_succ, Z.pow_succ_r by lia.
    change (Z.pos (Pos.iter xO p s)~0) with (2 * Z.pos (Pos.iter xO p s)).
    rewrite IH. ring.
Qed.

(** A count below 2^53 is a Number exactly: its 53-digit mantissa is the
    count shifted left. *)
Lemma of_Z_spec (z : Z) :
  1 <= z < 2 ^ 53 ->
  exists (pm : positive) (s : Z),
    JsNumber.of_Z z = S754_finite false pm (- s)
    /\ 0 <= s <= 52
    /\ Z.pos pm = z * 2 ^ s
    /\ 2 ^ 52 <= Z.pos pm < 2 ^ 53.
Proof.
  intros Hz. destruct z as [|p|p]; try lia.
  unfold JsNumber.of_Z, JsNumber.prec, JsNumber.emax, binary_normalize,
    binary_round.
  pose proof (digits2_bounds p) as Hd.
  set (d := Z.pos (digits2_pos p)) in *.
  assert (Hd53 : d <= 53).
  { destruct (Z.le_gt_cases d 53) as [H|H]; [exact H|].
    assert (2 ^ 53 <= 2 ^ (d - 1)) by (apply Z.pow_le_mono_r; lia). lia. }
  assert (Hdpos : 0 < d) by (unfold d; lia).
  unfold fexp, emin. rewrite Z.add_0_r, Z.max_l by lia.
  unfold shl_align.
  assert (Hmz : exists mz : positive,
             (match d - 53 - 0 with
              | Z.neg s => (Pos.iter xO p s, d - 53)
              | _ => (p, 0)
              end) = (mz, d - 53)
             /\ Z.pos mz = Z.pos p * 2 ^ (53 - d)).
  { destruct (d - 53 - 0) as [|s|s] eqn:Hs; try lia.
    - exists p. assert (d = 53) as -> by lia. split; [reflexivity|]. simpl. lia.
    - exists (Pos.iter xO p s). split; [reflexivity|].
      rewrite iter_xO. f_equal. f_equal. lia. }
  destruct Hmz as (mz & -> & Hmz).
  assert (Hbounds : 2 ^ 52 <= Z.pos mz < 2 ^ 53).
  { rewrite Hmz. destruct Hd as [Hlo Hhi].
    assert (H52 : 2 ^ 52 = 2 ^ (d - 1) * 2 ^ (53 - d))
      by (rewrite <- Z.pow_add_r by lia; f_equal; lia).
    assert (H53 : 2 ^ 53 = 2 ^ d * 2 ^ (53 - d))
      by (rewrite <- Z.pow_add_r by lia; f_equal; lia).
    assert (0 < 2 ^ (53 - d)) by (apply pow2_pos; lia).
    rewrite H52, H53. split; [apply Z.mul_le_mono_nonneg_r | apply Z.mul_lt_mono_pos_r]; lia. }
  assert (Hdig : Zdigits2 (Z.pos mz) = 53) by (apply Zdigits2_unique; lia).
  destruct (binary_round_aux_spec (Z.pos mz) (d - 53) loc_Exact)
    as (pm & pe & m2 & Hres & Hpm & _ & Hcase & Hexact); try lia.
  specialize (Hexact eq_refl Hdig).
  exists pm, (53 - d). rewrite Hres.
  destruct Hcase as [[Hpe Hval]|[_ [_ Hcarry]]]; [|lia].
  split; [f_equal; lia|]. split; [lia|]. split; [lia|exact Hpm].
Qed.

(** The quotient of two 53-digit mantissas is taken with 53 more bits. *)
Lemma div_core (pa pn : positive) (ea en : Z) :
  Zdigits2 (Z.pos pa) = 53 -> Zdigits2 (Z.pos pn) = 53 ->
  -1074 <= ea - en - 53 ->
  SFdiv_core_binary 53 1024 (Z.pos pa) ea (Z.pos pn) en
  = (Z.pos pa * 2 ^ 53 / Z.pos pn, ea - en - 53,
     new_location (Z.pos pn) (Z.pos pa * 2 ^ 53 mod Z.pos pn)).
Proof.
  intros Ha Hn He. unfold SFdiv_core_binary. rewrite Ha, Hn.
  unfold fexp, emin.
  replace (53 + ea - (53 + en)) with (ea - en) by lia.
  rewrite Z.max_l by lia. rewrite Z.min_l by lia.
  replace (ea - en - (ea - en - 53)) with 53 by lia.
  rewrite Z.shiftl_mul_pow2 by lia.
  unfold Z.div, Z.modulo.
  destruct (Z.div_eucl (Z.pos pa * 2 ^ 53) (Z.pos pn)) as [q r]. reflexivity.
Qed.

(** The quotient of two counts, [a] at most [n]: with [2^j1] its unit
    in the last place on the scale [2^(53 + E)], it is within one unit
    of [a / n]. *)
Lemma div_spec (a n : Z) :
  1 <= a <= n -> n < 2 ^ 53 ->
  exists (pmV : positive) (E j1 : Z),
    SFdiv 53 1024 (JsNumber.of_Z a) (JsNumber.of_Z n) = S754_finite false pmV (- E - 53 + j1)
    /\ 0 <= E <= 52 /\ 0 <= j1 <= 2
    /\ 2 ^ 52 <= Z.pos pmV < 2 ^ 53
    /\ (Z.pos pmV * 2 ^ j1 - 2 ^ j1) * n <= a * 2 ^ (53 + E)
       < (Z.pos pmV * 2 ^ j1 + 2 ^ j1) * n.
Proof.
  intros Han Hn.
  destruct (of_Z_spec a) as (pa & sa & Ha & Hsa & Hpa & Hba); [lia|].
  destruct (of_Z_spec n) as (pn & sn & Hn' & Hsn & Hpn & Hbn); [lia|].
  assert (Hpsa : 0 < 2 ^ sa) by (apply pow2_pos; lia).
  assert (Hpsn : 0 < 2 ^ sn) by (apply pow2_pos; lia).
  assert (Hord : sn <= sa).
  { destruct (Z.le_gt_cases sn sa) as [H|H]; [exact H|exfalso].
    assert (H2 : 2 ^ (sa + 1) <= 2 ^ sn) by (apply Z.pow_le_mono_r; lia).
    rewrite Z.pow_add_r in H2 by lia. change (2 ^ 1) with 2 in H2.
    assert (a * 2 ^ sn <= n * 2 ^ sn) by (apply Z.mul_le_mono_nonneg_r; lia).
    assert (a * (2 ^ sa * 2) <= a * 2 ^ sn)
      by (apply Z.mul_le_mono_nonneg_l; lia).
    lia. }
  set (E := sa - sn).
  assert (HS : 2 ^ sa * 2 ^ 53 = 2 ^ (53 + E) * 2 ^ sn).
  { rewrite <- !Z.pow_add_r by (unfold E; lia). f_equal. unfold E. lia. }
  assert (HpS : 0 < 2 ^ (53 + E)) by (apply pow2_pos; unfold E; lia).
  assert (Hda : Zdigits2 (Z.pos pa) = 53) by (apply Zdigits2_unique; lia).
  assert (Hdn : Zdigits2 (Z.pos pn) = 53) by (apply Zdigits2_unique; lia).
  rewrite Ha, Hn'. unfold SFdiv. rewrite (div_core pa pn (- sa) (- sn) Hda Hdn) by lia.
  set (q := Z.pos pa * 2 ^ 53 / Z.pos pn).
  assert (Hq1 : q * Z.pos pn <= Z.pos pa * 2 ^ 53).
  { pose proof (Z.mul_div_le (Z.pos pa * 2 ^ 53) (Z.pos pn)). fold q in H. lia. }
  assert (Hq2 : Z.pos pa * 2 ^ 53 < (q + 1) * Z.pos pn).
  { pose proof (Z.mul_succ_div_gt (Z.pos pa * 2 ^ 53) (Z.pos pn)).
    fold q in H. lia. }
  assert (Hqn1 : q * n <= a * 2 ^ (53 + E)).
  { apply (Z.mul_le_mono_pos_r _ _ (2 ^ sn)); [lia|].
    replace (q * n * 2 ^ sn) with (q * Z.pos pn) by (rewrite Hpn; ring).
    replace (a * 2 ^ (53 + E) * 2 ^ sn) with (Z.pos pa * 2 ^ 53)
      by (rewrite Hpa, <- Z.mul_assoc, HS; ring).
    exact Hq1. }
  assert (Hqn2 : a * 2 ^ (53 + E) < (q + 1) * n).
  { apply (Z.mul_lt_mono_pos_r (2 ^ sn)); [lia|].
    replace ((q + 1) * n * 2 ^ sn) with ((q + 1) * Z.pos pn) by (rewrite Hpn; ring).
    replace (a * 2 ^ (53 + E) * 2 ^ sn) with (Z.pos pa * 2 ^ 53)
      by (rewrite Hpa, <- Z.mul_assoc, HS; ring).
    exact Hq2. }
  assert (Hqlo : 2 ^ 52 <= q).
  { unfold q. apply Z.div_le_lower_bound; [lia|].
    assert (Z.pos pn * 2 ^ 52 <= 2 ^ 53 * 2 ^ 52)
      by (apply Z.mul_le_mono_nonneg_r; lia).
    assert (2 ^ 52 * 2 ^ 53 <= Z.pos pa * 2 ^ 53)
      by (apply Z.mul_le_mono_nonneg_r; lia).
    lia. }
  assert (Hqhi : q < 2 ^ 54).
  { unfold q. apply Z.div_lt_upper_bound; [lia|].
    change (2 ^ 54) with (2 * 2 ^ 53).
    assert (Z.pos pa * 2 ^ 53 < 2 ^ 53 * 2 ^ 53)
      by (apply Z.mul_lt_mono_pos_r; lia).
    assert (2 ^ 52 * (2 * 2 ^ 53) <= Z.pos pn * (2 * 2 ^ 53))
      by (apply Z.mul_le_mono_nonneg_r; lia).
    lia. }
  assert (Hdq : Zdigits2 q = 53 \/ Zdigits2 q = 54).
  { destruct (Z.lt_ge_cases q (2 ^ 53)).
    - left. apply Zdigits2_unique; lia.
    - right. apply Zdigits2_unique; lia. }
  simpl xorb.
  destruct (binary_round_aux_spec q (- sa - - sn - 53)
              (new_location (Z.pos pn) (Z.pos pa * 2 ^ 53 mod Z.pos pn)))
    as (pmV & peV & m2 & Hres & HpmV & Hm2 & Hcase & _); try lia.
  set (k := Zdigits2 q - 53) in *.
  assert (Hk : 0 <= k <= 1) by (unfold k; lia).
  assert (Hpk : 0 < 2 ^ k) by (apply pow2_pos; lia).
  assert (Hdiv1 : q / 2 ^ k * 2 ^ k <= q)
    by (pose proof (Z.mul_div_le q (2 ^ k)); lia).
  assert (Hdiv2 : q < (q / 2 ^ k + 1) * 2 ^ k)
    by (pose proof (Z.mul_succ_div_gt q (2 ^ k)); lia).
  assert (Hm2lo : q - 2 ^ k < m2 * 2 ^ k) by (destruct Hm2; subst m2; lia).
  assert (Hm2hi : m2 * 2 ^ k <= q + 2 ^ k) by (destruct Hm2; subst m2; lia).
  assert (Hn0 : 0 < n) by lia.
  rewrite Hres.
  destruct Hcase as [[Hpe Hval]|[Hpe [Hval Hcarry]]].
  - exists pmV, E, k. split; [f_equal; unfold E; lia|].
    split; [unfold E; lia|]. split; [lia|]. split; [exact HpmV|].
    rewrite Hval. split.
    + transitivity (q * n); [|exact Hqn1].
      apply Z.mul_le_mono_nonneg_r; lia.
    + apply Z.lt_le_trans with ((q + 1) * n); [exact Hqn2|].
      apply Z.mul_le_mono_nonneg_r; lia.
  - exists pmV, E, (k + 1). split; [f_equal; unfold E; lia|].
    split; [unfold E; lia|]. split; [lia|]. split; [exact HpmV|].
    rewrite Z.pow_add_r by lia. change (2 ^ 1) with 2.
    rewrite Hval.
    replace (2 ^ 52 * (2 ^ k * 2)) with (m2 * 2 ^ k)
      by (rewrite Hcarry; change (2 ^ 53) with (2 ^ 52 * 2); ring).
    split.
    + transitivity (q * n); [|exact Hqn1].
      apply Z.mul_le_mono_nonneg_r; lia.
    + apply Z.lt_le_trans with ((q + 1) * n); [exact Hqn2|].
      apply Z.mul_le_mono_nonneg_r; lia.
Qed.

Lemma of_Z_100 : JsNumber.of_Z 100 = S754_finite false (100 * 2 ^ 46)%positive (-46).
Proof. vm_compute. reflexivity. Qed.

(** The product with 100 is within one unit in the last place, [2^j2]
    on the scale of the exact product of the mantissas. *)
Lemma mul_100_spec (pmV : positive) (peV : Z) :
  2 ^ 52 <= Z.pos pmV < 2 ^ 53 -> -200 <= peV <= 0 ->
  exists (pmW : positive) (j2 : Z),
    SFmul 53 1024 (S754_finite false pmV peV) (JsNumber.of_Z 100)
    = S754_finite false pmW (peV - 46 + j2)
    /\ 52 <= j2 <= 54
    /\ 2 ^ 52 <= Z.pos pmW < 2 ^ 53
    /\ Z.pos pmV * (100 * 2 ^ 46) - 2 ^ j2 <= Z.pos pmW * 2 ^ j2
       <= Z.pos pmV * (100 * 2 ^ 46) + 2 ^ j2.
Proof.
  intros HpmV HpeV. rewrite of_Z_100. unfold SFmul. simpl xorb.
  rewrite Pos2Z.inj_mul.
  change (Z.pos (100 * 2 ^ 46)) with (100 * 2 ^ 46).
  set (P := Z.pos pmV * (100 * 2 ^ 46)).
  assert (HPlo : 2 ^ 104 <= P) by (unfold P; lia).
  assert (HPhi : P < 2 ^ 106) by (unfold P; lia).
  assert (HdP : Zdigits2 P = 105 \/ Zdigits2 P = 106).
  { destruct (Z.lt_ge_cases P (2 ^ 105)).
    - left. apply Zdigits2_unique; lia.
    - right. apply Zdigits2_unique; lia. }
  destruct (binary_round_aux_spec P (peV + -46) loc_Exact)
    as (pmW & peW & m2 & Hres & HpmW & Hm2 & Hcase & _); try lia.
  set (k := Zdigits2 P - 53) in *.
  assert (Hk : 52 <= k <= 53) by (unfold k; lia).
  assert (Hpk : 0 < 2 ^ k) by (apply pow2_pos; lia).
  assert (Hdiv1 : P / 2 ^ k * 2 ^ k <= P)
    by (pose proof (Z.mul_div_le P (2 ^ k)); lia).
  assert (Hdiv2 : P < (P / 2 ^ k + 1) * 2 ^ k)
    by (pose proof (Z.mul_succ_div_gt P (2 ^ k)); lia).
  assert (Hm2lo : P - 2 ^ k < m2 * 2 ^ k) by (destruct Hm2; subst m2; lia).
  assert (Hm2hi : m2 * 2 ^ k <= P + 2 ^ k) by (destruct Hm2; subst m2; lia).
  rewrite Hres.
  destruct Hcase as [[Hpe Hval]|[Hpe [Hval Hcarry]]].
  - exists pmW, k. split; [f_equal; lia|]. split; [lia|]. split; [exact HpmW|].
    rewrite Hval. lia.
  - exists pmW, (k + 1). split; [f_equal; lia|]. split; [lia|].
    split; [exact HpmW|].
    rewrite Z.pow_add_r by lia. change (2 ^ 1) with 2.
    rewrite Hval.
    replace (2 ^ 52 * (2 ^ k * 2)) with (m2 * 2 ^ k)
      by (rewrite Hcarry; change (2 ^ 53) with (2 ^ 52 * 2); ring).
    lia.
Qed.

(** [Math.round] of a positive number with a fraction: [r - 1/2 <= x <
    r + 1/2], on the scale [2^(- pe)]. *)
Lemma Math_round_spec (pm : positive) (pe : Z) :
  pe < 0 ->
  exists r, JsNumber.Math_round (S754_finite false pm pe) = Some r
            /\ (2 * r - 1) * 2 ^ (- pe) <= 2 * Z.pos pm
               < (2 * r + 1) * 2 ^ (- pe).
Proof.
  intros Hpe. unfold JsNumber.Math_round.
  assert ((0 <=? pe) = false) as -> by lia.
  eexists. split; [reflexivity|].
  assert (HD : 0 < 2 ^ (- pe)) by (apply pow2_pos; lia).
  replace (1 - pe) with (1 + - pe) by lia.
  rewrite Z.pow_add_r by lia. change (2 ^ 1) with 2.
  set (D := 2 ^ (- pe)) in *.
  pose proof (Z.mul_div_le (2 * Z.pos pm + D) (2 * D)).
  pose proof (Z.mul_succ_div_gt (2 * Z.pos pm + D) (2 * D)).
  lia.
Qed.

(** The two units in the last place add up to less than [1 / (2 n)]
    when [n] is at most 2^42, so the rounded product and the exact
    percentage round alike unless the latter is a tie. *)
Lemma rate_nearest (a n : Z) :
  1 <= a <= n -> n <= 2 ^ 42 ->
  exists r,
    JsNumber.Math_round
      (JsNumber.mul (JsNumber.div (JsNumber.of_Z a) (JsNumber.of_Z n))
                    (JsNumber.of_Z 100))
    = Some r
    /\ (2 * r - 1) * n <= 200 * a <= (2 * r + 1) * n.
Proof.
  intros Han Hn.
  unfold JsNumber.mul, JsNumber.div, JsNumber.prec, JsNumber.emax.
  destruct (div_spec a n Han) as (pmV & E & j1 & HV & HE & Hj1 & HpmV & H1 & H1');
    [lia|].
  rewrite HV.
  destruct (mul_100_spec pmV (- E - 53 + j1) HpmV)
    as (pmW & j2 & HW & Hj2 & HpmW & H2 & H2'); [lia|].
  rewrite HW.
  destruct (Math_round_spec pmW (- E - 53 + j1 - 46 + j2)) as (r & Hr & H3 & H3');
    [lia|].
  exists r. split; [exact Hr|].
  assert (HD : 2 ^ (- (- E - 53 + j1 - 46 + j2)) * 2 ^ j1 * 2 ^ j2
               = 2 ^ 46 * 2 ^ (53 + E)).
  { rewrite <- !Z.pow_add_r by lia. f_equal. lia. }
  set (D := 2 ^ (- (- E - 53 + j1 - 46 + j2))) in *.
  set (S := 2 ^ (53 + E)) in *.
  assert (Ht1 : 1 <= 2 ^ j1) by (pose proof (pow2_pos j1); lia).
  assert (Ht2 : 1 <= 2 ^ j2) by (pose proof (pow2_pos j2); lia).
  assert (Ht2' : 2 ^ j2 <= 2 ^ 54) by (apply Z.pow_le_mono_r; lia).
  set (t1 := 2 ^ j1) in *. set (t2 := 2 ^ j2) in *.
  assert (HSpos : 0 < S) by (apply pow2_pos; lia).
  assert (HX : 1 <= t1 * n) by nia.
  (* the ulp of the quotient is small against the scale *)
  assert (K1 : (2 ^ 52 - 1) * (t1 * n) <= n * S).
  { assert (a * S <= n * S) by (apply Z.mul_le_mono_nonneg_r; lia).
    assert (2 ^ 52 * (t1 * n) <= Z.pos pmV * (t1 * n))
      by (apply Z.mul_le_mono_nonneg_r; lia).
    lia. }
  assert (HB : Z.pos pmW * t2 * (t1 * n)
               <= (Z.pos pmV * (100 * 2 ^ 46) + t2) * (t1 * n))
    by (apply Z.mul_le_mono_nonneg_r; lia).
  assert (HB' : (Z.pos pmV * (100 * 2 ^ 46) - t2) * (t1 * n)
                <= Z.pos pmW * t2 * (t1 * n))
    by (apply Z.mul_le_mono_nonneg_r; lia).
  assert (HT : t2 * (t1 * n) <= 2 ^ 54 * (t1 * n))
    by (apply Z.mul_le_mono_nonneg_r; lia).
  assert (HA : (2 * r - 1) * n * (2 ^ 46 * S) <= 2 * Z.pos pmW * t2 * (t1 * n)).
  { rewrite <- HD.
    replace ((2 * r - 1) * n * (D * t1 * t2))
      with ((2 * r - 1) * D * (t2 * (t1 * n))) by ring.
    replace (2 * Z.pos pmW * t2 * (t1 * n))
      with (2 * Z.pos pmW * (t2 * (t1 * n))) by ring.
    apply Z.mul_le_mono_nonneg_r; lia. }
  assert (HA' : 2 * Z.pos pmW * t2 * (t1 * n) < (2 * r + 1) * n * (2 ^ 46 * S)).
  { rewrite <- HD.
    replace ((2 * r + 1) * n * (D * t1 * t2))
      with ((2 * r + 1) * D * (t2 * (t1 * n))) by ring.
    replace (2 * Z.pos pmW * t2 * (t1 * n))
      with (2 * Z.pos pmW * (t2 * (t1 * n))) by ring.
    apply Z.mul_lt_mono_pos_r; lia. }
  assert (HN : (t1 * n) * n <= (t1 * n) * 2 ^ 42)
    by (apply Z.mul_le_mono_nonneg_l; lia).
  split.
  - destruct (Z.le_gt_cases ((2 * r - 1) * n) (200 * a)) as [Hok|Hbad];
      [exact Hok|exfalso].
    assert (Hbad' : (200 * a + 1) * (2 ^ 46 * S) <= (2 * r - 1) * n * (2 ^ 46 * S))
      by (apply Z.mul_le_mono_nonneg_r; lia).
    assert (K2 : S <= 712 * (t1 * n)) by lia.
    assert (K2n : n * S <= n * (712 * (t1 * n)))
      by (apply Z.mul_le_mono_nonneg_l; lia).
    lia.
  - destruct (Z.le_gt_cases (200 * a) ((2 * r + 1) * n)) as [Hok|Hbad];
      [exact Hok|exfalso].
    assert (Hbad' : (2 * r + 1) * n * (2 ^ 46 * S) <= (200 * a - 1) * (2 ^ 46 * S))
      by (apply Z.mul_le_mono_nonneg_r; lia).
    assert (K2 : S <= 712 * (t1 * n)) by lia.
    assert (K2n : n * S <= n * (712 * (t1 * n)))
      by (apply Z.mul_le_mono_nonneg_l; lia).
    lia.
Qed.
End Binary64.

(** ** Analytics *)

Section Aggregation.
Import Database Routes.

(** The rate of counts that add up to at most 2^42. *)
Lemma approvalRate_nearest (approved passed : Z) :
  0 <= approved -> 0 <= passed -> 0 < approved + passed <= 2 ^ 42 ->
  exists r, approvalRate approved passed = Some r
            /\ nearest_percent approved passed r.
Proof.
  intros Ha Hp Hn. unfold approvalRate, nearest_percent.
  assert ((approved + passed >? 0) = true) as -> by lia.
  destruct (Z.eq_dec approved 0) as [->|Hpos].
  - destruct (of_Z_spec (0 + passed)) as (pn & sn & Hpn & _); [lia|].
    rewrite Hpn. exists 0. split; [reflexivity|]. lia.
  - destruct (rate_nearest approved (approved + passed)) as (r & Hr & Hlo & Hhi);
      [lia | lia |].
    exists r. split; [exact Hr|]. lia.
Qed.

(** At an exact tie the doubles decide: 29 of 200 is 14.5 percent, the
    product is 14.499999999999998, and the rate is 14. *)
Lemma approvalRate_tie : approvalRate 29 171 = Some 14.
Proof. vm_compute. reflexivity. Qed.

Lemma ratings_none (db : Db) :
  (forall s, In s (submissions db) -> Submissions.rating s = None) ->
  ratings db = [].
Proof.
  unfold ratings. induction (submissions db) as [|s l IH]; simpl; intros H;
    [reflexivity|].
  rewrite (H s) by auto. simpl. apply IH. auto.
Qed.

(** The count of a status is the number of submissions that have it. *)
Lemma count_status_occ (db : Db) (st : string) :
  count_status db st
  = Z.of_nat (count_occ string_dec (map Submissions.status (submissions db)) st).
Proof.
  unfold count_status. f_equal.
  induction (submissions db) as [|s l IH]; simpl; [reflexivity|].
  destruct (string_dec (Submissions.status s) st) as [E|E].
  - apply String.eqb_eq in E. rewrite E. simpl. f_equal. exact IH.
  - apply String.eqb_neq in E. rewrite E. exact IH.
Qed.

Lemma ratings_in (db : Db) (r : Q) :
  In r (ratings db)
  <-> exists s, In s (submissions db) /\ Submissions.rating s = Some r.
Proof.
  unfold ratings. rewrite in_flat_map. split.
  - intros [s [Hs Hr]]. exists s. split; [exact Hs|].
    destruct (Submissions.rating s) as [x|]; [|contradiction].
    destruct Hr as [<-|[]]. reflexivity.
  - intros [s [Hs Hr]]. exists s. split; [exact Hs|]. rewrite Hr. left. reflexivity.
Qed.

(** The sum of numbers between two bounds. *)
Lemma sum_between (lo hi : Q) (rs : list Q) :
  (forall r, In r rs -> lo <= r /\ r <= hi)%Q ->
  (lo * inject_Z (Z.of_nat (List.length rs)) <= fold_right Qplus 0 rs
   /\ fold_right Qplus 0 rs <= hi * inject_Z (Z.of_nat (List.length rs)))%Q.
Proof.
  induction rs as [|r rs IH]; intros H.
  - simpl. split; rewrite Qmult_0_r; apply Qle_refl.
  - destruct (H r (or_introl eq_refl)) as [Hlo Hhi].
    destruct IH as [IHlo IHhi]; [intros x Hx; apply H; right; exact Hx|].
    cbn [List.length fold_right].
    rewrite Nat2Z.inj_succ. unfold Z.succ. rewrite inject_Z_plus.
    rewrite !Qmult_plus_distr_r, !Qmult_1_r.
    split.
    + rewrite (Qplus_comm _ lo). apply Qplus_le_compat; assumption.
    + rewrite (Qplus_comm _ hi). apply Qplus_le_compat; assumption.
Qed.

(** The mean of numbers between two bounds lies between them. *)
Lemma avg_rating_between (db : Db) (lo hi : Q) :
  ratings db <> [] ->
  (forall r, In r (ratings db) -> lo <= r /\ r <= hi)%Q ->
  exists q, avg_rating db = Some q /\ (lo <= q /\ q <= hi)%Q.
Proof.
  intros Hne Hall. unfold avg_rating.
  destruct (sum_between lo hi (ratings db) Hall) as [Hlo Hhi].
  destruct (ratings db) as [|r rs] eqn:E; [congruence|].
  eexists. split; [reflexivity|].
  assert (Hpos : (0 < inject_Z (Z.of_nat (List.length (r :: rs))))%Q).
  { change 0%Q with (inject_Z 0). rewrite <- Zlt_Qlt. simpl List.length. lia. }
  split.
  - apply Qle_shift_div_l; assumption.
  - apply Qle_shift_div_r; assumption.
Qed.

(** C8. What a board member or an admin reads as analytics, in a store
    with [approved] submissions of status approved and [passed] of
    status passed: the approval rate is 0 when the two counts add up to
    0, is 67 for 2 approved and 1 passed, and, for counts that add up to
    at most 2^42, is an integer nearest to the exact percentage
    [100 * approved / (approved + passed)]. The average rating is the
    string "N/A" when no submission is rated; when one is and every
    rating lies between two bounds above 0, it is a number between
    them; it is never reported as a zero. *)
Theorem analytics_rate_and_average :
  forall (db : Db) (actor : Auth.ReqUser),
    Auth.role actor = "board" \/ Auth.role actor = "admin" ->
    exists a,
      analytics db actor = Json OK a
      /\ total a = Z.of_nat (List.length (submissions db))
      /\ (forall approved passed : nat,
             count_occ string_dec (map Submissions.status (submissions db))
                       "approved" = approved ->
             count_occ string_dec (map Submissions.status (submissions db))
                       "passed" = passed ->
             ((approved + passed = 0)%nat -> approval_rate a = Some 0)
             /\ (approved = 2%nat -> passed = 1%nat -> approval_rate a = Some 67)
             /\ (Z.of_nat (approved + passed) <= 2 ^ 42 ->
                 (0 < approved + passed)%nat ->
                 exists r, approval_rate a = Some r
                           /\ nearest_percent (Z.of_nat approved)
                                              (Z.of_nat passed) r))
      /\ ((forall s, In s (submissions db) -> Submissions.rating s = None) ->
          avgRating a = Sentinel "N/A")
      /\ (forall lo hi,
             (exists s r, In s (submissions db) /\ Submissions.rating s = Some r) ->
             (0 < lo)%Q ->
             (forall s r, In s (submissions db) -> Submissions.rating s = Some r ->
                          lo <= r /\ r <= hi)%Q ->
             exists q, avgRating a = ToFixed1 q /\ (lo <= q /\ q <= hi)%Q)
      /\ forall q, avgRating a = ToFixed1 q -> ~ (q == 0)%Q.
Proof.
  intros db actor Hrole. unfold analytics, guarded_read.
  rewrite (requireRole_passes "board" actor Hrole).
  eexists. split; [reflexivity|].
  cbn [total approval_rate avgRating].
  split; [reflexivity|]. split; [|split; [|split]].
  - intros approved passed Ha Hp. rewrite !count_status_occ, Ha, Hp.
    split; [|split].
    + intros Hz. unfold approvalRate.
      assert ((Z.of_nat approved + Z.of_nat passed >? 0) = false) as -> by lia.
      reflexivity.
    + intros -> ->. vm_compute. reflexivity.
    + intros Hmax Hpos. apply approvalRate_nearest; lia.
  - intros Hnone. unfold avg_rating. rewrite (ratings_none db Hnone). reflexivity.
  - intros lo hi (s & r & Hs & Hr) Hlo Hall.
    destruct (avg_rating_between db lo hi) as (q & Hq & Hql & Hqh).
    + intros E. assert (Hin : In r (ratings db))
        by (apply ratings_in; exists s; auto).
      rewrite E in Hin. contradiction.
    + intros x Hx. apply ratings_in in Hx. destruct Hx as (s' & Hs' & Hr').
      exact (Hall s' x Hs' Hr').
    + exists q. rewrite Hq. unfold avgRating_field. cbn [Js.falsy_number].
      destruct (Qeq_bool q 0) eqn:E.
      * apply Qeq_bool_iff in E. rewrite E in Hql.
        exfalso. exact (Qlt_not_le _ _ Hlo Hql).
      * auto.
  - intros q. unfold avgRating_field.
    destruct (avg_rating db) as [avg|]; simpl; [|discriminate].
    destruct (Qeq_bool avg 0) eqn:E; [discriminate|].
    intros H. injection H as <-.
    intros Hz. apply Qeq_bool_iff in Hz. congruence.
Qed.
End Aggregation.

Lemma analytics_rate_and_average_witness :
  exists a,
    Routes.analytics
      (Routes.serve Demo.hashSync Demo.db
                    (Routes.PatchStatus Demo.sarah 1 (Some "approved")))
      Demo.sarah
    = Json OK a
    /\ Routes.total a = 3
    /\ Routes.approval_rate a = Some 67
    /\ exists q, Routes.avgRating a = Routes.ToFixed1 q /\ (2 <= q /\ q <= 5)%Q.
Proof.
  destruct (analytics_rate_and_average
              (Routes.serve Demo.hashSync Demo.db
                            (Routes.PatchStatus Demo.sarah 1 (Some "approved")))
              Demo.sarah (or_introl eq_refl))
    as (a & Ha & Htotal & Hrate & _ & Havg & _).
  exists a. split; [exact Ha|].
  split; [rewrite Htotal; vm_compute; reflexivity|]. split.
  - destruct (Hrate 2%nat 1%nat) as (_ & H67 & _);
      [vm_compute; reflexivity | vm_compute; reflexivity |].
    apply H67; reflexivity.
  - apply (Havg 2%Q 5%Q).
    + exists (nth 1 Seed.seed_submissions
                  {| Submissions.id := 0; Submissions.user_id := 0;
                     Submissions.company_name := ""; Submissions.one_liner := "";
                     Submissions.industry := ""; Submissions.status := "";
                     Submissions.rating := None; Submissions.submitted_at := 0 |}),
        5%Q.
      vm_compute. split; [right; left; reflexivity | reflexivity].
    + reflexivity.
    + intros s r Hs Hr. vm_compute in Hs.
      destruct Hs as [<-|[<-|[<-|[]]]]; vm_compute in Hr; injection Hr as <-;
        split; discriminate.
Defined.

(** ** Strings: [trim], [split] and [join] *)

Section Text.
Import JsText.

(** The white space a string starts with, if any, and what follows it. *)
Lemma leading_space (s : string) :
  s = EmptyString
  \/ (exists t, (String.length t < String.length s)%nat
                 /\ trimStart s = trimStart t /\ blank s = blank t)
  \/ (trimStart s = s /\ blank s = false).
Proof.
  destruct s as [|c s1]; [left; reflexivity|]. right.
  simpl. destruct (is_space c) eqn:E1.
  { left. exists s1. simpl. split; [lia|]. split; reflexivity. }
  destruct s1 as [|c1 s2]; [right; split; reflexivity|].
  destruct (is_space2 c c1) eqn:E2.
  { left. exists s2. simpl. split; [lia|]. split; reflexivity. }
  destruct s2 as [|c2 s3]; [right; split; reflexivity|].
  destruct (is_space3 c c1 c2) eqn:E3.
  { left. exists s3. simpl. split; [lia|]. split; reflexivity. }
  right. split; reflexivity.
Qed.

Lemma blank_trimStart_upto (n : nat) (s : string) :
  (String.length s <= n)%nat -> blank (trimStart s) = blank s.
Proof.
  revert s. induction n as [|n IH]; intros s Hlen.
  - destruct s; [reflexivity|simpl in Hlen; lia].
  - destruct (leading_space s) as [-> | [(t & Ht & Hs & Hb) | (Hs & _)]].
    + reflexivity.
    + rewrite Hs, Hb. apply IH. lia.
    + rewrite Hs. reflexivity.
Qed.

Lemma blank_trimStart (s : string) : blank (trimStart s) = blank s.
Proof. apply (blank_trimStart_upto (String.length s)). lia. Qed.

Lemma trimStart_blank_upto (n : nat) (s : string) :
  (String.length s <= n)%nat -> blank s = true -> trimStart s = EmptyString.
Proof.
  revert s. induction n as [|n IH]; intros s Hlen.
  - destruct s; [reflexivity|simpl in Hlen; lia].
  - destruct (leading_space s) as [-> | [(t & Ht & Hs & Hb) | (_ & Hb)]].
    + reflexivity.
    + rewrite Hs, Hb. apply IH. lia.
    + congruence.
Qed.

(** Nothing is left of a string at its start exactly when every
    character is white space. *)
Lemma trimStart_blank (t : string) :
  trimStart t = EmptyString <-> blank t = true.
Proof.
  split.
  - intros H. rewrite <- blank_trimStart, H. reflexivity.
  - apply (trimStart_blank_upto (String.length t)). lia.
Qed.

Lemma trimEnd_empty (s : string) :
  trimEnd s = EmptyString <-> blank s = true.
Proof.
  destruct s as [|c s]; [split; reflexivity|].
  change (trimEnd (String c s))
    with (if blank (String c s) then EmptyString else String c (trimEnd s)).
  destruct (blank (String c s)); split; congruence.
Qed.

(** Trimming leaves nothing exactly when every character is white space. *)
Lemma trim_empty (s : string) :
  trim s = EmptyString <-> trimStart s = EmptyString.
Proof.
  unfold trim. rewrite trimEnd_empty, blank_trimStart. symmetry.
  apply trimStart_blank.
Qed.

Lemma split_free (sep : ascii) (s : string) :
  free_of sep s = true -> split sep s = [s].
Proof.
  induction s as [|c s IH]; simpl; [reflexivity|].
  destruct (Ascii.eqb c sep); simpl; [discriminate|].
  intros H. rewrite (IH H). reflexivity.
Qed.

Lemma split_app_free (sep : ascii) (s r : string) :
  free_of sep s = true ->
  split sep (s ++ String sep r) = s :: split sep r.
Proof.
  induction s as [|c s IH]; simpl.
  - intros _. rewrite Ascii.eqb_refl. reflexivity.
  - destruct (Ascii.eqb c sep); simpl; [discriminate|].
    intros H. rewrite (IH H). reflexivity.
Qed.

Lemma split_head_free (sep : ascii) (s h : string) (t : list string) :
  split sep s = h :: t -> free_of sep h = true.
Proof.
  revert h t. induction s as [|c s IH]; simpl; intros h t H.
  - injection H as <- _. reflexivity.
  - destruct (Ascii.eqb c sep) eqn:E.
    + injection H as <- _. reflexivity.
    + destruct (split sep s) as [|piece rest] eqn:Es.
      * injection H as <- _. simpl. rewrite E. reflexivity.
      * injection H as <- _. simpl. rewrite E. simpl. exact (IH piece rest eq_refl).
Qed.

Lemma join_cons (sep x y : string) (l : list string) :
  join sep (x :: y :: l) = (x ++ sep ++ join sep (y :: l))%string.
Proof. reflexivity. Qed.

Lemma split_join (sep : ascii) (l : list string) :
  l <> [] -> forallb (free_of sep) l = true ->
  split sep (join (String sep EmptyString) l) = l.
Proof.
  induction l as [|x l IH]; [congruence|]. intros _ H.
  simpl in H. apply andb_true_iff in H as [Hx Hl].
  destruct l as [|y l].
  - simpl. apply split_free. exact Hx.
  - rewrite join_cons. simpl String.append at 2.
    rewrite (split_app_free sep x _ Hx). f_equal. apply IH; [discriminate|exact Hl].
Qed.

Lemma join_split_free (sep : ascii) (l : list string) :
  l <> [] -> split sep (join (String sep EmptyString) l) = l ->
  forallb (free_of sep) l = true.
Proof.
  induction l as [|x l IH]; [congruence|]. intros _ H.
  assert (Hx : free_of sep x = true) by exact (split_head_free sep _ x l H).
  simpl. rewrite Hx. simpl.
  destruct l as [|y l]; [reflexivity|].
  apply IH; [discriminate|].
  rewrite join_cons in H. simpl String.append at 2 in H.
  rewrite (split_app_free sep x _ Hx) in H. injection H as H. exact H.
Qed.

Lemma append_empty (a b : string) :
  (a ++ b)%string = EmptyString -> a = EmptyString /\ b = EmptyString.
Proof. destruct a; simpl; [auto|discriminate]. Qed.

Lemma join_empty (sep : ascii) (l : list string) :
  join (String sep EmptyString) l = EmptyString -> l = [] \/ l = [EmptyString].
Proof.
  destruct l as [|x [|y l]]; simpl; intros H; [left; reflexivity|right; congruence|].
  apply append_empty in H as [_ H]. discriminate.
Qed.

(** X1. [POST /submissions] stores the array [lookingFor] joined by
    commas and the reads split the column again: a read returns the
    array that was posted exactly when no entry holds a comma and the
    array is not the single empty string. *)
Theorem looking_for_round_trip (l : list string) :
  LookingFor.looking_for (LookingFor.lookingForStr (LookingFor.Items l)) = l
  <-> forallb (free_of ","%char) l = true /\ l <> [EmptyString].
Proof.
  unfold LookingFor.looking_for, LookingFor.lookingForStr, Js.falsy.
  destruct (String.eqb_spec (join "," l) "") as [E|E].
  - destruct (join_empty _ _ E) as [-> | ->].
    + split; [intros _; split; [reflexivity|discriminate]|reflexivity].
    + split; [discriminate|intros [_ H]; congruence].
  - assert (Hl : l <> []) by (intros ->; apply E; reflexivity).
    split.
    + intros H. split; [exact (join_split_free _ l Hl H)|].
      intros ->. apply E. reflexivity.
    + intros [H _]. exact (split_join _ l Hl H).
Qed.

Section Tokens.
Variable verify : string -> option Auth.ReqUser.

(** X2. [requireAuth] verifies the second space-separated piece of the
    header: with a token free of spaces, whatever follows a further
    space is ignored, and the request goes on as the payload
    [jwt.verify] returns or is refused with 401. *)
Theorem requireAuth_reads_the_second_piece (token rest : string) :
  free_of " "%char token = true ->
  Bearer.requireAuth verify (Some ("Bearer " ++ token ++ " " ++ rest)%string)
  = Bearer.requireAuth verify (Some ("Bearer " ++ token)%string)
  /\ Bearer.requireAuth verify (Some ("Bearer " ++ token)%string)
     = match verify token with
       | Some decoded => Bearer.Next decoded
       | None => Bearer.Refused Bearer.Unauthorized "Invalid or expired token"
       end.
Proof.
  intros H.
  assert (H1 : nth_error (split " "%char ("Bearer " ++ token ++ " " ++ rest)) 1
               = Some token).
  { change ("Bearer " ++ token ++ " " ++ rest)%string
      with ("Bearer" ++ String " " (token ++ String " " rest))%string.
    rewrite (split_app_free " " "Bearer" _ eq_refl).
    rewrite (split_app_free " " token _ H). reflexivity. }
  assert (H2 : nth_error (split " "%char ("Bearer " ++ token)) 1 = Some token).
  { change ("Bearer " ++ token)%string with ("Bearer" ++ String " " token)%string.
    rewrite (split_app_free " " "Bearer" _ eq_refl).
    rewrite (split_free " " token H). reflexivity. }
  unfold Bearer.requireAuth.
  change (Js.falsy (Some ("Bearer " ++ token ++ " " ++ rest)%string)) with false.
  change (Js.falsy (Some ("Bearer " ++ token)%string)) with false.
  change (String.prefix "Bearer " ("Bearer " ++ token ++ " " ++ rest)) with
    (String.prefix "" (token ++ " " ++ rest)).
  change (String.prefix "Bearer " ("Bearer " ++ token)) with (String.prefix "" token).
  assert (Hp : forall s, String.prefix "" s = true) by (intros []; reflexivity).
  rewrite !Hp, H1, H2. simpl. split; reflexivity.
Qed.
End Tokens.
End Text.

Lemma requireAuth_reads_the_second_piece_witness :
  Bearer.requireAuth Studio.verify (Some "Bearer alex.token trailing words")
  = Bearer.Next Demo.alex.
Proof.
  destruct (requireAuth_reads_the_second_piece Studio.verify
              "alex.token" "trailing words" eq_refl) as [H1 H2].
  change ("Bearer " ++ "alex.token" ++ " " ++ "trailing words")%string
    with "Bearer alex.token trailing words" in H1.
  rewrite H1, H2. reflexivity.
Defined.

(** ** Signing in *)

Section SigningIn.
Import Database Routes Invariants Sessions.
Variable hashSync : string -> string.
Variable compareSync : string -> string -> bool.

Lemma toLowerCase_empty (s : string) :
  Js.toLowerCase s = EmptyString -> s = EmptyString.
Proof. destruct s; simpl; [reflexivity|discriminate]. Qed.

Lemma falsy_string (s : string) : s <> EmptyString -> Js.falsy (Some s) = false.
Proof.
  intros H. simpl. destruct (String.eqb_spec s ""); [contradiction|reflexivity].
Qed.

(** X3. [POST /auth/login] answers an unknown email and a wrong
    password alike: both get 401 with the same body, so the response
    does not tell whether the email has an account. *)
Theorem login_refusals_are_alike (db : Db) (e1 pw1 e2 pw2 : string)
        (u : Users.row) :
  e1 <> EmptyString -> pw1 <> EmptyString ->
  e2 <> EmptyString -> pw2 <> EmptyString ->
  user_by_email db (Js.toLowerCase e1) = None ->
  user_by_email db (Js.toLowerCase e2) = Some u ->
  compareSync pw2 (Users.password u) = false ->
  login compareSync db (Some e1) (Some pw1)
  = login compareSync db (Some e2) (Some pw2)
  /\ login compareSync db (Some e2) (Some pw2)
     = Fail Bearer.Unauthorized "Invalid email or password".
Proof.
  intros H1 H2 H3 H4 Hnone Hsome Hcmp. unfold login.
  rewrite (falsy_string e1 H1), (falsy_string pw1 H2),
    (falsy_string e2 H3), (falsy_string pw2 H4), Hnone, Hsome, Hcmp.
  simpl. split; reflexivity.
Qed.

(** X4. A registration whose fields are valid, under an email not on
    record, is answered 500: the row is inserted and then read back
    under [lastInsertRowid], where no user is. The account is on record
    all the same: it signs in with its password under any letter case
    of its email, given that [compareSync] accepts the password against
    the hash stored for it, and [GET /auth/me] with the token of that
    login returns the same user. *)
Theorem registered_account_signs_in (db : Db) (n e pw e' : string) :
  user_keys_fresh db -> sequences_started db ->
  n <> EmptyString -> e <> EmptyString -> (8 <= Js.length pw)%nat ->
  Js.ascii_only e = true -> Js.ascii_only e' = true ->
  user_by_email db (Js.toLowerCase e) = None ->
  compareSync pw (hashSync pw) = true ->
  Js.toLowerCase e' = Js.toLowerCase e ->
  status_code (res (register hashSync db (Some n) (Some e) (Some pw)))
  = InternalError
  /\ login compareSync (store (register hashSync db (Some n) (Some e) (Some pw)))
           (Some e') (Some pw)
     = Json OK {| Sessions.user := safe (founder_row hashSync db n e pw);
                  Sessions.token := Auth.createToken (founder_row hashSync db n e pw) |}
  /\ me (store (register hashSync db (Some n) (Some e) (Some pw)))
        (Auth.createToken (founder_row hashSync db n e pw))
     = Json OK (safe (founder_row hashSync db n e pw)).
Proof.
  intros Hk Hseq Hn He Hlen _ _ Hnone Hc Hcase.
  rewrite (register_inserts hashSync db n e pw Hk Hseq Hn He Hlen Hnone).
  cbn [res store reply].
  assert (Hpw : pw <> EmptyString) by (intros ->; simpl in Hlen; lia).
  assert (Fe' : Js.falsy (Some e') = false).
  { apply falsy_string. intros ->. simpl in Hcase. symmetry in Hcase.
    apply toLowerCase_empty in Hcase. contradiction. }
  split; [reflexivity|]. split.
  - unfold login. rewrite Fe', (falsy_string pw Hpw). cbn [orb]. rewrite Hcase.
    unfold user_by_email in *. cbn [users with_users].
    rewrite (find_app_none _ _ _ Hnone). unfold founder_row.
    cbn [find Users.email]. rewrite String.eqb_refl.
    cbn [Users.password negb]. rewrite Hc. reflexivity.
  - unfold me. cbn [Auth.createToken Auth.id founder_row Users.id].
    pose proof (user_by_id_new db (founder_row hashSync db n e pw) Hk eq_refl) as Hnew.
    rewrite Hnew. reflexivity.
Qed.
End SigningIn.

Lemma login_refusals_are_alike_witness :
  Sessions.login Studio.compareSync Demo.db (Some "nobody@demo.com") (Some "Demo1234!")
  = Sessions.login Studio.compareSync Demo.db (Some "Founder@Demo.com") (Some "guess")
  /\ Sessions.login Studio.compareSync Demo.db (Some "Founder@Demo.com") (Some "guess")
     = Fail Bearer.Unauthorized "Invalid email or password".
Proof.
  assert (Hnone : Database.user_by_email Demo.db (Js.toLowerCase "nobody@demo.com")
                  = None) by (vm_compute; reflexivity).
  assert (Hsome : Database.user_by_email Demo.db (Js.toLowerCase "Founder@Demo.com")
                  = Some (Seed.seed_user Demo.hashSync 1 "founder@demo.com"
                                         "Alex Chen" "founder" None))
    by (vm_compute; reflexivity).
  apply (login_refusals_are_alike Studio.compareSync Demo.db
           "nobody@demo.com" "Demo1234!" "Founder@Demo.com" "guess" _
           ltac:(discriminate) ltac:(discriminate) ltac:(discriminate)
           ltac:(discriminate) Hnone Hsome).
  vm_compute. reflexivity.
Defined.

Lemma registered_account_signs_in_witness :
  status_code (Routes.res (Routes.register Demo.hashSync Demo.seeded
                             (Some "Casey Wu") (Some "Casey@Demo.com")
                             (Some "Passw0rd!")))
  = InternalError
  /\ Sessions.login Studio.compareSync Demo.db (Some "CASEY@demo.com")
                    (Some "Passw0rd!")
     = Json OK {| Sessions.user :=
                    {| Sessions.id := 7; Sessions.email := "casey@demo.com";
                       Sessions.name := "Casey Wu"; Sessions.role := "founder";
                       Sessions.specialty := None |};
                  Sessions.token := Demo.casey |}
  /\ Sessions.me Demo.db Demo.casey
     = Json OK {| Sessions.id := 7; Sessions.email := "casey@demo.com";
                  Sessions.name := "Casey Wu"; Sessions.role := "founder";
                  Sessions.specialty := None |}.
Proof.
  assert (Hk : Invariants.user_keys_fresh Demo.seeded).
  { intros u Hu. vm_compute in Hu.
    repeat (destruct Hu as [<- | Hu];
            [vm_compute; split; [reflexivity|discriminate]|]).
    destruct Hu. }
  assert (Hseq : Invariants.sequences_started Demo.seeded)
    by (split; vm_compute; discriminate).
  exact (registered_account_signs_in Demo.hashSync Studio.compareSync
           Demo.seeded "Casey Wu" "Casey@Demo.com" "Passw0rd!" "CASEY@demo.com"
           Hk Hseq ltac:(discriminate) ltac:(discriminate)
           ltac:(vm_compute; lia) eq_refl eq_refl
           ltac:(vm_compute; reflexivity) ltac:(vm_compute; reflexivity)
           ltac:(vm_compute; reflexivity)).
Defined.

(** ** Posting a board note *)

Section Posting.
Import Database Routes Invariants JsText.

Lemma no_text_blank (t : string) : no_text (Some t) = blank t.
Proof.
  unfold no_text, Js.falsy.
  destruct (blank t) eqn:B.
  - apply trimStart_blank, trim_empty in B. rewrite B.
    apply orb_true_r.
  - destruct (String.eqb_spec t "") as [->|_]; [discriminate|].
    destruct (String.eqb_spec (trim t) "") as [E|_]; [|reflexivity].
    apply trim_empty, trimStart_blank in E. congruence.
Qed.

Lemma next_key_above (keys : list Z) (k : Z) :
  In k keys -> k < Notes.next_key keys.
Proof.
  unfold Notes.next_key. induction keys as [|a keys IH]; simpl; [tauto|].
  intros [<- | H]; [lia|]. specialize (IH H). lia.
Qed.

Lemma order_by_asc_snoc_perm {A : Type} (key : A -> Z) (l : list A) (x : A) :
  Permutation (order_by_asc key (l ++ [x])) (x :: order_by_asc key l).
Proof.
  rewrite order_by_asc_perm, (order_by_asc_perm key l).
  symmetry. apply Permutation_cons_append.
Qed.

Lemma notes_with_author_snoc (db : Db) (row : BoardNotes.row) (u : Users.row) :
  user_by_id db (BoardNotes.user_id row) = Some u ->
  notes_with_author (Notes.with_board_notes db (board_notes db ++ [row]))
  = notes_with_author db ++ [(row, Users.name u)].
Proof.
  intros Hu. unfold notes_with_author. cbn [board_notes Notes.with_board_notes].
  rewrite flat_map_app. cbn [flat_map].
  change (user_by_id (Notes.with_board_notes db (board_notes db ++ [row])))
    with (user_by_id db).
  rewrite Hu. reflexivity.
Qed.

(** No note is read back under [lastInsertRowid] when every key is
    above it. *)
Lemma note_by_id_lost (db : Db) :
  (forall n, In n (board_notes db) -> 0 < BoardNotes.id n) ->
  Notes.note_by_id db lastInsertRowid = None.
Proof.
  intros Hpos. unfold Notes.note_by_id. apply find_all_false.
  intros [n a] Hn. cbn [fst].
  unfold notes_with_author in Hn. apply in_flat_map in Hn as (n' & Hn' & Hin).
  destruct (user_by_id db (BoardNotes.user_id n')); [|destruct Hin].
  destruct Hin as [Hin|[]]. injection Hin as <- _.
  specialize (Hpos n' Hn'). unfold lastInsertRowid. lia.
Qed.

Lemma next_key_positive (keys : list Z) : 0 < Notes.next_key keys.
Proof.
  unfold Notes.next_key.
  assert (0 <= fold_right Z.max 0 keys); [|lia].
  induction keys as [|a keys IH]; simpl; lia.
Qed.

(** X5. A note a board member posts with a text that is not blank is
    stored under a key above every stored one, whether or not the
    submission exists, and the answer is 201 with no note in it: the
    note is read back under [lastInsertRowid], where none is. When the
    author has a user row, the note is from then on among those every
    reader other than a founder gets for the submission, a founder gets
    it only if it was posted as founder-visible, and the notes of other
    submissions are as before. *)
Theorem posted_note_is_read_back (db : Db) (actor : Auth.ReqUser) (sid : Z)
        (t : string) (fv : bool) (now : Z) :
  Auth.role actor = "board" \/ Auth.role actor = "admin" ->
  blank t = false ->
  (forall n, In n (board_notes db) -> 0 < BoardNotes.id n) ->
  let row := {| BoardNotes.id := Notes.next_key (map BoardNotes.id (board_notes db));
                BoardNotes.submission_id := sid;
                BoardNotes.user_id := Auth.id actor;
                BoardNotes.text := t;
                BoardNotes.founder_visible := if fv then 1 else 0;
                BoardNotes.created_at := now |} in
  let out := Notes.post_note db actor sid (Some t) fv now in
  res out = Json Created None
  /\ board_notes (store out) = board_notes db ++ [row]
  /\ (forall n, In n (board_notes db) -> BoardNotes.id n < BoardNotes.id row)
  /\ forall author,
      user_by_id db (Auth.id actor) = Some author ->
      (forall reader,
          Auth.role reader <> "founder" \/ fv = true ->
          Permutation (select_notes (store out) reader sid)
                      ((row, Users.name author) :: select_notes db reader sid))
      /\ (forall reader,
             Auth.role reader = "founder" -> fv = false ->
             select_notes (store out) reader sid = select_notes db reader sid)
      /\ (forall reader sid',
             sid' <> sid ->
             select_notes (store out) reader sid' = select_notes db reader sid').
Proof.
  intros Hrole Hb Hpos row out.
  assert (Hout : out = reply (Json Created None)
                             (Notes.with_board_notes db (board_notes db ++ [row]))
                             []).
  { unfold out, Notes.post_note, guarded.
    rewrite (requireRole_passes "board" actor Hrole), no_text_blank, Hb.
    unfold Notes.insert_note. fold row.
    rewrite note_by_id_lost; [reflexivity|].
    cbn [board_notes Notes.with_board_notes]. intros n Hn.
    apply in_app_iff in Hn. destruct Hn as [Hn|[<-|[]]]; [exact (Hpos n Hn)|].
    apply next_key_positive. }
  rewrite Hout. cbn [res store reply].
  split; [reflexivity|]. split; [reflexivity|]. split.
  { intros n Hn. apply next_key_above. apply in_map. exact Hn. }
  intros author Hu.
  assert (Hsel : forall reader sid',
             select_notes (Notes.with_board_notes db (board_notes db ++ [row]))
                          reader sid'
             = order_by_asc (fun nv => BoardNotes.created_at (fst nv))
                 (filter (fun nv => (BoardNotes.submission_id (fst nv) =? sid')
                                    && noteCondition reader (fst nv))
                         (notes_with_author db)
                  ++ (if (sid =? sid') && noteCondition reader row
                      then [(row, Users.name author)] else []))).
  { intros reader sid'. unfold select_notes.
    rewrite (notes_with_author_snoc db row author Hu), filter_app.
    reflexivity. }
  split; [|split].
  - intros reader Hvis. rewrite Hsel, Z.eqb_refl.
    assert (noteCondition reader row = true) as ->.
    { unfold noteCondition. destruct (String.eqb_spec (Auth.role reader) "founder") as [E|E].
      - destruct Hvis as [Hvis| ->]; [contradiction|reflexivity].
      - reflexivity. }
    apply order_by_asc_snoc_perm.
  - intros reader Hf Hfv. rewrite Hsel.
    assert (noteCondition reader row = false) as ->.
    { unfold noteCondition, row. cbn [BoardNotes.founder_visible].
      rewrite Hf, Hfv. reflexivity. }
    rewrite andb_false_r, app_nil_r. reflexivity.
  - intros reader sid' Hne. rewrite Hsel.
    assert ((sid =? sid') = false) as -> by lia.
    rewrite app_nil_r. reflexivity.
Qed.
End Posting.

Lemma posted_note_is_read_back_witness :
  Routes.res (Notes.post_note Demo.db Demo.james 99
                              (Some " Internal: call the pilot telcos ")
                              false 20260306)
  = Json Created None
  /\ Database.board_notes
       (Routes.store (Notes.post_note Demo.db Demo.james 99
                        (Some " Internal: call the pilot telcos ") false 20260306))
     = Database.board_notes Demo.db
       ++ [{| BoardNotes.id := 5; BoardNotes.submission_id := 99;
              BoardNotes.user_id := 3;
              BoardNotes.text := " Internal: call the pilot telcos ";
              BoardNotes.founder_visible := 0;
              BoardNotes.created_at := 20260306 |}]
  /\ Routes.select_notes
       (Routes.store (Notes.post_note Demo.db Demo.james 1
                        (Some " Internal: call the pilot telcos ") false 20260306))
       Demo.alex 1
     = Routes.select_notes Demo.db Demo.alex 1.
Proof.
  assert (Hpos : forall n, In n (Database.board_notes Demo.db) -> 0 < BoardNotes.id n).
  { intros n Hn. vm_compute in Hn.
    repeat (destruct Hn as [<- | Hn]; [reflexivity|]). destruct Hn. }
  assert (Hu : Database.user_by_id Demo.db (Auth.id Demo.james)
               = Some (Seed.seed_user Demo.hashSync 3 "james@partner.io"
                                      "James Morrow" "board" (Some "FinTech & SaaS")))
    by (vm_compute; reflexivity).
  destruct (posted_note_is_read_back Demo.db Demo.james 99
              " Internal: call the pilot telcos " false 20260306
              (or_introl eq_refl) ltac:(vm_compute; reflexivity) Hpos)
    as (Hres & Hrows & _).
  destruct (posted_note_is_read_back Demo.db Demo.james 1
              " Internal: call the pilot telcos " false 20260306
              (or_introl eq_refl) ltac:(vm_compute; reflexivity) Hpos)
    as (_ & _ & _ & Hread).
  destruct (Hread _ Hu) as (_ & Hfounder & _).
  split; [exact Hres|]. split.
  - rewrite Hrows. vm_compute. reflexivity.
  - exact (Hfounder Demo.alex eq_refl eq_refl).
Defined.

(** ** Text fields are checked first *)

Section BlankText.
Import Database Routes JsText Workspace.

(** X6. A text made of white space only is refused with 400 by the four
    routes that take one (notes, the discussion thread, the partnership
    chat and the shared links), before the submission is looked up or
    the caller's access is decided, and nothing is written. *)
Theorem blank_text_is_refused (s : Store) (actor : Auth.ReqUser) (sid : Z)
        (t : string) (fv : bool) (title : option string) (now : Z) :
  blank t = true ->
  (Auth.role actor = "board" \/ Auth.role actor = "admin" ->
   Notes.post_note (base s) actor sid (Some t) fv now
   = reply (Fail BadRequest "Note text is required") (base s) [])
  /\ post_chat s actor sid (Some t) now
     = finish (Fail BadRequest "Message text is required") s []
  /\ post_partnership_chat s actor sid (Some t) now
     = finish (Fail BadRequest "Message text is required") s []
  /\ post_shared_link s actor sid (Some t) title now
     = finish (Fail BadRequest "URL is required") s [].
Proof.
  intros Hb. pose proof (no_text_blank t) as Hn. rewrite Hb in Hn.
  split; [|split; [|split]].
  - intros Hrole. unfold Notes.post_note, guarded.
    rewrite (requireRole_passes "board" actor Hrole), Hn. reflexivity.
  - unfold post_chat. rewrite Hn. reflexivity.
  - unfold post_partnership_chat. rewrite Hn. reflexivity.
  - unfold post_shared_link. rewrite Hn. reflexivity.
Qed.
End BlankText.

Lemma blank_text_is_refused_witness :
  Workspace.post_chat Studio.studio Demo.alex 1 (Some "   ") 202603061200
  = Workspace.finish (Fail BadRequest "Message text is required") Studio.studio []
  /\ Workspace.post_partnership_chat Studio.studio Demo.david 99 (Some "   ")
                                     202603061200
     = Workspace.finish (Fail BadRequest "Message text is required")
                        Studio.studio [].
Proof.
  destruct (blank_text_is_refused Studio.studio Demo.alex 1 "   " false None
              202603061200 eq_refl) as (_ & H & _).
  destruct (blank_text_is_refused Studio.studio Demo.david 99 "   " false None
              202603061200 eq_refl) as (_ & _ & H' & _).
  split; [exact H|exact H'].
Defined.

(** ** Withdrawing and status changes *)

Section Settled.
Import Database Routes Invariants.

Lemma with_partnerships_same (db : Db) :
  with_partnerships db (partnerships db) (partnerships_seq db) = db.
Proof. destruct db; reflexivity. Qed.

(** X7. [DELETE /submissions/:id/partner] withdraws pending claims
    only: when the caller has no row for the submission, or the row has
    been accepted or declined, the answer is 400 and the store is left
    as it was. *)
Theorem withdraw_needs_a_pending_claim (db : Db) (actor : Auth.ReqUser)
        (sid : Z) :
  pairs_unique db ->
  Auth.role actor = "board" \/ Auth.role actor = "admin" ->
  partnership_of db sid (Auth.id actor) = None
  \/ (exists p, partnership_of db sid (Auth.id actor) = Some p
                /\ Partnerships.status p <> "pending") ->
  withdraw db actor sid
  = reply (Fail BadRequest "No pending partnership to withdraw") db [].
Proof.
  intros Hu Hrole Hrow.
  assert (Hnone : forall q, In q (partnerships db) ->
                            withdrawable sid (Auth.id actor) q = false).
  { intros q Hq. unfold withdrawable.
    destruct ((Partnerships.submission_id q =? sid)
              && (Partnerships.user_id q =? Auth.id actor)) eqn:E; [|reflexivity].
    apply andb_true_iff in E as [E1 E2].
    apply Z.eqb_eq in E1, E2.
    pose proof (partnership_of_in db q Hq) as Hin. rewrite E1, E2 in Hin.
    destruct Hrow as [Hrow | (p & Hp & Hst)]; [congruence|].
    destruct (partnership_of_some db _ _ p Hp) as (Hpin & Hp1 & Hp2).
    assert (q = p).
    { apply (NoDup_map_key pair_of (partnerships db)); auto.
      unfold pair_of. congruence. }
    subst q. cbn [andb].
    destruct (String.eqb_spec (Partnerships.status p) "pending");
      [contradiction|reflexivity]. }
  unfold withdraw, guarded, delete_pending.
  rewrite (requireRole_passes "board" actor Hrole).
  change (changes =? 0) with true. cbv iota.
  rewrite filter_all.
  - rewrite with_partnerships_same. reflexivity.
  - intros q Hq. rewrite (Hnone q Hq). reflexivity.
Qed.

(** X28. [DELETE /submissions/:id/partner] never answers 200: [run]
    hands back [changes] 0 whatever the statement deleted, so the
    withdrawal of one's pending claim deletes the row, and no other,
    and is answered 400 like one that finds no pending row. *)
Theorem withdrawal_is_answered_as_a_failure (db : Db) (actor : Auth.ReqUser)
        (sid : Z) :
  (exists code msg, res (withdraw db actor sid) = Fail code msg)
  /\ outbox (withdraw db actor sid) = []
  /\ forall p,
      consistent db ->
      Auth.role actor = "board" \/ Auth.role actor = "admin" ->
      partnership_of db sid (Auth.id actor) = Some p ->
      Partnerships.status p = "pending" ->
      res (withdraw db actor sid)
      = Fail BadRequest "No pending partnership to withdraw"
      /\ ~ In p (partnerships (store (withdraw db actor sid)))
      /\ (forall q, In q (partnerships db) -> q <> p ->
                     In q (partnerships (store (withdraw db actor sid)))).
Proof.
  split; [|split].
  - unfold withdraw, guarded.
    destruct (Auth.requireRole "board" actor); cbn [res reply]; [eauto|].
    unfold delete_pending. change (changes =? 0) with true. cbv iota.
    cbn [res reply]. eauto.
  - unfold withdraw, guarded.
    destruct (Auth.requireRole "board" actor); reflexivity.
  - intros p Hc Hrole Hp Hst.
    destruct (withdraw_pending db actor sid p Hc Hrole Hp Hst)
      as (Hw & Hgone & Hkept & _).
    rewrite Hw. cbn [res store reply]. auto.
Qed.

(** X8. A status change of a submission that exists sets its status
    whatever the status was, leaves every other submission as it was,
    and hands the mailer exactly one mail, addressed to the owner. *)
Theorem status_change_mails_the_owner (db : Db) (actor : Auth.ReqUser)
        (sid : Z) (st : string) (S : Submissions.row) (owner : Users.row) :
  Auth.role actor = "board" \/ Auth.role actor = "admin" ->
  In st valid ->
  submission_by_id db sid = Some S ->
  user_by_id db (Submissions.user_id S) = Some owner ->
  patch_status db actor sid (Some st)
  = reply (Json OK st) (update_status db st sid)
          [{| rcpt := Users.email owner; template := "statusChange" |}]
  /\ submission_by_id (update_status db st sid) sid
     = Some (Submissions.set_status st S)
  /\ (forall sid', sid' <> sid ->
                   submission_by_id (update_status db st sid) sid'
                   = submission_by_id db sid').
Proof.
  intros Hrole Hst Hsub Hown.
  assert (Hnew : submission_by_id (update_status db st sid) sid
                 = Some (Submissions.set_status st S)).
  { rewrite submission_by_id_status, Hsub. cbn [option_map].
    rewrite (submission_by_id_key db sid S Hsub), Z.eqb_refl. reflexivity. }
  split; [|split].
  - unfold patch_status, guarded.
    rewrite (requireRole_passes "board" actor Hrole), (includes_valid st Hst).
    cbn [negb]. rewrite Hnew. cbn [Submissions.set_status Submissions.user_id].
    change (user_by_id (update_status db st sid)) with (user_by_id db).
    rewrite Hown. reflexivity.
  - exact Hnew.
  - intros sid' Hne. rewrite submission_by_id_status.
    destruct (submission_by_id db sid') as [S'|] eqn:E; [|reflexivity].
    cbn [option_map]. rewrite (submission_by_id_key db sid' S' E).
    assert ((sid' =? sid) = false) as -> by lia. reflexivity.
Qed.

Lemma includes_valid_inv (st : string) :
  Js.includes valid (Some st) = true -> In st valid.
Proof.
  unfold Js.includes. intros H. apply existsb_exists in H as (v & Hv & E).
  apply String.eqb_eq in E. subst v. exact Hv.
Qed.

(** X9. [PATCH /submissions/:id/status] answers 200 to a board member
    exactly for the five statuses of the schema, and leaves the store
    as it was for any other. *)
Theorem status_route_takes_the_five_statuses (db : Db) (actor : Auth.ReqUser)
        (sid : Z) (status : option string) :
  Auth.role actor = "board" \/ Auth.role actor = "admin" ->
  (status_code (res (patch_status db actor sid status)) = OK
   <-> exists st, status = Some st /\ Submissions.check_status st = true)
  /\ (status_code (res (patch_status db actor sid status)) <> OK ->
      patch_status db actor sid status
      = reply (Fail BadRequest "Invalid status") db []).
Proof.
  intros Hrole. unfold patch_status, guarded.
  rewrite (requireRole_passes "board" actor Hrole).
  destruct status as [st|].
  - destruct (Js.includes valid (Some st)) eqn:E; cbn [negb res reply status_code].
    + split; [|intros H; exfalso; apply H; reflexivity].
      split; [|reflexivity]. intros _. exists st. split; [reflexivity|].
      apply includes_valid_inv in E. simpl in E.
      destruct E as [<-|[<-|[<-|[<-|[<-|[]]]]]]; reflexivity.
    + split; [|reflexivity]. split; [discriminate|].
      intros (st' & Hst & Hc). injection Hst as <-.
      exfalso. unfold Submissions.check_status in Hc.
      assert (In st valid).
      { repeat (apply orb_true_iff in Hc as [Hc|Hc]);
          apply String.eqb_eq in Hc; subst st; simpl; tauto. }
      rewrite (includes_valid st H) in E. discriminate.
  - cbn [res reply status_code]. split; [|reflexivity].
    split; [discriminate|]. intros (st' & Hst & _). discriminate.
Qed.
End Settled.

Lemma withdraw_needs_a_pending_claim_witness :
  Routes.withdraw Demo.answered Demo.james 1
  = Routes.reply (Fail BadRequest "No pending partnership to withdraw")
                 Demo.answered []
  /\ Routes.withdraw Demo.answered Demo.david 1
     = Routes.reply (Fail BadRequest "No pending partnership to withdraw")
                    Demo.answered [].
Proof.
  assert (Hu : Invariants.pairs_unique Demo.answered).
  { apply (Invariants.has_pairs_unique Demo.answered).
    apply (consistent_serve_all Demo.hashSync).
    apply (consistent_serve_all Demo.hashSync).
    apply (consistent_serve Demo.hashSync).
    apply consistent_seeded. }
  split.
  - apply (withdraw_needs_a_pending_claim Demo.answered Demo.james 1 Hu
             (or_introl eq_refl)).
    right. eexists. split; [vm_compute; reflexivity|]. cbn. discriminate.
  - apply (withdraw_needs_a_pending_claim Demo.answered Demo.david 1 Hu
             (or_introl eq_refl)).
    left. vm_compute. reflexivity.
Defined.

Lemma withdrawal_is_answered_as_a_failure_witness :
  Routes.res (Routes.withdraw Demo.full Demo.aisha 1)
  = Fail BadRequest "No pending partnership to withdraw"
  /\ map Partnerships.id
       (Database.partnerships (Routes.store (Routes.withdraw Demo.full Demo.aisha 1)))
     = [1; 2].
Proof.
  assert (Hfull : Invariants.consistent Demo.full).
  { apply (consistent_serve_all Demo.hashSync Demo.three_claims).
    apply (consistent_serve Demo.hashSync).
    apply consistent_seeded. }
  destruct (withdrawal_is_answered_as_a_failure Demo.full Demo.aisha 1)
    as (_ & _ & H).
  destruct (H {| Partnerships.id := 3; Partnerships.submission_id := 1;
                 Partnerships.user_id := 4; Partnerships.status := "pending";
                 Partnerships.created_at := 20260303;
                 Partnerships.responded_at := None |}
              Hfull (or_introl eq_refl) ltac:(vm_compute; reflexivity) eq_refl)
    as (Hres & _).
  split; [exact Hres|]. vm_compute. reflexivity.
Defined.

Lemma status_change_mails_the_owner_witness :
  Routes.outbox (Routes.patch_status Demo.db Demo.sarah 3 (Some "new"))
  = [{| Routes.rcpt := "founder@demo.com"; Routes.template := "statusChange" |}]
  /\ option_map Submissions.status
       (Database.submission_by_id
          (Routes.store (Routes.patch_status Demo.db Demo.sarah 3 (Some "new"))) 3)
     = Some "new".
Proof.
  assert (Hsub : exists S, Database.submission_by_id Demo.db 3 = Some S
                           /\ Submissions.user_id S = 1)
    by (vm_compute; eexists; split; reflexivity).
  destruct Hsub as (S & Hsub & Hown).
  assert (Hu : Database.user_by_id Demo.db (Submissions.user_id S)
               = Some (Seed.seed_user Demo.hashSync 1 "founder@demo.com"
                                      "Alex Chen" "founder" None))
    by (rewrite Hown; vm_compute; reflexivity).
  destruct (status_change_mails_the_owner Demo.db Demo.sarah 3 "new" S _
              (or_introl eq_refl) (or_introl eq_refl) Hsub Hu) as (H & Hnew & _).
  rewrite H. cbn [Routes.outbox Routes.store Routes.reply]. rewrite Hnew.
  split; reflexivity.
Defined.

Lemma status_route_takes_the_five_statuses_witness :
  Routes.patch_status Demo.db Demo.sarah 1 (Some "archived")
  = Routes.reply (Fail BadRequest "Invalid status") Demo.db [].
Proof.
  apply (status_route_takes_the_five_statuses Demo.db Demo.sarah 1
           (Some "archived") (or_introl eq_refl)).
  vm_compute. discriminate.
Defined.

(** ** Tags *)

Section Tagging.
Import Database Routes Workspace.

Lemma with_tagged_same (s : Store) :
  with_tagged s (tagged_members s) (tagged_seq s) = s.
Proof. destruct s; reflexivity. Qed.

Lemma find_filter_keeping {A : Type} (f g : A -> bool) (l : list A) :
  (forall x, f x = true -> g x = true) -> find f (filter g l) = find f l.
Proof.
  intros H. induction l as [|x l IH]; simpl; [reflexivity|].
  destruct (g x) eqn:G; simpl.
  - rewrite IH. reflexivity.
  - destruct (f x) eqn:F; [|exact IH]. rewrite (H x F) in G. discriminate.
Qed.

Lemma tagged_once (l : list TaggedMembers.row) (t : TaggedMembers.row) :
  NoDup (map tag_pair l) -> In t l ->
  List.length (filter (fun x => (TaggedMembers.submission_id x
                                 =? TaggedMembers.submission_id t)
                                && (TaggedMembers.user_id x
                                    =? TaggedMembers.user_id t)) l)
  = 1%nat.
Proof.
  induction l as [|y l IH]; simpl; [tauto|].
  intros Hnd Hin. inversion Hnd as [|? ? Hy Hl]; subst.
  destruct Hin as [-> | Hin].
  - rewrite !Z.eqb_refl. cbn [andb List.length]. f_equal.
    rewrite filter_nothing; [reflexivity|].
    intros x Hx. destruct ((TaggedMembers.submission_id x
                            =? TaggedMembers.submission_id t)
                           && (TaggedMembers.user_id x
                               =? TaggedMembers.user_id t)) eqn:E; [|reflexivity].
    exfalso. apply Hy. apply andb_true_iff in E as [E1 E2].
    apply Z.eqb_eq in E1, E2.
    replace (tag_pair t) with (tag_pair x) by (unfold tag_pair; congruence).
    apply in_map. exact Hx.
  - destruct ((TaggedMembers.submission_id y =? TaggedMembers.submission_id t)
              && (TaggedMembers.user_id y =? TaggedMembers.user_id t)) eqn:E.
    + exfalso. apply Hy. apply andb_true_iff in E as [E1 E2].
      apply Z.eqb_eq in E1, E2.
      replace (tag_pair y) with (tag_pair t) by (unfold tag_pair; congruence).
      apply in_map. exact Hin.
    + exact (IH Hl Hin).
Qed.

Lemma insert_or_ignore_tag_some (s : Store) (sid uid tagger : Z) :
  tags_unique s ->
  tags_unique (insert_or_ignore_tag s sid uid tagger)
  /\ (exists t, tag_of (insert_or_ignore_tag s sid uid tagger) sid uid = Some t)
  /\ base (insert_or_ignore_tag s sid uid tagger) = base s.
Proof.
  intros Hu. unfold insert_or_ignore_tag.
  destruct (tag_of s sid uid) as [t|] eqn:Ht.
  - split; [exact Hu|]. split; [|reflexivity].
    exists t. exact Ht.
  - split; [|split; [|reflexivity]].
    + unfold tags_unique. cbn [tagged_members with_tagged].
      apply NoDup_map_snoc; [exact Hu|].
      intros Hin. apply in_map_iff in Hin as (x & Hx & Hxin).
      unfold tag_of in Ht. pose proof (find_none _ _ Ht x Hxin) as Hf.
      cbn beta in Hf. unfold tag_pair in Hx. cbn in Hx. injection Hx as E1 E2.
      rewrite E1, E2, !Z.eqb_refl in Hf. discriminate.
    + eexists. unfold tag_of in *. cbn [tagged_members with_tagged].
      rewrite (find_app_none _ _ _ Ht). cbn [find TaggedMembers.submission_id
                                              TaggedMembers.user_id].
      rewrite !Z.eqb_refl. reflexivity.
Qed.

(** X10. Tagging is idempotent on the rows: [POST /submissions/:id/tag]
    by a board member answers 200 for any member identifier other than
    0, whether or not a submission or a user has the identifiers;
    afterwards the table holds exactly one row for the pair, and any
    board member tagging the same pair again is answered 200 with
    every row left as it is. The ignored insert still takes a key:
    the sequence of the table is one further. *)
Theorem tagging_is_idempotent (s : Store) (a a' : Auth.ReqUser) (sid uid : Z) :
  tags_unique s ->
  Auth.role a = "board" \/ Auth.role a = "admin" ->
  Auth.role a' = "board" \/ Auth.role a' = "admin" ->
  uid <> 0 ->
  answer (tag s a sid (Some uid)) = Json OK tt
  /\ answer (tag (after (tag s a sid (Some uid))) a' sid (Some uid)) = Json OK tt
  /\ tagged_members (after (tag (after (tag s a sid (Some uid))) a' sid (Some uid)))
     = tagged_members (after (tag s a sid (Some uid)))
  /\ base (after (tag (after (tag s a sid (Some uid))) a' sid (Some uid)))
     = base s
  /\ tagged_seq (after (tag (after (tag s a sid (Some uid))) a' sid (Some uid)))
     = tagged_seq (after (tag s a sid (Some uid))) + 1
  /\ tags_unique (after (tag s a sid (Some uid)))
  /\ List.length (filter (fun t => (TaggedMembers.submission_id t =? sid)
                                   && (TaggedMembers.user_id t =? uid))
                         (tagged_members (after (tag s a sid (Some uid)))))
     = 1%nat.
Proof.
  intros Hu Hrole Hrole' Hne.
  assert (E0 : (uid =? 0) = false) by lia.
  assert (Htag : forall s0 b, Auth.role b = "board" \/ Auth.role b = "admin" ->
                   tag s0 b sid (Some uid)
                   = finish (Json OK tt)
                            (insert_or_ignore_tag s0 sid uid (Auth.id b)) []).
  { intros s0 b Hb. unfold tag, behind.
    rewrite (requireRole_passes "board" b Hb). cbn [falsy_id]. rewrite E0.
    reflexivity. }
  rewrite (Htag s a Hrole). cbn [answer after finish].
  rewrite (Htag _ a' Hrole'). cbn [answer after finish].
  destruct (insert_or_ignore_tag_some s sid uid (Auth.id a) Hu)
    as (Hu1 & (t & Ht) & Hbase).
  split; [reflexivity|]. split; [reflexivity|].
  assert (Hagain : insert_or_ignore_tag (insert_or_ignore_tag s sid uid (Auth.id a))
                                        sid uid (Auth.id a')
                   = with_tagged (insert_or_ignore_tag s sid uid (Auth.id a))
                       (tagged_members (insert_or_ignore_tag s sid uid (Auth.id a)))
                       (tagged_seq (insert_or_ignore_tag s sid uid (Auth.id a)) + 1)).
  { unfold insert_or_ignore_tag at 1. rewrite Ht. reflexivity. }
  rewrite Hagain. cbn [tagged_members tagged_seq base with_tagged].
  split; [reflexivity|]. split; [exact Hbase|]. split; [reflexivity|].
  split; [exact Hu1|].
  unfold tag_of in Ht. destruct (find_some _ _ Ht) as [Hin Hm].
  apply andb_true_iff in Hm as [E1 E2]. apply Z.eqb_eq in E1, E2.
  pose proof (tagged_once _ t Hu1 Hin) as Honce.
  rewrite E1, E2 in Honce. exact Honce.
Qed.

(** X11. Removing a tag is answered 200 whether the tag exists or not:
    afterwards the pair has no row, every other pair has the row it
    had, and when the pair had none the store is left as it was. *)
Theorem untagging_removes_the_pair (s : Store) (actor : Auth.ReqUser)
        (sid uid : Z) :
  Auth.role actor = "board" \/ Auth.role actor = "admin" ->
  answer (untag s actor sid uid) = Json OK tt
  /\ tag_of (after (untag s actor sid uid)) sid uid = None
  /\ (forall sid' uid',
         sid' <> sid \/ uid' <> uid ->
         tag_of (after (untag s actor sid uid)) sid' uid' = tag_of s sid' uid')
  /\ (tag_of s sid uid = None -> after (untag s actor sid uid) = s)
  /\ (tags_unique s -> tags_unique (after (untag s actor sid uid))).
Proof.
  intros Hrole. unfold untag, behind.
  rewrite (requireRole_passes "board" actor Hrole). cbn [answer after finish].
  split; [reflexivity|]. split; [|split; [|split]].
  - unfold tag_of. cbn [tagged_members with_tagged].
    apply find_all_false. intros x Hx. apply filter_In in Hx as [_ Hx].
    apply negb_true_iff in Hx. exact Hx.
  - intros sid' uid' Hne. unfold tag_of. cbn [tagged_members with_tagged].
    apply find_filter_keeping. intros x Hx.
    apply andb_true_iff in Hx as [E1 E2]. apply Z.eqb_eq in E1, E2.
    apply negb_true_iff, andb_false_iff.
    destruct Hne as [Hne|Hne]; [left|right]; lia.
  - intros Hnone. unfold tag_of in Hnone. rewrite filter_all.
    + apply with_tagged_same.
    + intros x Hx. rewrite (find_none _ _ Hnone x Hx). reflexivity.
  - unfold tags_unique. cbn [tagged_members with_tagged].
    apply NoDup_map_filter.
Qed.
End Tagging.

Lemma tagging_is_idempotent_witness :
  Workspace.answer
    (Workspace.tag (Workspace.after (Workspace.tag Studio.studio Demo.sarah 2 (Some 5)))
                   Demo.james 2 (Some 5))
  = Json OK tt
  /\ Workspace.tagged_members
       (Workspace.after
          (Workspace.tag (Workspace.after (Workspace.tag Studio.studio Demo.sarah 2 (Some 5)))
                         Demo.james 2 (Some 5)))
     = Workspace.tagged_members Studio.studio
       ++ [{| TaggedMembers.id := 3; TaggedMembers.submission_id := 2;
              TaggedMembers.user_id := 5; TaggedMembers.tagged_by := 2 |}]
  /\ Workspace.tagged_seq
       (Workspace.after
          (Workspace.tag (Workspace.after (Workspace.tag Studio.studio Demo.sarah 2 (Some 5)))
                         Demo.james 2 (Some 5)))
     = 4.
Proof.
  assert (Hu : Workspace.tags_unique Studio.studio).
  { unfold Workspace.tags_unique. vm_compute.
    repeat constructor; simpl; intuition discriminate. }
  destruct (tagging_is_idempotent Studio.studio Demo.sarah Demo.james 2 5 Hu
              (or_introl eq_refl) (or_introl eq_refl) ltac:(discriminate))
    as (_ & H1 & H2 & _ & H3 & _).
  split; [exact H1|]. split.
  - rewrite H2. vm_compute. reflexivity.
  - rewrite H3. vm_compute. reflexivity.
Defined.

Lemma untagging_removes_the_pair_witness :
  Workspace.tag_of (Workspace.after (Workspace.untag Studio.studio Demo.sarah 1 3)) 1 3
  = None
  /\ Workspace.after (Workspace.untag Studio.studio Demo.sarah 2 3) = Studio.studio.
Proof.
  destruct (untagging_removes_the_pair Studio.studio Demo.sarah 1 3
              (or_introl eq_refl)) as (_ & H & _).
  destruct (untagging_removes_the_pair Studio.studio Demo.sarah 2 3
              (or_introl eq_refl)) as (_ & _ & _ & H' & _).
  split; [exact H|]. apply H'. vm_compute. reflexivity.
Defined.

(** ** The discussion thread *)

Section Thread.
Import Database Routes JsText Workspace.

Lemma submission_with_founder_key (db : Db) (sid : Z) (sub : Submissions.row)
      (fname : string) :
  submission_with_founder db sid = Some (sub, fname) -> Submissions.id sub = sid.
Proof.
  unfold submission_with_founder. intros H.
  destruct (find_some _ _ H) as [_ E]. cbn [fst] in E. lia.
Qed.

(** X12. A founder posts to the thread of an own submission only: on a
    submission of someone else, and on an identifier no submission has,
    [POST /submissions/:id/chat] answers 403 and writes nothing. *)
Theorem founder_posts_to_own_thread_only (s : Store) (actor : Auth.ReqUser)
        (sid : Z) (t : string) (now : Z) :
  Auth.role actor = "founder" ->
  blank t = false ->
  submission_by_id (base s) sid = None
  \/ (exists sub, submission_by_id (base s) sid = Some sub
                  /\ Submissions.user_id sub <> Auth.id actor) ->
  post_chat s actor sid (Some t) now
  = finish (Fail Forbidden "Access denied") s [].
Proof.
  intros Hrole Hb Hsub. unfold post_chat. rewrite no_text_blank, Hb, Hrole.
  cbn [String.eqb Ascii.eqb Bool.eqb andb].
  destruct Hsub as [-> | (sub & -> & Hne)]; [reflexivity|].
  assert ((Submissions.user_id sub =? Auth.id actor) = false) as -> by lia.
  reflexivity.
Qed.

Lemma count_by_key {T : Type} (key : T -> Z) (k : Z) (l : list T) :
  List.length (filter (fun x => key x =? k) l)
  = count_occ Z.eq_dec (map key l) k.
Proof.
  induction l as [|x l IH]; simpl; [reflexivity|].
  destruct (Z.eq_dec (key x) k) as [E|E].
  - apply Z.eqb_eq in E. rewrite E. simpl. f_equal. exact IH.
  - apply Z.eqb_neq in E. rewrite E. exact IH.
Qed.

(** X13. The thread of a submission is returned by
    [GET /submissions/:id] to board members and to the founder who owns
    it; a caller of any other role, [admin] included, is given an empty
    thread. The list route counts the messages of a submission for
    board members, and reports 0 to every other caller, founders
    included. *)
Theorem thread_is_read_by_board_and_owner (s : Store) (reader : Auth.ReqUser)
        (sid : Z) (d : Detail) :
  get_submission_detail s reader sid = Json OK d ->
  (Auth.role reader = "board" \/ Auth.role reader = "founder" ->
   chat d = select_chat s sid)
  /\ (Auth.role reader <> "board" -> Auth.role reader <> "founder" ->
      chat d = [])
  /\ (Auth.role reader <> "board" ->
      forall sid', chatCount s reader sid' = 0)
  /\ (Auth.role reader = "board" ->
      forall sid',
        chatCount s reader sid'
        = Z.of_nat (count_occ Z.eq_dec
                              (map ChatMessages.submission_id (chat_messages s))
                              sid')).
Proof.
  unfold get_submission_detail, get_submission.
  destruct (submission_with_founder (base s) sid) as [[sub fname]|] eqn:E;
    [|discriminate].
  pose proof (submission_with_founder_key _ _ _ _ E) as Hid.
  destruct ((Auth.role reader =? "founder")%string
            && negb (Submissions.user_id sub =? Auth.id reader)) eqn:G;
    [discriminate|].
  intros H. injection H as <-. cbn [chat submission]. unfold chatMessages, chatCount.
  split; [|split; [|split]].
  - intros [Hr|Hr]; rewrite Hr in *.
    + cbn. rewrite Hid. reflexivity.
    + cbn in G. apply negb_false_iff in G. rewrite G. cbn. rewrite Hid. reflexivity.
  - intros Hb Hf.
    destruct (String.eqb_spec (Auth.role reader) "board"); [contradiction|].
    destruct (String.eqb_spec (Auth.role reader) "founder"); [contradiction|].
    reflexivity.
  - intros Hb sid'.
    destruct (String.eqb_spec (Auth.role reader) "board"); [contradiction|].
    reflexivity.
  - intros Hb sid'. rewrite Hb. cbn [String.eqb Ascii.eqb Bool.eqb].
    rewrite (count_by_key ChatMessages.submission_id). reflexivity.
Qed.

Lemma chat_with_author_snoc (s : Store) (row : ChatMessages.row) (u : Users.row) :
  user_by_id (base s) (ChatMessages.user_id row) = Some u ->
  chat_with_author (with_chat s (chat_messages s ++ [row]))
  = chat_with_author s ++ [(row, Users.name u)].
Proof.
  intros Hu. unfold chat_with_author. cbn [chat_messages with_chat base].
  rewrite flat_map_app. cbn [flat_map]. rewrite Hu. reflexivity.
Qed.

(** No message is read back under [lastInsertRowid] when every key is
    above it. *)
Lemma chat_by_id_lost (s : Store) :
  (forall m, In m (chat_messages s) -> 0 < ChatMessages.id m) ->
  chat_by_id s lastInsertRowid = None.
Proof.
  intros Hpos. unfold chat_by_id. apply find_all_false.
  intros [m a] Hm. cbn [fst].
  unfold chat_with_author in Hm. apply in_flat_map in Hm as (m' & Hm' & Hin).
  destruct (user_by_id (base s) (ChatMessages.user_id m')); [|destruct Hin].
  destruct Hin as [Hin|[]]. injection Hin as <- _.
  specialize (Hpos m' Hm'). unfold lastInsertRowid. lia.
Qed.

(** X14. A message that is not blank, posted to the thread of a
    submission by someone who is not a founder, or by the founder who
    owns the submission, is stored under a key above every stored one,
    and the answer is 201 with no message in it: the message is read
    back under [lastInsertRowid], where none is. When the author has a
    user row, the thread then holds the message with the messages it
    had, oldest first, and the threads of other submissions are as
    before. *)
Theorem posted_message_joins_the_thread (s : Store) (actor : Auth.ReqUser)
        (sid : Z) (t : string) (now : Z) :
  blank t = false ->
  (Auth.role actor = "founder" ->
   exists sub, submission_by_id (base s) sid = Some sub
               /\ Submissions.user_id sub = Auth.id actor) ->
  (forall m, In m (chat_messages s) -> 0 < ChatMessages.id m) ->
  let row := {| ChatMessages.id :=
                  Notes.next_key (map ChatMessages.id (chat_messages s));
                ChatMessages.submission_id := sid;
                ChatMessages.user_id := Auth.id actor;
                ChatMessages.text := t;
                ChatMessages.created_at := now |} in
  let out := post_chat s actor sid (Some t) now in
  answer out = Json Created None
  /\ after out = with_chat s (chat_messages s ++ [row])
  /\ (forall m, In m (chat_messages s) -> ChatMessages.id m < ChatMessages.id row)
  /\ Sorted (ascending (fun mv => ChatMessages.created_at (fst mv)))
            (select_chat (after out) sid)
  /\ forall author,
      user_by_id (base s) (Auth.id actor) = Some author ->
      Permutation (select_chat (after out) sid)
                  ((row, Users.name author) :: select_chat s sid)
      /\ (forall sid', sid' <> sid ->
                       select_chat (after out) sid' = select_chat s sid').
Proof.
  intros Hb Hown Hpos row out.
  assert (Hout : out = finish (Json Created None)
                              (with_chat s (chat_messages s ++ [row])) []).
  { unfold out, post_chat. rewrite no_text_blank, Hb.
    assert ((Auth.role actor =? "founder")%string
            && match submission_by_id (base s) sid with
               | None => true
               | Some sub => negb (Submissions.user_id sub =? Auth.id actor)
               end = false) as ->.
    { destruct (String.eqb_spec (Auth.role actor) "founder") as [E|E];
        [|reflexivity].
      destruct (Hown E) as (sub & -> & ->). rewrite Z.eqb_refl. reflexivity. }
    unfold insert_chat. fold row.
    rewrite chat_by_id_lost; [reflexivity|].
    cbn [chat_messages with_chat]. intros m Hm.
    apply in_app_iff in Hm. destruct Hm as [Hm|[<-|[]]]; [exact (Hpos m Hm)|].
    apply next_key_positive. }
  rewrite Hout. cbn [answer after finish].
  split; [reflexivity|]. split; [reflexivity|]. split.
  { intros m Hm. apply next_key_above. apply in_map. exact Hm. }
  split; [apply order_by_asc_sorted|].
  intros author Hu.
  assert (Hsel : forall sid',
             select_chat (with_chat s (chat_messages s ++ [row])) sid'
             = order_by_asc (fun mv => ChatMessages.created_at (fst mv))
                 (filter (fun mv => ChatMessages.submission_id (fst mv) =? sid')
                         (chat_with_author s)
                  ++ (if sid =? sid' then [(row, Users.name author)] else []))).
  { intros sid'. unfold select_chat.
    rewrite (chat_with_author_snoc s row author Hu), filter_app. reflexivity. }
  split.
  - rewrite Hsel, Z.eqb_refl. apply order_by_asc_snoc_perm.
  - intros sid' Hne. rewrite Hsel.
    assert ((sid =? sid') = false) as -> by lia.
    rewrite app_nil_r. reflexivity.
Qed.
End Thread.

Lemma founder_posts_to_own_thread_only_witness :
  Workspace.post_chat Studio.studio Demo.casey 1 (Some "Hello") 202603061200
  = Workspace.finish (Fail Forbidden "Access denied") Studio.studio []
  /\ Workspace.post_chat Studio.studio Demo.casey 42 (Some "Hello") 202603061200
     = Workspace.finish (Fail Forbidden "Access denied") Studio.studio [].
Proof.
  split.
  - apply (founder_posts_to_own_thread_only Studio.studio Demo.casey 1 "Hello"
             202603061200 eq_refl eq_refl).
    right. eexists. split; [vm_compute; reflexivity|]. cbn. discriminate.
  - apply (founder_posts_to_own_thread_only Studio.studio Demo.casey 42 "Hello"
             202603061200 eq_refl eq_refl).
    left. vm_compute. reflexivity.
Defined.

Lemma thread_is_read_by_board_and_owner_witness :
  exists d, Workspace.get_submission_detail Studio.studio Studio.root 1 = Json OK d
            /\ Workspace.chat d = []
            /\ List.length (Workspace.select_chat Studio.studio 1) = 3%nat.
Proof.
  assert (H : exists d, Workspace.get_submission_detail Studio.studio Studio.root 1
                        = Json OK d)
    by (vm_compute; eexists; reflexivity).
  destruct H as [d Hd]. exists d. split; [exact Hd|].
  destruct (thread_is_read_by_board_and_owner Studio.studio Studio.root 1 d Hd)
    as [_ H].
  split.
  - apply H; cbn; discriminate.
  - vm_compute. reflexivity.
Defined.

Lemma posted_message_joins_the_thread_witness :
  Workspace.answer (Workspace.post_chat Studio.studio Demo.alex 1
                      (Some "Breakdown attached.") 202603061200)
  = Json Created None
  /\ Workspace.chat_messages
       (Workspace.after (Workspace.post_chat Studio.studio Demo.alex 1
                           (Some "Breakdown attached.") 202603061200))
     = Workspace.seed_chats
       ++ [{| ChatMessages.id := 4; ChatMessages.submission_id := 1;
              ChatMessages.user_id := 1;
              ChatMessages.text := "Breakdown attached.";
              ChatMessages.created_at := 202603061200 |}].
Proof.
  assert (Hpos : forall m, In m (Workspace.chat_messages Studio.studio) ->
                           0 < ChatMessages.id m).
  { intros m Hm. vm_compute in Hm.
    repeat (destruct Hm as [<- | Hm]; [reflexivity|]). destruct Hm. }
  destruct (posted_message_joins_the_thread Studio.studio Demo.alex 1
              "Breakdown attached." 202603061200 eq_refl
              ltac:(intros _; vm_compute; eexists; split; reflexivity) Hpos)
    as (H & Hafter & _).
  split; [exact H|]. rewrite Hafter. vm_compute. reflexivity.
Defined.

(** ** Meeting requests *)

Section Meetings.
Import Database Routes JsText Workspace.

(** No request is read back under [lastInsertRowid] when every key is
    above it. *)
Lemma meeting_by_id_lost (s : Store) :
  (forall r, In r (meeting_requests s) -> 0 < MeetingRequests.id r) ->
  meeting_by_id s lastInsertRowid = None.
Proof.
  intros Hpos. unfold meeting_by_id. apply find_all_false.
  intros [[m a] sp] Hm. cbn [fst].
  unfold meetings_with_requester in Hm.
  apply in_flat_map in Hm as (m' & Hm' & Hin).
  destruct (user_by_id (base s) (MeetingRequests.user_id m')); [|destruct Hin].
  destruct Hin as [Hin|[]]. injection Hin as <- _ _.
  specialize (Hpos m' Hm'). unfold lastInsertRowid. lia.
Qed.

(** X15. A meeting request of a board member who has a user row, on a
    submission that exists, writes two rows: the request, and a
    message of the same author in the submission's thread that quotes
    it after the requester's name; a missing or empty message is
    replaced by the standard sentence, in the row and in the quote. The
    request is then read back under [lastInsertRowid], where none is:
    when the owner of the submission has a user row the handler throws
    on it, the answer is 500 and no mail is handed to the mailer; when
    the owner has none, the answer is 201 with no request in it. *)
Theorem meeting_request_posts_to_the_thread (s : Store) (actor : Auth.ReqUser)
        (subId : Z) (message : option string) (m : string) (now : Z)
        (sub : Submissions.row) (requester : Users.row) :
  Auth.role actor = "board" \/ Auth.role actor = "admin" ->
  submission_by_id (base s) subId = Some sub ->
  user_by_id (base s) (Auth.id actor) = Some requester ->
  (forall r, In r (meeting_requests s) -> 0 < MeetingRequests.id r) ->
  (message = Some m /\ m <> EmptyString)
  \/ ((message = None \/ message = Some EmptyString)
      /\ m = "I'd like to schedule a meeting to discuss your submission.") ->
  after (request_meeting s actor subId message now)
  = with_chat
      (with_meetings s
         (meeting_requests s ++
            [{| MeetingRequests.id :=
                  Notes.next_key (map MeetingRequests.id (meeting_requests s));
                MeetingRequests.submission_id := subId;
                MeetingRequests.user_id := Auth.id actor;
                MeetingRequests.message := m;
                MeetingRequests.created_at := now |}]))
      (chat_messages s ++
         [{| ChatMessages.id :=
               Notes.next_key (map ChatMessages.id (chat_messages s));
             ChatMessages.submission_id := subId;
             ChatMessages.user_id := Auth.id actor;
             ChatMessages.text :=
               ("[Meeting Request] " ++ Users.name requester
                ++ " would like to meet: "
                ++ String "034"%char (m ++ String "034"%char EmptyString))%string;
             ChatMessages.created_at := now |}])
  /\ sent (request_meeting s actor subId message now) = []
  /\ (user_by_id (base s) (Submissions.user_id sub) <> None ->
      status_code (answer (request_meeting s actor subId message now))
      = InternalError)
  /\ (user_by_id (base s) (Submissions.user_id sub) = None ->
      answer (request_meeting s actor subId message now) = Json Created None).
Proof.
  intros Hrole Hsub Hu Hpos Hm. unfold request_meeting, behind.
  rewrite (requireRole_passes "board" actor Hrole), Hsub.
  assert (Hmsg : match message with
                 | Some m' => if Js.falsy message then default_message else m'
                 | None => default_message
                 end = m).
  { destruct Hm as [[-> Hne] | [[-> | ->] ->]]; [|reflexivity|reflexivity].
    rewrite (falsy_string m Hne). reflexivity. }
  rewrite Hmsg. unfold insert_meeting, insert_chat.
  cbn [base with_meetings with_chat chat_messages]. rewrite Hu.
  rewrite meeting_by_id_lost.
  - unfold chatText.
    destruct (user_by_id (base s) (Submissions.user_id sub)) as [owner|];
      cbn [answer after sent finish status_code].
    + split; [reflexivity|]. split; [reflexivity|].
      split; [reflexivity|discriminate].
    + split; [reflexivity|]. split; [reflexivity|].
      split; [congruence|reflexivity].
  - cbn [meeting_requests with_chat with_meetings]. intros r Hr.
    apply in_app_iff in Hr. destruct Hr as [Hr|[<-|[]]]; [exact (Hpos r Hr)|].
    apply next_key_positive.
Qed.
End Meetings.

Lemma meeting_request_posts_to_the_thread_witness :
  status_code
    (Workspace.answer (Workspace.request_meeting Studio.studio Demo.sarah 2 None
                         202603061200))
  = InternalError
  /\ Workspace.sent (Workspace.request_meeting Studio.studio Demo.sarah 2 None
                       202603061200)
     = []
  /\ map MeetingRequests.message
       (Workspace.meeting_requests
          (Workspace.after (Workspace.request_meeting Studio.studio Demo.sarah 2
                              None 202603061200)))
     = ["I'd like to schedule a meeting to discuss your submission."]
  /\ map ChatMessages.text
       (Workspace.chat_messages
          (Workspace.after (Workspace.request_meeting Studio.studio Demo.sarah 2
                              None 202603061200)))
     = map ChatMessages.text Workspace.seed_chats
       ++ [("[Meeting Request] Sarah Kingston would like to meet: "
            ++ String "034"%char
                 ("I'd like to schedule a meeting to discuss your submission."
                  ++ String "034"%char EmptyString))%string].
Proof.
  assert (Hsub : exists S, Database.submission_by_id (Workspace.base Studio.studio) 2
                           = Some S /\ Submissions.user_id S = 1)
    by (vm_compute; eexists; split; reflexivity).
  destruct Hsub as (S & Hsub & Hown).
  assert (Hu : Database.user_by_id (Workspace.base Studio.studio) (Auth.id Demo.sarah)
               = Some (Seed.seed_user Demo.hashSync 2 "sarah@partner.io"
                                      "Sarah Kingston" "board"
                                      (Some "Healthcare & BioTech")))
    by (vm_compute; reflexivity).
  destruct (meeting_request_posts_to_the_thread Studio.studio Demo.sarah 2 None
              "I'd like to schedule a meeting to discuss your submission."
              202603061200 S _
              (or_introl eq_refl) Hsub Hu ltac:(intros r [])
              (or_intror (conj (or_introl eq_refl) eq_refl)))
    as (Hafter & Hsent & Hcode & _).
  split; [|split; [exact Hsent|]].
  - apply Hcode. rewrite Hown. vm_compute. discriminate.
  - rewrite Hafter.
    cbn [Workspace.after Workspace.chat_messages Workspace.meeting_requests
         Workspace.with_chat Workspace.with_meetings].
    split.
    + vm_compute. reflexivity.
    + rewrite map_app. vm_compute. reflexivity.
Defined.

(** ** Partnerships, read *)

Section OrderByDescFacts.
Context {A : Type} (key : A -> Z).

Lemma insert_desc_hd (x a : A) (l : list A) :
  key x <= key a -> HdRel (Workspace.descending key) a l ->
  HdRel (Workspace.descending key) a (Database.insert_desc key x l).
Proof.
  intros Hxa Hhd. destruct l as [|y l]; simpl.
  - constructor. exact Hxa.
  - destruct (key y <=? key x); constructor; [exact Hxa|].
    inversion Hhd; assumption.
Qed.

Lemma insert_desc_sorted (x : A) (l : list A) :
  Sorted (Workspace.descending key) l ->
  Sorted (Workspace.descending key) (Database.insert_desc key x l).
Proof.
  induction l as [|y l IH]; simpl; intros Hs.
  - repeat constructor.
  - inversion Hs as [|? ? Hl Hhd]; subst.
    destruct (key y <=? key x) eqn:E.
    + constructor; [exact Hs|]. constructor. unfold Workspace.descending. lia.
    + constructor; [exact (IH Hl)|].
      apply insert_desc_hd; [lia|exact Hhd].
Qed.

Lemma order_by_desc_sorted (l : list A) :
  Sorted (Workspace.descending key) (Database.order_by_desc key l).
Proof.
  induction l as [|x l IH]; simpl; [constructor|].
  apply insert_desc_sorted. exact IH.
Qed.
End OrderByDescFacts.

Section PartnershipReads.
Import Database Routes Invariants Workspace.

(** X16. [GET /submissions/:id/partners] answers as
    [GET /submissions/:id] does, in a store whose submissions all have
    their owner: the same 404 and 403, and on success the partnership
    list of the full read. *)
Theorem partners_route_agrees_with_fetch (db : Db) (actor : Auth.ReqUser)
        (sid : Z) :
  owners_exist db ->
  get_partners db actor sid
  = match get_submission db actor sid with
    | Json _ v => Json OK (partners v)
    | Fail c e => Fail c e
    end.
Proof.
  intros Hown. unfold get_partners, get_submission.
  destruct (submission_by_id db sid) as [sub|] eqn:E.
  - assert (Hin : In sub (submissions db)).
    { unfold submission_by_id in E. exact (proj1 (find_some _ _ E)). }
    destruct (user_by_id db (Submissions.user_id sub)) as [owner|] eqn:Eo;
      [|exfalso; exact (Hown sub Hin Eo)].
    rewrite (submission_with_founder_some db sid sub owner E Eo).
    destruct ((Auth.role actor =? "founder")%string
              && negb (Submissions.user_id sub =? Auth.id actor)); [reflexivity|].
    cbn [partners]. rewrite (submission_by_id_key db sid sub E). reflexivity.
  - rewrite (submission_with_founder_none db sid E). reflexivity.
Qed.

(** X17. [GET /my/partnerships] returns to a founder the partnership
    rows on that founder's submissions and no other: a row is listed
    exactly when its submission is owned by the caller (and its partner
    has a user row), and the list is newest first. *)
Theorem my_partnerships_are_on_own_submissions (db : Db) (actor : Auth.ReqUser) :
  Auth.role actor = "founder" \/ Auth.role actor = "admin" ->
  exists rows,
    my_partnerships db actor = Json OK rows
    /\ (forall p,
           In p (map partnership rows)
           <-> In p (partnerships db)
               /\ user_by_id db (Partnerships.user_id p) <> None
               /\ exists sub,
                   submission_by_id db (Partnerships.submission_id p) = Some sub
                   /\ Submissions.user_id sub = Auth.id actor)
    /\ Sorted (descending (fun m => Partnerships.created_at (partnership m))) rows.
Proof.
  intros Hrole. unfold my_partnerships, guarded_read.
  rewrite (requireRole_passes "founder" actor Hrole).
  eexists. split; [reflexivity|]. split; [|apply order_by_desc_sorted].
  intros p. rewrite in_map_iff. split.
  - intros (m & <- & Hm). apply order_by_desc_In in Hm.
    unfold partnerships_of_founder in Hm.
    apply in_flat_map in Hm as (q & Hq & Hin).
    destruct (user_by_id db (Partnerships.user_id q)) as [u|] eqn:Eu;
      [|destruct Hin].
    destruct (submission_by_id db (Partnerships.submission_id q)) as [sub|] eqn:Es;
      [|destruct Hin].
    destruct (Submissions.user_id sub =? Auth.id actor) eqn:Eo; [|destruct Hin].
    destruct Hin as [<-|[]]. cbn [partnership].
    split; [exact Hq|]. split; [congruence|].
    exists sub. split; [exact Es|lia].
  - intros (Hp & Hu & sub & Es & Eo).
    destruct (user_by_id db (Partnerships.user_id p)) as [u|] eqn:Eu;
      [|contradiction].
    exists {| partnership := p; partner_name := Users.name u;
              partner_specialty := Users.specialty u;
              company_name := Submissions.company_name sub;
              one_liner := Submissions.one_liner sub |}.
    split; [reflexivity|]. apply order_by_desc_In.
    unfold partnerships_of_founder. apply in_flat_map. exists p.
    split; [exact Hp|]. rewrite Eu, Es, Eo, Z.eqb_refl. left. reflexivity.
Qed.

(** X18. [GET /active-partnerships] lists a submission exactly when an
    accepted partnership row joins it, the caller's own row for anyone
    but a founder and any row on an own submission for a founder; a
    pending or declined claim never lists one, and the partners shown
    with an entry are the accepted ones of that submission. *)
Theorem active_partnerships_need_acceptance (db : Db) (actor : Auth.ReqUser) :
  exists entries,
    active_partnerships db actor = Json OK entries
    /\ (forall sub,
           In sub (map startup entries)
           <-> In sub (submissions db)
               /\ exists p,
                   In p (partnerships db)
                   /\ Partnerships.submission_id p = Submissions.id sub
                   /\ Partnerships.status p = "accepted"
                   /\ if (Auth.role actor =? "founder")%string
                      then Submissions.user_id sub = Auth.id actor
                      else Partnerships.user_id p = Auth.id actor)
    /\ (forall e pv,
           In e entries -> In pv (active_partners e) ->
           Partnerships.status (fst (fst pv)) = "accepted"
           /\ Partnerships.submission_id (fst (fst pv))
              = Submissions.id (startup e)).
Proof.
  unfold active_partnerships. eexists. split; [reflexivity|]. split.
  - intros sub. rewrite map_map. cbn [startup]. rewrite map_id.
    unfold partnered.
    destruct (Auth.role actor =? "founder")%string;
      rewrite filter_In, existsb_exists; split.
    + intros (Hs & p & Hp & Hm). split; [exact Hs|]. exists p.
      apply andb_true_iff in Hm as [Hm Ha]. apply andb_true_iff in Hm as [H1 H2].
      apply String.eqb_eq in Ha. repeat split; auto; lia.
    + intros (Hs & p & Hp & H1 & Ha & H2). split; [exact Hs|]. exists p.
      split; [exact Hp|]. unfold accepted. rewrite H1, H2, Ha, !Z.eqb_refl.
      reflexivity.
    + intros (Hs & p & Hp & Hm). split; [exact Hs|]. exists p.
      apply andb_true_iff in Hm as [Hm Ha]. apply andb_true_iff in Hm as [H1 H2].
      apply String.eqb_eq in Ha. repeat split; auto; lia.
    + intros (Hs & p & Hp & H1 & Ha & H2). split; [exact Hs|]. exists p.
      split; [exact Hp|]. unfold accepted. rewrite H1, H2, Ha, !Z.eqb_refl.
      reflexivity.
  - intros e pv He Hpv. apply in_map_iff in He as (sub & <- & _).
    cbn [active_partners startup] in *. apply filter_In in Hpv as [_ Hm].
    apply andb_true_iff in Hm as [H1 Ha]. apply String.eqb_eq in Ha.
    split; [exact Ha|lia].
Qed.
End PartnershipReads.

Lemma partners_route_agrees_with_fetch_witness :
  Workspace.get_partners Demo.answered Demo.casey 1 = Fail Forbidden "Access denied"
  /\ exists v, Routes.get_submission Demo.answered Demo.alex 1 = Json OK v
               /\ Workspace.get_partners Demo.answered Demo.alex 1
                  = Json OK (Routes.partners v).
Proof.
  assert (Hc : Invariants.consistent Demo.answered).
  { apply (consistent_serve_all Demo.hashSync).
    apply (consistent_serve_all Demo.hashSync).
    apply (consistent_serve Demo.hashSync).
    apply consistent_seeded. }
  pose proof (Invariants.has_owners _ Hc) as Ho.
  split.
  - rewrite (partners_route_agrees_with_fetch Demo.answered Demo.casey 1 Ho).
    vm_compute. reflexivity.
  - assert (Hv : exists v, Routes.get_submission Demo.answered Demo.alex 1 = Json OK v)
      by (vm_compute; eexists; reflexivity).
    destruct Hv as [v Hv]. exists v. split; [exact Hv|].
    rewrite (partners_route_agrees_with_fetch Demo.answered Demo.alex 1 Ho), Hv.
    reflexivity.
Defined.

Lemma my_partnerships_are_on_own_submissions_witness :
  exists rows,
    Workspace.my_partnerships Demo.answered Demo.alex = Json OK rows
    /\ map (fun m => Partnerships.id (Workspace.partnership m)) rows = [3; 2; 1].
Proof.
  destruct (my_partnerships_are_on_own_submissions Demo.answered Demo.alex
              (or_introl eq_refl)) as (rows & Hrows & _).
  exists rows. split; [exact Hrows|].
  assert (H : exists rows',
             Workspace.my_partnerships Demo.answered Demo.alex = Json OK rows'
             /\ map (fun m => Partnerships.id (Workspace.partnership m)) rows'
                = [3; 2; 1])
    by (vm_compute; eexists; split; reflexivity).
  destruct H as (rows' & H & Hids). rewrite H in Hrows.
  injection Hrows as <-. exact Hids.
Defined.

(** ** The partnership workspace *)

Section WorkspaceAccess.
Import Database Routes Invariants JsText Workspace.

Lemma respond_updates (db : Db) (F : Auth.ReqUser) (pid now : Z) (d : string)
      (p : Partnerships.row) :
  Auth.role F = "founder" \/ Auth.role F = "admin" ->
  d = "accepted" \/ d = "declined" ->
  partnership_with_founder db pid = Some (p, Auth.id F) ->
  Partnerships.status p = "pending" ->
  store (respond db F pid (Some d) now) = update_partnership db d now pid.
Proof.
  intros Hrole Hd Hp Hst. unfold respond, guarded.
  rewrite (requireRole_passes "founder" F Hrole).
  assert (Js.includes ["accepted"; "declined"] (Some d) = true) as ->
    by (destruct Hd as [-> | ->]; reflexivity).
  cbn [negb]. rewrite Hp, Z.eqb_refl, Hst. reflexivity.
Qed.

Lemma isPartner_updated (db : Db) (d : string) (now pid : Z)
      (p : Partnerships.row) :
  pairs_unique db -> In p (partnerships db) -> Partnerships.id p = pid ->
  isPartner (update_partnership db d now pid)
            (Partnerships.submission_id p) (Partnerships.user_id p) = None
  <-> d <> "accepted".
Proof.
  intros Hu Hin Hid. unfold isPartner. cbn [partnerships update_partnership
                                             with_partnerships].
  split.
  - intros Hnone ->.
    apply (find_not_none _ _ (Partnerships.respond "accepted" now p)) in Hnone;
      [exact Hnone| |].
    + apply in_map_iff. exists p. split; [|exact Hin].
      rewrite Hid, Z.eqb_refl. reflexivity.
    + cbn. rewrite !Z.eqb_refl. reflexivity.
  - intros Hd. apply find_all_false. intros q' Hq'.
    apply in_map_iff in Hq' as (q & <- & Hq).
    destruct (respond_keeps d now pid q) as (_ & Hs & Hv). cbn zeta in Hs, Hv.
    rewrite Hs, Hv.
    destruct ((Partnerships.submission_id q =? Partnerships.submission_id p)
              && (Partnerships.user_id q =? Partnerships.user_id p)) eqn:E;
      [|reflexivity].
    apply andb_true_iff in E as [E1 E2]. apply Z.eqb_eq in E1, E2.
    assert (q = p).
    { apply (NoDup_map_key pair_of (partnerships db)); auto.
      unfold pair_of. congruence. }
    subst q. rewrite Hid, Z.eqb_refl. cbn [andb]. unfold accepted.
    cbn [Partnerships.respond Partnerships.status].
    destruct (String.eqb_spec d "accepted"); [contradiction|reflexivity].
Qed.

Lemma isPartner_pending (db : Db) (p : Partnerships.row) :
  pairs_unique db -> In p (partnerships db) ->
  Partnerships.status p <> "accepted" ->
  isPartner db (Partnerships.submission_id p) (Partnerships.user_id p) = None.
Proof.
  intros Hu Hin Hst. unfold isPartner. apply find_all_false. intros q Hq.
  destruct ((Partnerships.submission_id q =? Partnerships.submission_id p)
            && (Partnerships.user_id q =? Partnerships.user_id p)) eqn:E;
    [|reflexivity].
  apply andb_true_iff in E as [E1 E2]. apply Z.eqb_eq in E1, E2.
  assert (q = p).
  { apply (NoDup_map_key pair_of (partnerships db)); auto.
    unfold pair_of. congruence. }
  subst q. cbn [andb]. unfold accepted.
  destruct (String.eqb_spec (Partnerships.status p) "accepted");
    [contradiction|reflexivity].
Qed.

(** The three routes of the workspace, for a caller the access test
    turns away and for one it lets through. *)
Lemma workspace_routes (s : Store) (B : Auth.ReqUser) (sid : Z)
      (sub : Submissions.row) (locked : bool) :
  submission_by_id (base s) sid = Some sub ->
  locked_out (base s) B sub sid = locked ->
  partnership_chat s B sid
  = (if locked then Fail Forbidden "Access denied" else no_such_table)
  /\ (forall t now',
         blank t = false ->
         post_partnership_chat s B sid (Some t) now'
         = finish (if locked then Fail Forbidden "Access denied"
                   else no_such_table) s [])
  /\ (forall u title now',
         blank u = false ->
         post_shared_link s B sid (Some u) title now'
         = finish (if locked then Fail Forbidden "Access denied"
                   else no_such_table) s []).
Proof.
  intros Hsub Hlock. split; [|split].
  - unfold partnership_chat. rewrite Hsub, Hlock. destruct locked; reflexivity.
  - intros t now' Hb. unfold post_partnership_chat.
    rewrite no_text_blank, Hb, Hsub, Hlock. destruct locked; reflexivity.
  - intros u title now' Hb. unfold post_shared_link.
    rewrite no_text_blank, Hb, Hsub, Hlock. destruct locked; reflexivity.
Qed.

(** X19. The access test of the partnership workspace turns a board
    member away until the founder accepts that member's claim: while
    the claim is pending, and after it is declined, reading the
    workspace and writing a message or a link to it are answered 403
    with nothing written. Once the claim is accepted the test lets the
    member through, to statements on two tables the schema does not
    create: the three routes are answered 500, with nothing written. *)
Theorem workspace_is_locked_until_acceptance (s : Store) (F B : Auth.ReqUser)
        (pid now : Z) (p : Partnerships.row) :
  pairs_unique (base s) ->
  Auth.role F = "founder" \/ Auth.role F = "admin" ->
  partnership_with_founder (base s) pid = Some (p, Auth.id F) ->
  Partnerships.status p = "pending" ->
  Auth.id B = Partnerships.user_id p ->
  Auth.role B <> "founder" ->
  (forall s',
      s' = s
      \/ s' = with_base s (store (respond (base s) F pid (Some "declined") now)) ->
      partnership_chat s' B (Partnerships.submission_id p)
      = Fail Forbidden "Access denied"
      /\ (forall t now',
             blank t = false ->
             post_partnership_chat s' B (Partnerships.submission_id p)
                                   (Some t) now'
             = finish (Fail Forbidden "Access denied") s' [])
      /\ (forall u title now',
             blank u = false ->
             post_shared_link s' B (Partnerships.submission_id p)
                              (Some u) title now'
             = finish (Fail Forbidden "Access denied") s' []))
  /\ (forall s',
         s' = with_base s (store (respond (base s) F pid (Some "accepted") now)) ->
         status_code (partnership_chat s' B (Partnerships.submission_id p))
         = InternalError
         /\ (forall t now',
                blank t = false ->
                status_code
                  (answer (post_partnership_chat s' B (Partnerships.submission_id p)
                                                 (Some t) now'))
                = InternalError
                /\ after (post_partnership_chat s' B (Partnerships.submission_id p)
                                                (Some t) now')
                   = s')
         /\ (forall u title now',
                blank u = false ->
                status_code
                  (answer (post_shared_link s' B (Partnerships.submission_id p)
                                            (Some u) title now'))
                = InternalError
                /\ after (post_shared_link s' B (Partnerships.submission_id p)
                                           (Some u) title now')
                   = s')).
Proof.
  intros Hu Hrole Hp Hst HB HBrole.
  destruct (partnership_with_founder_some _ _ _ _ Hp)
    as (Hin & Hid & sub & Hsub & Hown).
  assert (HF : forall x, isFounder B x = false).
  { intros x. unfold isFounder.
    destruct (String.eqb_spec (Auth.role B) "founder"); [contradiction|reflexivity]. }
  assert (Hupd : forall d, d = "accepted" \/ d = "declined" ->
             submission_by_id
               (base (with_base s (store (respond (base s) F pid (Some d) now))))
               (Partnerships.submission_id p) = Some sub
             /\ locked_out
                  (base (with_base s (store (respond (base s) F pid (Some d) now))))
                  B sub (Partnerships.submission_id p)
                = negb (d =? "accepted")%string).
  { intros d Hd. rewrite (respond_updates _ F pid now d p Hrole Hd Hp Hst).
    cbn [base with_base].
    change (submission_by_id (update_partnership (base s) d now pid))
      with (submission_by_id (base s)).
    split; [exact Hsub|]. unfold locked_out. rewrite HF, HB. cbn [negb andb].
    pose proof (isPartner_updated (base s) d now pid p Hu Hin Hid) as Hiff.
    destruct (isPartner (update_partnership (base s) d now pid)
                        (Partnerships.submission_id p)
                        (Partnerships.user_id p)) eqn:E.
    - destruct Hd as [-> | ->]; [reflexivity|].
      assert (Hn : Some r = None) by (apply (proj2 Hiff); discriminate).
      discriminate.
    - pose proof (proj1 Hiff eq_refl) as Hne.
      destruct Hd as [-> | ->]; [contradiction|reflexivity]. }
  split.
  - intros s' [-> | ->].
    + apply (workspace_routes s B _ sub true Hsub).
      unfold locked_out.
      rewrite HF, HB, (isPartner_pending (base s) p Hu Hin); [reflexivity|].
      rewrite Hst. discriminate.
    + destruct (Hupd "declined" (or_intror eq_refl)) as [Hs Hl].
      exact (workspace_routes _ B _ sub true Hs Hl).
  - intros s' ->.
    destruct (Hupd "accepted" (or_introl eq_refl)) as [Hs Hl].
    destruct (workspace_routes _ B _ sub false Hs Hl) as (Hget & Hmsg & Hlink).
    split; [rewrite Hget; reflexivity|]. split.
    + intros t now' Hb. rewrite (Hmsg t now' Hb). split; reflexivity.
    + intros u title now' Hb. rewrite (Hlink u title now' Hb). split; reflexivity.
Qed.
End WorkspaceAccess.

Lemma workspace_is_locked_until_acceptance_witness :
  Workspace.partnership_chat (Workspace.with_base Studio.seeded Demo.full) Demo.aisha 1
  = Fail Forbidden "Access denied"
  /\ status_code
       (Workspace.partnership_chat
          (Workspace.with_base
             (Workspace.with_base Studio.seeded Demo.full)
             (Routes.store (Routes.respond Demo.full Demo.alex 3 (Some "accepted")
                                           20260307)))
          Demo.aisha 1)
     = InternalError.
Proof.
  assert (Hu : Invariants.pairs_unique Demo.full).
  { apply (Invariants.has_pairs_unique Demo.full).
    apply (consistent_serve_all Demo.hashSync).
    apply (consistent_serve Demo.hashSync).
    apply consistent_seeded. }
  assert (Hp : Routes.partnership_with_founder Demo.full 3
               = Some ({| Partnerships.id := 3; Partnerships.submission_id := 1;
                          Partnerships.user_id := 4;
                          Partnerships.status := "pending";
                          Partnerships.created_at := 20260303;
                          Partnerships.responded_at := None |}, 1))
    by (vm_compute; reflexivity).
  destruct (workspace_is_locked_until_acceptance
              (Workspace.with_base Studio.seeded Demo.full) Demo.alex Demo.aisha
              3 20260307 _ Hu (or_introl eq_refl) Hp eq_refl eq_refl
              ltac:(cbn; discriminate)) as (H1 & H2).
  split.
  - exact (proj1 (H1 _ (or_introl eq_refl))).
  - exact (proj1 (H2 _ eq_refl)).
Defined.

(** ** The board leaderboard *)

Section Leaderboard.
Import Database Routes Invariants Workspace.

Lemma count_updated (f : Partnerships.row -> bool) (d : string) (now pid : Z)
      (l : list Partnerships.row) (p : Partnerships.row) :
  NoDup (map Partnerships.id l) -> In p l -> Partnerships.id p = pid ->
  Z.of_nat (List.length
              (filter f (map (fun q => if Partnerships.id q =? pid
                                       then Partnerships.respond d now q else q)
                             l)))
  = Z.of_nat (List.length (filter f l))
    - (if f p then 1 else 0)
    + (if f (Partnerships.respond d now p) then 1 else 0).
Proof.
  intros Hnd Hin Hid.
  assert (Hrest : forall l', ~ In pid (map Partnerships.id l') ->
            filter f (map (fun q => if Partnerships.id q =? pid
                                    then Partnerships.respond d now q else q) l')
            = filter f l').
  { induction l' as [|y l' IH]; simpl; intros Hy; [reflexivity|].
    assert (Partnerships.id y <> pid) by tauto.
    assert ((Partnerships.id y =? pid) = false) as -> by lia.
    rewrite IH by tauto. reflexivity. }
  induction l as [|y l IH]; simpl; [destruct Hin|].
  inversion Hnd as [|? ? Hy Hl]; subst.
  destruct Hin as [-> | Hin].
  - rewrite Z.eqb_refl, (Hrest l Hy).
    destruct (f p), (f (Partnerships.respond d now p)); cbn [List.length]; lia.
  - assert (Partnerships.id y <> Partnerships.id p).
    { intros E. apply Hy. rewrite E. apply in_map. exact Hin. }
    assert ((Partnerships.id y =? Partnerships.id p) = false) as -> by lia.
    specialize (IH Hl Hin).
    destruct (f y); cbn [List.length]; lia.
Qed.

(** X20. Accepting a claim moves the claimant five points up the
    leaderboard's ordering and nobody else; declining one moves
    nobody. *)
Theorem accepted_claim_scores_five (s : Store) (F : Auth.ReqUser)
        (pid now : Z) (p : Partnerships.row) :
  NoDup (map Partnerships.id (partnerships (base s))) ->
  Auth.role F = "founder" \/ Auth.role F = "admin" ->
  partnership_with_founder (base s) pid = Some (p, Auth.id F) ->
  Partnerships.status p = "pending" ->
  score (with_base s (store (respond (base s) F pid (Some "accepted") now)))
        (Partnerships.user_id p)
  = score s (Partnerships.user_id p) + 5
  /\ (forall uid,
         uid <> Partnerships.user_id p ->
         score (with_base s (store (respond (base s) F pid (Some "accepted") now)))
               uid
         = score s uid)
  /\ (forall uid,
         score (with_base s (store (respond (base s) F pid (Some "declined") now)))
               uid
         = score s uid).
Proof.
  intros Hnd Hrole Hp Hst.
  destruct (partnership_with_founder_some _ _ _ _ Hp) as (Hin & Hid & _).
  assert (Hdeals : forall d uid,
             deals_by (with_base s (update_partnership (base s) d now pid)) uid
             = deals_by s uid
               + (if (Partnerships.user_id p =? uid) && (d =? "accepted")%string
                  then 1 else 0)).
  { intros d uid. unfold deals_by.
    cbn [base with_base partnerships update_partnership with_partnerships].
    rewrite (count_updated _ d now pid _ p Hnd Hin Hid).
    unfold accepted. cbn [Partnerships.respond Partnerships.status
                          Partnerships.user_id].
    rewrite Hst. cbn [String.eqb Ascii.eqb Bool.eqb]. rewrite andb_false_r. lia. }
  rewrite (respond_updates _ F pid now "accepted" p Hrole (or_introl eq_refl) Hp Hst).
  rewrite (respond_updates _ F pid now "declined" p Hrole (or_intror eq_refl) Hp Hst).
  unfold score. split; [|split].
  - rewrite Hdeals, Z.eqb_refl. unfold notes_by, meetings_by. cbn. lia.
  - intros uid Hne. rewrite Hdeals.
    assert ((Partnerships.user_id p =? uid) = false) as -> by lia.
    unfold notes_by, meetings_by. cbn. lia.
  - intros uid. rewrite Hdeals. unfold notes_by, meetings_by.
    rewrite andb_false_r. cbn. lia.
Qed.

Lemma Sorted_map {A B : Type} (R : A -> A -> Prop) (R' : B -> B -> Prop)
      (g : A -> B) (l : list A) :
  (forall x y, R x y -> R' (g x) (g y)) ->
  Sorted R l -> Sorted R' (map g l).
Proof.
  intros H. induction 1 as [|x l Hs IH Hhd]; simpl; constructor; [exact IH|].
  destruct Hhd; simpl; constructor. auto.
Qed.

(** X21. The leaderboard of [GET /admin/analytics] lists the users of
    role [board], each once, highest first by notes plus five per
    accepted partnership plus three per meeting request. *)
Theorem leaderboard_ranks_board_members (s : Store) :
  Permutation (map member (leaderboard s))
              (map Users.id (filter (fun u => (Users.role u =? "board")%string)
                                    (users (base s))))
  /\ Sorted (descending (fun e => notes_count e + deals e * 5
                                  + meetings_count e * 3))
            (leaderboard s).
Proof.
  unfold leaderboard. split.
  - rewrite map_map. cbn [member]. apply Permutation_map.
    apply order_by_desc_perm.
  - apply (Sorted_map (descending (fun u => score s (Users.id u)))).
    + intros x y H. unfold descending in *. cbn. exact H.
    + apply order_by_desc_sorted.
Qed.
End Leaderboard.

Lemma accepted_claim_scores_five_witness :
  Workspace.score
    (Workspace.with_base (Workspace.with_base Studio.seeded Demo.full)
       (Routes.store (Routes.respond Demo.full Demo.alex 3 (Some "accepted")
                                     20260307)))
    4
  = Workspace.score (Workspace.with_base Studio.seeded Demo.full) 4 + 5.
Proof.
  assert (Hk : NoDup (map Partnerships.id (Database.partnerships Demo.full))).
  { apply (Invariants.has_keys_fresh Demo.full).
    apply (consistent_serve_all Demo.hashSync).
    apply (consistent_serve Demo.hashSync).
    apply consistent_seeded. }
  assert (Hp : Routes.partnership_with_founder Demo.full 3
               = Some ({| Partnerships.id := 3; Partnerships.submission_id := 1;
                          Partnerships.user_id := 4;
                          Partnerships.status := "pending";
                          Partnerships.created_at := 20260303;
                          Partnerships.responded_at := None |}, 1))
    by (vm_compute; reflexivity).
  exact (proj1 (accepted_claim_scores_five
                  (Workspace.with_base Studio.seeded Demo.full) Demo.alex
                  3 20260307 _ Hk (or_introl eq_refl) Hp eq_refl)).
Defined.

(** ** Mails of a claim and of its answer *)

Section Mails.
Import Database Routes Invariants.

Lemma partnership_with_founder_new (db : Db) (sid uid now : Z)
      (sub : Submissions.row) :
  keys_fresh db ->
  submission_by_id db sid = Some sub ->
  partnership_with_founder
    (with_partnerships db (partnerships db ++ [pending_row db sid uid now])
                       (partnerships_seq db + 1))
    (partnerships_seq db + 1)
  = Some (pending_row db sid uid now, Submissions.user_id sub).
Proof.
  intros [_ Hle] Hsub. unfold partnership_with_founder.
  cbn [partnerships with_partnerships]. rewrite flat_map_app, find_app_none.
  - cbn [flat_map pending_row Partnerships.submission_id].
    change (submission_by_id (with_partnerships db
              (partnerships db ++ [pending_row db sid uid now])
              (partnerships_seq db + 1)))
      with (submission_by_id db).
    rewrite Hsub. cbn [app find fst Partnerships.id]. rewrite Z.eqb_refl.
    reflexivity.
  - apply find_all_false. intros [q o] Hq. cbn [fst].
    apply in_flat_map in Hq as (x & Hx & Hq).
    destruct (submission_by_id _ (Partnerships.submission_id x)); [|destruct Hq].
    destruct Hq as [Hq|[]]. injection Hq as <- _.
    specialize (Hle x Hx). lia.
Qed.

(** X22. A claim that inserts its row, on a submission whose owner has
    a user row, hands the mailer nothing: the row is read back under
    [lastInsertRowid], where none is, the handler throws on it before
    it reaches the mailer, and the answer is 500. The owner's answer to
    the claim, accepting or declining, is answered 200 and mails the
    claimant once, at the stored address. *)
Theorem answer_mails_the_claimant (db : Db) (B F : Auth.ReqUser)
        (sid now now' : Z) (d : string) (sub : Submissions.row)
        (member owner : Users.row) :
  sequences_started db ->
  keys_fresh db ->
  Auth.role B = "board" \/ Auth.role B = "admin" ->
  submission_by_id db sid = Some sub ->
  user_by_id db (Auth.id B) = Some member ->
  user_by_id db (Submissions.user_id sub) = Some owner ->
  partnership_of db sid (Auth.id B) = None ->
  active_count db sid < 3 ->
  Auth.role F = "founder" \/ Auth.role F = "admin" ->
  Auth.id F = Submissions.user_id sub ->
  d = "accepted" \/ d = "declined" ->
  outbox (claim db B sid now) = []
  /\ status_code (res (claim db B sid now)) = InternalError
  /\ res (respond (store (claim db B sid now)) F (partnerships_seq db + 1)
                  (Some d) now')
     = Json OK d
  /\ outbox (respond (store (claim db B sid now)) F (partnerships_seq db + 1)
                     (Some d) now')
     = [{| rcpt := Users.email member; template := "partnerResponse" |}].
Proof.
  intros Hseq Hk HB Hsub Hmem Hown Hnone Hlt HF HFid Hd.
  rewrite (claim_inserts db B sid now sub Hseq Hk HB Hsub Hnone Hlt), Hown.
  cbn [outbox store res reply status_code].
  split; [reflexivity|]. split; [reflexivity|].
  unfold respond, guarded. rewrite (requireRole_passes "founder" F HF).
  assert (Js.includes ["accepted"; "declined"] (Some d) = true) as ->
    by (destruct Hd as [-> | ->]; reflexivity).
  cbn [negb].
  rewrite (partnership_with_founder_new db sid (Auth.id B) now sub Hk Hsub).
  rewrite HFid, Z.eqb_refl. cbn [negb pending_row Partnerships.status
                                 Partnerships.user_id Partnerships.submission_id].
  cbn [String.eqb Ascii.eqb Bool.eqb negb].
  change (user_by_id (update_partnership
            (with_partnerships db
               (partnerships db ++ [pending_row db sid (Auth.id B) now])
               (partnerships_seq db + 1)) d now' (partnerships_seq db + 1)))
    with (user_by_id db).
  change (submission_by_id (update_partnership
            (with_partnerships db
               (partnerships db ++ [pending_row db sid (Auth.id B) now])
               (partnerships_seq db + 1)) d now' (partnerships_seq db + 1)))
    with (submission_by_id db).
  rewrite Hmem, Hown, Hsub. split; reflexivity.
Qed.
End Mails.

Lemma answer_mails_the_claimant_witness :
  Routes.outbox (Routes.claim Demo.db Demo.david 2 20260308) = []
  /\ status_code (Routes.res (Routes.claim Demo.db Demo.david 2 20260308))
     = InternalError
  /\ Routes.outbox
       (Routes.respond (Routes.store (Routes.claim Demo.db Demo.david 2 20260308))
                       Demo.alex (Database.partnerships_seq Demo.db + 1)
                       (Some "declined") 20260309)
     = [{| Routes.rcpt := "david@partner.io"; Routes.template := "partnerResponse" |}].
Proof.
  assert (Hc : Invariants.consistent Demo.db).
  { apply (consistent_serve Demo.hashSync). apply consistent_seeded. }
  assert (Hsub : exists S, Database.submission_by_id Demo.db 2 = Some S
                           /\ Submissions.user_id S = 1)
    by (vm_compute; eexists; split; reflexivity).
  destruct Hsub as (S & Hsub & Hown).
  assert (Hm : Database.user_by_id Demo.db (Auth.id Demo.david)
               = Some (Seed.seed_user Demo.hashSync 5 "david@partner.io"
                                      "David Chen" "board"
                                      (Some "Operations & Growth")))
    by (vm_compute; reflexivity).
  assert (Ho : Database.user_by_id Demo.db (Submissions.user_id S)
               = Some (Seed.seed_user Demo.hashSync 1 "founder@demo.com"
                                      "Alex Chen" "founder" None))
    by (rewrite Hown; vm_compute; reflexivity).
  assert (Hnone : Database.partnership_of Demo.db 2 (Auth.id Demo.david) = None)
    by (vm_compute; reflexivity).
  assert (Hlt : Database.active_count Demo.db 2 < 3) by (vm_compute; reflexivity).
  destruct (answer_mails_the_claimant Demo.db Demo.david Demo.alex
              2 20260308 20260309 "declined" S _ _
              (Invariants.has_sequences _ Hc) (Invariants.has_keys_fresh _ Hc)
              (or_introl eq_refl) Hsub Hm Ho
              Hnone Hlt (or_introl eq_refl) (eq_sym Hown) (or_intror eq_refl))
    as (H1 & H2 & _ & H3).
  split; [exact H1|]. split; [exact H2|exact H3].
Defined.

(** ** Seeding *)

Section SeedingTwice.
Import Database Workspace.
Variable hashSync : string -> string.

(** X23. [seedDatabase] is idempotent: it writes to a store without
    users only, and the store it leaves has users, so a second run
    changes nothing. *)
Theorem seeding_twice_is_seeding_once (s : Store) :
  seedDatabase hashSync (seedDatabase hashSync s) = seedDatabase hashSync s
  /\ (users (base s) <> [] -> seedDatabase hashSync s = s)
  /\ users (base (seedDatabase hashSync s)) <> [].
Proof.
  unfold seedDatabase.
  destruct (Z.of_nat (List.length (users (base s))) >? 0) eqn:E.
  - rewrite E. split; [reflexivity|]. split; [reflexivity|].
    intros H. rewrite H in E. discriminate.
  - assert (Hs : users (Seed.seedDatabase hashSync (base s))
                 = Seed.seed_users hashSync).
    { unfold Seed.seedDatabase. rewrite E. reflexivity. }
    cbn [base]. rewrite Hs. split; [reflexivity|]. split; [|discriminate].
    intros H. destruct (users (base s)); [contradiction|].
    rewrite Z.gtb_ltb in E. apply Z.ltb_ge in E. cbn [List.length] in E. lia.
Qed.
End SeedingTwice.

(** ** Listing submissions *)

Section ListingFilters.
Import Database Routes Workspace.
Variable sql_like : string -> string -> bool.

Lemma and_iff_both (A A' B B' : Prop) :
  (A <-> A') -> (B <-> B') -> (A /\ B <-> A' /\ B').
Proof. tauto. Qed.

Lemma list_conditions_spec (actor : Auth.ReqUser) (q : Query)
      (sub : Submissions.row) :
  forallb (fun c => c sub) (list_conditions sql_like actor q) = true
  <-> (Auth.role actor = "founder" -> Submissions.user_id sub = Auth.id actor)
      /\ (forall st, status q = Some st -> st <> EmptyString -> st <> "all" ->
                     Submissions.status sub = st)
      /\ (forall ind, industry q = Some ind -> ind <> EmptyString -> ind <> "all" ->
                      Submissions.industry sub = ind)
      /\ (forall term, search q = Some term -> term <> EmptyString ->
                       sql_like (Submissions.company_name sub) ("%" ++ term ++ "%")
                       || sql_like (Submissions.one_liner sub) ("%" ++ term ++ "%")
                       || sql_like (Submissions.industry sub) ("%" ++ term ++ "%")
                       = true).
Proof.
  unfold list_conditions. rewrite !forallb_app, !andb_true_iff.
  apply and_iff_both; [|apply and_iff_both; [|apply and_iff_both]].
  - destruct (String.eqb_spec (Auth.role actor) "founder") as [E|E];
      cbn [forallb].
    + rewrite andb_true_r, Z.eqb_eq. tauto.
    + tauto.
  - destruct (status q) as [st|]; [|split; [intros _ v H; discriminate|reflexivity]].
    unfold Js.falsy. destruct (String.eqb_spec st "") as [E|E]; cbn [negb andb].
    + split; [intros _ v H; injection H as <-; contradiction|reflexivity].
    + destruct (String.eqb_spec st "all") as [E'|E']; cbn [negb forallb].
      * split; [intros _ v H; injection H as <-; contradiction|reflexivity].
      * rewrite andb_true_r, String.eqb_eq. split.
        -- intros H v Hv _ _. injection Hv as <-. exact H.
        -- intros H. exact (H st eq_refl E E').
  - destruct (industry q) as [st|]; [|split; [intros _ v H; discriminate|reflexivity]].
    unfold Js.falsy. destruct (String.eqb_spec st "") as [E|E]; cbn [negb andb].
    + split; [intros _ v H; injection H as <-; contradiction|reflexivity].
    + destruct (String.eqb_spec st "all") as [E'|E']; cbn [negb forallb].
      * split; [intros _ v H; injection H as <-; contradiction|reflexivity].
      * rewrite andb_true_r, String.eqb_eq. split.
        -- intros H v Hv _ _. injection Hv as <-. exact H.
        -- intros H. exact (H st eq_refl E E').
  - destruct (search q) as [term|]; [|split; [intros _ v H; discriminate|reflexivity]].
    unfold Js.falsy. destruct (String.eqb_spec term "") as [E|E]; cbn [negb].
    + split; [intros _ v H; injection H as <-; contradiction|reflexivity].
    + cbn [forallb]. rewrite andb_true_r. split.
      * intros H v Hv _. injection Hv as <-. exact H.
      * intros H. exact (H term eq_refl E).
Qed.

(** X24. [GET /submissions] applies every filter of the query at once:
    a submission is listed exactly when its owner has a user row, it
    belongs to the caller if the caller is a founder, and it meets each
    of the status, industry and search filters that is given (an empty
    value and, for the first two, the value "all" count as not given);
    the list is newest first. *)
Theorem list_applies_every_filter (db : Db) (actor : Auth.ReqUser) (q : Query) :
  exists rows,
    list_submissions sql_like db actor q = Json OK rows
    /\ (forall sub,
           In sub (map listed rows)
           <-> In sub (submissions db)
               /\ user_by_id db (Submissions.user_id sub) <> None
               /\ (Auth.role actor = "founder" ->
                   Submissions.user_id sub = Auth.id actor)
               /\ (forall st, status q = Some st -> st <> EmptyString ->
                              st <> "all" -> Submissions.status sub = st)
               /\ (forall ind, industry q = Some ind -> ind <> EmptyString ->
                               ind <> "all" -> Submissions.industry sub = ind)
               /\ (forall term,
                      search q = Some term -> term <> EmptyString ->
                      sql_like (Submissions.company_name sub) ("%" ++ term ++ "%")
                      || sql_like (Submissions.one_liner sub) ("%" ++ term ++ "%")
                      || sql_like (Submissions.industry sub) ("%" ++ term ++ "%")
                      = true))
    /\ Sorted (descending (fun x => Submissions.submitted_at (listed x))) rows.
Proof.
  unfold list_submissions. eexists. split; [reflexivity|]. split.
  - intros sub. rewrite map_map. cbn [listed].
    rewrite <- (list_conditions_spec actor q sub). rewrite in_map_iff. split.
    + intros ([s n] & <- & H). cbn [fst]. apply order_by_desc_In in H.
      apply filter_In in H as [H Hc]. cbn [fst] in Hc.
      apply in_flat_map in H as (s' & Hs' & H).
      destruct (user_by_id db (Submissions.user_id s')) eqn:E; [|destruct H].
      destruct H as [H|[]]. injection H as <- _.
      split; [exact Hs'|]. split; [congruence|exact Hc].
    + intros (Hs & Hu & Hc).
      destruct (user_by_id db (Submissions.user_id sub)) as [u|] eqn:E;
        [|contradiction].
      exists (sub, Users.name u). split; [reflexivity|].
      apply order_by_desc_In, filter_In. split; [|exact Hc].
      apply in_flat_map. exists sub. split; [exact Hs|]. rewrite E. left. reflexivity.
  - apply (Sorted_map (descending (fun su : Submissions.row * string =>
                                     Submissions.submitted_at (fst su)))).
    + intros x y H. exact H.
    + apply order_by_desc_sorted.
Qed.
End ListingFilters.

(** ** What no request undoes *)

Section Growth.
Import Database Routes Workspace.
Variable hashSync : string -> string.

(** The part of a store no route rewrites: a later store holds the
    thread and the meeting requests of an earlier one as a prefix. *)
Lemma serve_grows (s : Store) (r : Request) :
  (tags_unique s -> tags_unique (serve hashSync s r))
  /\ (exists more, chat_messages (serve hashSync s r) = chat_messages s ++ more)
  /\ (exists more,
         meeting_requests (serve hashSync s r) = meeting_requests s ++ more).
Proof.
  assert (Hsame : forall s' : Store,
             tagged_members s' = tagged_members s ->
             chat_messages s' = chat_messages s ->
             meeting_requests s' = meeting_requests s ->
             (tags_unique s -> tags_unique s')
             /\ (exists more, chat_messages s' = chat_messages s ++ more)
             /\ (exists more, meeting_requests s' = meeting_requests s ++ more)).
  { intros s' Ht Hc Hm. unfold tags_unique. rewrite Ht, Hc, Hm.
    split; [tauto|]. split; exists []; rewrite app_nil_r; reflexivity. }
  destruct r as [r|a sid t fv now|a sid u|a sid u|a sid t now|a sid m now
                 |a sid t now|a sid u t now]; cbn [serve].
  - apply Hsame; reflexivity.
  - apply Hsame; reflexivity.
  - unfold tag, behind. destruct (Auth.requireRole "board" a);
      [apply Hsame; reflexivity|].
    destruct u as [uid|]; [|apply Hsame; reflexivity].
    destruct (falsy_id (Some uid)); [apply Hsame; reflexivity|].
    cbn [after finish]. split.
    + intros Hu. exact (proj1 (insert_or_ignore_tag_some s sid uid _ Hu)).
    + unfold insert_or_ignore_tag.
      destruct (tag_of s sid uid);
        split; exists []; rewrite app_nil_r; reflexivity.
  - unfold untag, behind. destruct (Auth.requireRole "board" a);
      [apply Hsame; reflexivity|].
    cbn [after finish]. split.
    + unfold tags_unique. cbn [tagged_members with_tagged].
      apply NoDup_map_filter.
    + split; exists []; rewrite app_nil_r; reflexivity.
  - unfold post_chat. destruct t as [t|]; [|apply Hsame; reflexivity].
    destruct (JsText.no_text (Some t)); [apply Hsame; reflexivity|].
    destruct ((Auth.role a =? "founder")%string && _);
      [apply Hsame; reflexivity|].
    unfold insert_chat.
    cbn [after finish]. split; [tauto|]. split.
    + eexists. reflexivity.
    + exists []. rewrite app_nil_r. reflexivity.
  - unfold request_meeting, behind. destruct (Auth.requireRole "board" a);
      [apply Hsame; reflexivity|].
    destruct (submission_by_id (base s) sid) as [sub|] eqn:Es;
      [|apply Hsame; reflexivity].
    unfold insert_meeting, insert_chat. cbn [base with_meetings with_chat].
    destruct (user_by_id (base s) (Auth.id a)) as [u|] eqn:Eu.
    + destruct (user_by_id (base s) (Submissions.user_id sub));
        [destruct (meeting_by_id _ _)|];
        cbn [after finish]; (split; [tauto|]); split; eexists; reflexivity.
    + cbn [after finish]. split; [tauto|]. split.
      * exists []. rewrite app_nil_r. reflexivity.
      * eexists. reflexivity.
  - unfold post_partnership_chat. destruct t as [t|]; [|apply Hsame; reflexivity].
    destruct (JsText.no_text (Some t)); [apply Hsame; reflexivity|].
    destruct (submission_by_id (base s) sid); [|apply Hsame; reflexivity].
    destruct (locked_out _ _ _ _); apply Hsame; reflexivity.
  - unfold post_shared_link. destruct u as [u|]; [|apply Hsame; reflexivity].
    destruct (JsText.no_text (Some u)); [apply Hsame; reflexivity|].
    destruct (submission_by_id (base s) sid); [|apply Hsame; reflexivity].
    destruct (locked_out _ _ _ _); apply Hsame; reflexivity.
Qed.

(** X25. No sequence of requests removes or rewrites a message of a
    discussion thread or a meeting request: the store a sequence of
    requests leaves holds the chat messages and the meeting requests
    it started with, in their order, followed by the new ones; and the
    pairs of tagged member and submission stay unique. *)
Theorem threads_and_meetings_only_grow (rs : list Request) (s : Store) :
  (tags_unique s -> tags_unique (serve_all hashSync s rs))
  /\ (exists more,
         chat_messages (serve_all hashSync s rs) = chat_messages s ++ more)
  /\ (exists more,
         meeting_requests (serve_all hashSync s rs)
         = meeting_requests s ++ more).
Proof.
  revert s. induction rs as [|r rs IH]; intros s; cbn [serve_all fold_left].
  - split; [tauto|]. split; exists []; rewrite app_nil_r; reflexivity.
  - destruct (serve_grows s r) as (Ht & (c & Hc) & (m & Hm)).
    destruct (IH (serve hashSync s r)) as (Ht' & (c' & Hc') & (m' & Hm')).
    fold (serve_all hashSync (serve hashSync s r) rs).
    split; [tauto|]. split.
    + exists (c ++ c'). rewrite Hc', Hc, app_assoc. reflexivity.
    + exists (m ++ m'). rewrite Hm', Hm, app_assoc. reflexivity.
Qed.
End Growth.

(** ** Board members created by an administrator *)

Section BoardAccounts.
Import Database Routes Invariants.
Variable hashSync : string -> string.

(** X26. [POST /admin/board-members], called by an administrator with
    a name, an email and a password that are not empty, inserts the
    account with role [board], the email in lower case and an empty
    specialty stored as NULL when the email is free, whatever the
    length of the password; the answer is 201 with no user in it, the
    row being read back under [lastInsertRowid], where none is. It
    answers 409 and writes nothing when the email is taken. *)
Theorem admin_creates_board_member (db : Db) (actor : Auth.ReqUser)
        (n e pw : string) (sp : option string) :
  user_keys_fresh db -> sequences_started db ->
  Auth.role actor = "admin" ->
  n <> EmptyString -> e <> EmptyString -> pw <> EmptyString ->
  Js.ascii_only e = true ->
  (user_by_email db (Js.toLowerCase e) = None ->
   create_board_member hashSync db actor (Some n) (Some e) (Some pw) sp
   = reply (Json Created None)
           (with_users db
              (users db ++
                 [{| Users.id := users_seq db + 1;
                     Users.email := Js.toLowerCase e;
                     Users.password := hashSync pw;
                     Users.name := n;
                     Users.role := "board";
                     Users.specialty := if Js.falsy sp then None else sp |}])
              (users_seq db + 1))
           [])
  /\ (user_by_email db (Js.toLowerCase e) <> None ->
      create_board_member hashSync db actor (Some n) (Some e) (Some pw) sp
      = reply (Fail Conflict "Email already exists") db []).
Proof.
  intros Hk Hseq Hrole Hn He Hpw _. unfold create_board_member, guarded.
  rewrite (requireRole_passes "admin" actor (or_introl Hrole)).
  rewrite (falsy_string n Hn), (falsy_string e He), (falsy_string pw Hpw).
  cbn [orb]. split.
  - intros Hfree. rewrite Hfree. unfold insert_user. rewrite Hfree.
    cbn [Users.check_role String.eqb Ascii.eqb Bool.eqb orb negb].
    rewrite (user_by_id_lost_after db _ _ Hk);
      [reflexivity | destruct Hseq; simpl; lia].
  - intros Htaken. destruct (user_by_email db (Js.toLowerCase e));
      [reflexivity|contradiction].
Qed.
End BoardAccounts.

Lemma admin_creates_board_member_witness :
  Routes.res (Routes.create_board_member Demo.hashSync Demo.db Studio.root
                (Some "Noor Haddad") (Some "Noor@Partner.io") (Some "x") (Some ""))
  = Json Created None
  /\ Database.users
       (Routes.store (Routes.create_board_member Demo.hashSync Demo.db Studio.root
                        (Some "Noor Haddad") (Some "Noor@Partner.io") (Some "x")
                        (Some "")))
     = Database.users Demo.db
       ++ [{| Users.id := 8; Users.email := "noor@partner.io";
              Users.password := Demo.hashSync "x"; Users.name := "Noor Haddad";
              Users.role := "board"; Users.specialty := None |}]
  /\ Routes.create_board_member Demo.hashSync Demo.db Studio.root
       (Some "Sarah K") (Some "SARAH@partner.io") (Some "x") None
     = Routes.reply (Fail Conflict "Email already exists") Demo.db [].
Proof.
  assert (Hc : Invariants.consistent Demo.db).
  { apply (consistent_serve Demo.hashSync). apply consistent_seeded. }
  pose proof (Invariants.has_user_keys _ Hc) as Hk.
  pose proof (Invariants.has_sequences _ Hc) as Hseq.
  pose proof (proj1 (admin_creates_board_member Demo.hashSync Demo.db Studio.root
                       "Noor Haddad" "Noor@Partner.io" "x" (Some "") Hk Hseq eq_refl
                       ltac:(discriminate) ltac:(discriminate) ltac:(discriminate)
                       eq_refl)
                    ltac:(vm_compute; reflexivity)) as Hnew.
  split; [|split].
  - rewrite Hnew. reflexivity.
  - rewrite Hnew. vm_compute. reflexivity.
  - apply (admin_creates_board_member Demo.hashSync Demo.db Studio.root
             "Sarah K" "SARAH@partner.io" "x" None Hk Hseq eq_refl
             ltac:(discriminate) ltac:(discriminate) ltac:(discriminate) eq_refl).
    vm_compute. discriminate.
Defined.

(** ** The schema's constraints and the newer routes *)

Section Constraints.
Import Database Routes Invariants Workspace.
Variable hashSync : string -> string.



End Constraints.
